(** * Arlington PDF model: grammar reader, self-check and version reduction

    A shallow embedding of

    - [CGrammarReader::load] and [CGrammarReader::check]
      (TestGrammar/src/GrammarFile.cpp), and
    - the row loop of [XMLCreator.createXML] with the node builders it
      calls (gcxml, XMLCreator.java),

    followed by the properties established about them.

    - Part I, [GrammarFile]: the reader and its self-check.
    - Part II, [XMLCreator]: the reduction of a TSV file to the entries of
      one [OBJECT] element for a target PDF version.
    - Part III, [SpecHandler]: a [TSVHandler] and a number parser with which
      the creator can be run on sample rows.
    - Part IV: the notions the statements use, and sample inputs.
    - Parts V and VI: lemmas and theorems.

    Conventions.  Characters are 8-bit ([ascii]); a C++ [std::string] and a
    Java [String] are both a [string].  Reading a [std::vector] outside its
    bounds is undefined behaviour in C++ and is modelled by the distinguished
    outcome [UB]; a Java exception is modelled by [Throw], and a run of
    [createXML] in which one is thrown writes no XML.  The helpers that are
    declared outside the two source files (utils.h, GrammarFile.h,
    TSVHandler.java, the Java library's [Float.parseFloat]) are parameters
    of the definitions that call them. *)

From Stdlib Require Import Bool Arith ZArith Lia List Ascii String.
From Corelib Require Import SpecFloat.
Import ListNotations.

Local Open Scope string_scope.
Local Open Scope list_scope.

(** [s] begins with [p]: [s.rfind(p, 0) == 0] in C++, [s.startsWith(p)] in
    Java. *)
Fixpoint starts_with (s p : string) {struct p} : bool :=
  match p, s with
  | EmptyString, _ => true
  | String c p', String d s' => Ascii.eqb d c && starts_with s' p'
  | String _ _, EmptyString => false
  end.

(* ===================================================================== *)
(** * Part I: GrammarFile.cpp                                             *)
(* ===================================================================== *)

Module GrammarFile.

(** ** Strings as the C++ code uses them *)

(** [::toupper] in the "C" locale: only [a]..[z] change. *)
Definition toupper (c : ascii) : ascii :=
  let n := nat_of_ascii c in
  if ((97 <=? n) && (n <=? 122))%nat then ascii_of_nat (n - 32) else c.

(** [std::transform(s.begin(), s.end(), s.begin(), ::toupper)]. *)
Fixpoint transform_toupper (s : string) : string :=
  match s with
  | EmptyString => EmptyString
  | String c s' => String (toupper c) (transform_toupper s')
  end.

(** The splitting loop of [load] (lines 48-54): cut at every occurrence of
    the delimiter, keep empty pieces, the remainder is the last word. *)
Fixpoint split_line (d : ascii) (line : string) : list string :=
  match line with
  | EmptyString => [EmptyString]
  | String c rest =>
      if Ascii.eqb c d then EmptyString :: split_line d rest
      else match split_line d rest with
           | w :: ws => String c w :: ws
           | [] => [String c EmptyString]
           end
  end.

(** Modelled from the spec: the column indices [TSV_KEYNAME] .. [TSV_NOTES]
    are declared in GrammarFile.h, which is not among the sources.  The
    schema source format lists the columns in this order (key name, type
    list, introduced version, deprecated version, required, indirect
    reference, inheritable, default values, possible values, special case,
    links, optional notes); XMLCreator.java indexes its columns the same
    way. *)
Definition TSV_KEYNAME : nat := 0.
Definition TSV_TYPE : nat := 1.
Definition TSV_SINCEVERSION : nat := 2.
Definition TSV_DEPRECATEDIN : nat := 3.
Definition TSV_REQUIRED : nat := 4.
Definition TSV_INDIRECTREF : nat := 5.
Definition TSV_INHERITABLE : nat := 6.
Definition TSV_DEFAULTVALUE : nat := 7.
Definition TSV_POSSIBLEVALUES : nat := 8.
Definition TSV_SPECIALCASE : nat := 9.
Definition TSV_LINK : nat := 10.
Definition TSV_NOTES : nat := 11.

(** ** Outcomes *)

(** A diagnostic line written to [report_stream]. *)
Inductive Finding : Type :=
| EmptyGrammarFile
| WrongNumberOfColumns
| WrongHeaders
| DuplicateKeys (key : string)
| WrongTypesVsLinks (key : string)
| WrongPatternInLinks (key : string)
| TypeNotLinked (type key : string)
| LinkDoesntExist (lnk key : string)
| WrongType (type key : string)
| ComplexTypeHasPossibleValue (possible_values key : string)
| WrongTypesVsPossibleValues (key : string)
| NotInheritable (key : string).

(** The text of each line, as the [<<] chains of [check] build it. *)
Definition render (file_name : string) (f : Finding) : string :=
  match f with
  | EmptyGrammarFile => "Empty grammar file:" ++ file_name
  | WrongNumberOfColumns => "Wrong number of columns: " ++ file_name
  | WrongHeaders => "Wrong headers for columns: " ++ file_name
  | DuplicateKeys k => "Duplicate keys in: " ++ file_name ++ "::" ++ k
  | WrongTypesVsLinks k =>
      "Wrong # of types vs. # of links " ++ file_name ++ "::" ++ k
  | WrongPatternInLinks k =>
      "Wrong pattern in links " ++ file_name ++ "::" ++ k
  | TypeNotLinked t k =>
      "Type " ++ t ++ " not linked in: " ++ file_name ++ "::" ++ k
  | LinkDoesntExist l k =>
      "Link doesn't exist: " ++ l ++ " in: " ++ file_name ++ "::" ++ k
  | WrongType t k => "Wrong type:" ++ t ++ " in:" ++ file_name ++ "::" ++ k
  | ComplexTypeHasPossibleValue pv k =>
      "Complex type does have possible value defined:" ++ pv
        ++ " in:" ++ file_name ++ "::" ++ k
  | WrongTypesVsPossibleValues k =>
      "Wrong # of types vs. # of possible values " ++ file_name ++ "::" ++ k
  | NotInheritable k => file_name ++ "::" ++ k
  end.

(** A run of C++ code that writes findings: it either returns a value or
    reaches undefined behaviour; in both cases [emitted] is what was written
    up to that point. *)
Inductive Run (A : Type) : Type :=
| Ret (a : A) (out : list Finding)
| UB (out : list Finding).
Arguments Ret {A} a out.
Arguments UB {A} out.

Definition emitted {A} (r : Run A) : list Finding :=
  match r with Ret _ o => o | UB o => o end.

Definition bind {A B} (m : Run A) (f : A -> Run B) : Run B :=
  match m with
  | Ret a o =>
      match f a with
      | Ret b o' => Ret b (o ++ o')
      | UB o' => UB (o ++ o')
      end
  | UB o => UB o
  end.

Definition pure {A} (a : A) : Run A := Ret a [].
Definition emit (f : Finding) : Run unit := Ret tt [f].
Definition when (b : bool) (m : Run unit) : Run unit :=
  if b then m else pure tt.

(** [v[i]]: defined only inside the vector. *)
Definition at_ {A} (v : list A) (i : nat) : Run A :=
  match nth_error v i with
  | Some x => pure x
  | None => UB []
  end.

Declare Scope run_scope.
Delimit Scope run_scope with run.
Notation "x <- m ;; k" := (bind m (fun x => k))
  (at level 61, m at next level, right associativity) : run_scope.
Notation "m ;;; k" := (bind m (fun _ => k))
  (at level 61, right associativity) : run_scope.
Local Open Scope run_scope.

(** [for (auto x : l) body(x)] *)
Fixpoint for_each {X} (l : list X) (body : X -> Run unit) : Run unit :=
  match l with
  | [] => pure tt
  | x :: l' => body x ;;; for_each l' body
  end.

(** [for (size_t i = start; i < v.size(); i++) body(i, v[i])] *)
Fixpoint for_each_from {X} (start : nat) (l : list X)
  (body : nat -> X -> Run unit) : Run unit :=
  match l with
  | [] => pure tt
  | x :: l' => body start x ;;; for_each_from (S start) l' body
  end.

(** ** The reader *)

Section Reader.

(** The reader's members and the helpers of utils.h that it calls. *)
Variable file_name : string.
Variable delimeter : ascii.
(** [basic_types] (GrammarFile.h): the recognised type names. *)
Variable basic_types : list string.
(** [split(s, c)] of utils.h. *)
Variable split : string -> ascii -> list string.
(** [file_exists] and [get_path_dir] of utils.h (the file system). *)
Variable file_exists : string -> bool.
Variable get_path_dir : string -> string.

Definition data_list_t : Type := list (list string).

(** [std::transform(vec[k]...)]: [vec[k]] must exist. *)
Definition upper_column (k : nat) (vec : list string) : option (list string) :=
  match nth_error vec k with
  | Some s => Some (firstn k vec ++ transform_toupper s :: skipn (S k) vec)
  | None => None
  end.

(** The result of [load]: the returned flag and the member [data_list], or
    undefined behaviour. *)
Inductive LoadResult : Type :=
| Loaded (ok : bool) (data_list : data_list_t)
| LoadUB.

(** The body of the [while (getline(file, line))] loop, lines 45-67. *)
Fixpoint load_lines (data_list : data_list_t) (lines : list string)
  : LoadResult :=
  match lines with
  | [] => Loaded true data_list
  | line :: lines' =>
      let vec := split_line delimeter line in
      if (match data_list with [] => true | _ => false end)
           && (List.length vec <? TSV_NOTES)%nat
      then Loaded false data_list
      else
        match upper_column TSV_TYPE vec with
        | None => LoadUB
        | Some v1 =>
        match upper_column TSV_REQUIRED v1 with
        | None => LoadUB
        | Some v2 =>
        match upper_column TSV_INDIRECTREF v2 with
        | None => LoadUB
        | Some v3 =>
        match upper_column TSV_INHERITABLE v3 with
        | None => LoadUB
        | Some v4 => load_lines (data_list ++ [v4]) lines'
        end end end end
  end.

(** [CGrammarReader::load].  [file] is the content of [file_name] as the
    lines [getline] yields, or [None] when the file cannot be opened: the
    stream is then in a failed state and the loop body never runs. *)
Definition load (file : option (list string)) (data_list : data_list_t)
  : LoadResult :=
  match file with
  | None => Loaded true data_list
  | Some lines => load_lines data_list lines
  end.

(** The regular expression of line 124, [^\[[A-Z,a-z,0-9,_,\,]*\]$], as
    [std::regex_match] applies it to the whole string. *)
Definition link_char (c : ascii) : bool :=
  let n := nat_of_ascii c in
  (((65 <=? n) && (n <=? 90)) || ((97 <=? n) && (n <=? 122))
   || ((48 <=? n) && (n <=? 57)) || (n =? 95) || (n =? 44))%nat.

Fixpoint link_tail (s : string) : bool :=
  match s with
  | EmptyString => false
  | String c EmptyString => Ascii.eqb c "]"
  | String c rest => link_char c && link_tail rest
  end.

Definition regex_match (s : string) : bool :=
  match s with
  | String c rest => Ascii.eqb c "[" && link_tail rest
  | EmptyString => false
  end.

Definition is_complex (t : string) : bool :=
  (t =? "ARRAY") || (t =? "DICTIONARY") || (t =? "NUMBER-TREE")
  || (t =? "NAME-TREE") || (t =? "STREAM").

Definition mem (x : string) (l : list string) : bool :=
  existsb (String.eqb x) l.

(** Lines 137-167: one link of the row. *)
Definition check_link (key : string) (types : list string)
  (link_pos : nat) (link : string) : Run unit :=
  if negb (regex_match link) then emit (WrongPatternInLinks key)
  else
    when ((link_pos <? List.length types)%nat && (link =? "[]")
          && is_complex (nth link_pos types ""))
         (emit (TypeNotLinked (nth link_pos types "") key)) ;;;
    let direct_links :=
      split (substring 1 (String.length link - 2) link) "," in
    for_each direct_links (fun lnk =>
      when (negb (lnk =? "")
            && negb (file_exists (get_path_dir file_name ++ "/" ++ lnk ++ ".tsv")))
           (emit (LinkDoesntExist lnk key))).

(** Lines 176-182: the possible value of a complex type.  The [&&] of line
    177-178 reads [vc[TSV_POSSIBLEVALUES]] only for a complex type. *)
Definition check_possible_value (vc : list string) (key : string)
  (t_pos : nat) (type : string) : Run unit :=
  if is_complex type then
    possible_values <- at_ vc TSV_POSSIBLEVALUES ;;
    if negb (possible_values =? "") then
      def_val <- at_ (split possible_values ";") t_pos ;;
      when (negb (def_val =? "[]"))
           (emit (ComplexTypeHasPossibleValue possible_values key))
    else pure tt
  else pure tt.

(** Lines 114-202: one iteration of the row loop.  [processed] is the list
    of keys seen so far; the new list is returned. *)
Definition check_row (processed : list string) (vc : list string)
  : Run (list string) :=
  key <- at_ vc TSV_KEYNAME ;;
  processed' <-
    (if mem key processed
     then emit (DuplicateKeys key) ;;; pure processed
     else pure (processed ++ [key])) ;;
  type <- at_ vc TSV_TYPE ;;
  let types := split type ";" in
  link <- at_ vc TSV_LINK ;;
  let links := split link ";" in
  when (negb (link =? ""))
       (when (negb (List.length links =? List.length types)%nat)
             (emit (WrongTypesVsLinks key)) ;;;
        for_each_from 0 links (check_link key types)) ;;;
  for_each types (fun t =>
    when (negb (mem t basic_types)) (emit (WrongType t key))) ;;;
  for_each_from 0 types (check_possible_value vc key) ;;;
  when (1 <? List.length types)%nat
       (pv <- at_ vc TSV_POSSIBLEVALUES ;;
        when (negb (pv =? ""))
             (when (negb (List.length types =? List.length (split pv ";"))%nat)
                   (emit (WrongTypesVsPossibleValues key)))) ;;;
  inh <- at_ vc TSV_INHERITABLE ;;
  when (negb (inh =? "TRUE") && negb (inh =? "FALSE"))
       (emit (NotInheritable key)) ;;;
  pure processed'.

(** The row loop of lines 113-203. *)
Fixpoint check_rows (processed : list string) (rows : data_list_t)
  : Run unit :=
  match rows with
  | [] => pure tt
  | vc :: rows' =>
      processed' <- check_row processed vc ;;
      check_rows processed' rows'
  end.

(** The header names of lines 100-104, each with the column it is read
    from.  [load] has already upper-cased four of the columns. *)
Definition header_names : list (nat * string) :=
  [ (TSV_KEYNAME, "Key"); (TSV_TYPE, "TYPE");
    (TSV_SINCEVERSION, "SinceVersion"); (TSV_DEPRECATEDIN, "DeprecatedIn");
    (TSV_REQUIRED, "REQUIRED"); (TSV_INDIRECTREF, "INDIRECTREFERENCE");
    (TSV_INHERITABLE, "INHERITABLE"); (TSV_DEFAULTVALUE, "DefaultValue");
    (TSV_POSSIBLEVALUES, "PossibleValues"); (TSV_SPECIALCASE, "SpecialCase");
    (TSV_LINK, "Link") ].

(** The [||] chain of lines 100-104, left to right with short circuit. *)
Fixpoint wrong_header (names : list (nat * string)) (vec : list string)
  : Run bool :=
  match names with
  | [] => pure false
  | (k, name) :: names' =>
      s <- at_ vec k ;;
      if negb (s =? name) then pure true else wrong_header names' vec
  end.

(** [CGrammarReader::check]. *)
Definition check (data_list : data_list_t) : Run bool :=
  match data_list with
  | [] => emit EmptyGrammarFile ;;; pure false
  | vec :: rows =>
      if (List.length vec <? 10)%nat then emit WrongNumberOfColumns ;;; pure false
      else
        wrong <- wrong_header header_names vec ;;
        if wrong then emit WrongHeaders ;;; pure false
        else check_rows [] rows ;;; pure true
  end.

End Reader.

(** Modelled from the spec: [split] of utils.h is not among the sources; a
    cell holds a list separated by [;] (or [,] inside brackets), cut at every
    separator the way [load] cuts a line at the delimiter. *)
Definition split (s : string) (c : ascii) : list string := split_line c s.

End GrammarFile.

(* ===================================================================== *)
(** * Part II: XMLCreator.java                                            *)
(* ===================================================================== *)

Module XMLCreator.

(** ** Exceptions *)

Inductive Throwable : Type :=
| NumberFormatException
| ArrayIndexOutOfBoundsException
| StringIndexOutOfBoundsException
| AssertionError (msg : string)
| OtherThrowable (name : string).

Inductive Exc (A : Type) : Type :=
| Ok (a : A)
| Throw (t : Throwable).
Arguments Ok {A} a.
Arguments Throw {A} t.

Definition bind {A B} (m : Exc A) (f : A -> Exc B) : Exc B :=
  match m with
  | Ok a => f a
  | Throw t => Throw t
  end.

Declare Scope exc_scope.
Delimit Scope exc_scope with exc.
Notation "x <- m ;; k" := (bind m (fun x => k))
  (at level 61, m at next level, right associativity) : exc_scope.
Notation "m ;;; k" := (bind m (fun _ => k))
  (at level 61, right associativity) : exc_scope.
Local Open Scope exc_scope.

(** ** java.lang.String, on 8-bit characters *)

(** [Character.isWhitespace] on the characters below 256. *)
Definition isWhitespace (c : ascii) : bool :=
  let n := nat_of_ascii c in
  (((9 <=? n) && (n <=? 13)) || ((28 <=? n) && (n <=? 32)))%nat.

Fixpoint isBlank (s : string) : bool :=
  match s with
  | EmptyString => true
  | String c rest => isWhitespace c && isBlank rest
  end.

Definition startsWith (s p : string) : bool := starts_with s p.

(** [s.length()] as a Java [int]. *)
Definition len (s : string) : Z := Z.of_nat (String.length s).

(** Java [int] arithmetic wraps around at 32 bits. *)
Definition int32 (z : Z) : Z :=
  ((z + 2147483648) mod 4294967296 - 2147483648)%Z.

(** [s.substring(beginIndex, endIndex)]. *)
Definition substring2 (s : string) (b e : Z) : Exc string :=
  if ((b <? 0) || (e >? len s) || (b >? e))%Z
  then Throw StringIndexOutOfBoundsException
  else Ok (substring (Z.to_nat b) (Z.to_nat (e - b)) s).

(** [s.charAt(i)]. *)
Definition charAt (s : string) (i : Z) : Exc ascii :=
  if (i <? 0)%Z then Throw StringIndexOutOfBoundsException
  else match String.get (Z.to_nat i) s with
       | Some c => Ok c
       | None => Throw StringIndexOutOfBoundsException
       end.

(** [s.indexOf(c)]: the first position of [c], or -1. *)
Fixpoint indexOf_from (c : ascii) (s : string) (i : Z) : Z :=
  match s with
  | EmptyString => (-1)%Z
  | String c' rest => if Ascii.eqb c' c then i else indexOf_from c rest (i + 1)%Z
  end.
Definition indexOf (s : string) (c : ascii) : Z := indexOf_from c s 0%Z.

(** [s.contains(p)]. *)
Fixpoint contains (s p : string) : bool :=
  starts_with s p ||
  match s with
  | EmptyString => false
  | String _ rest => contains rest p
  end.

(** [s.replace(c, "")] for a one-character target. *)
Fixpoint remove_char (c : ascii) (s : string) : string :=
  match s with
  | EmptyString => EmptyString
  | String c' rest =>
      if Ascii.eqb c' c then remove_char c rest else String c' (remove_char c rest)
  end.

(** [Character.toLowerCase] on the characters below 256. *)
Definition toLowerChar (c : ascii) : ascii :=
  let n := nat_of_ascii c in
  if (((65 <=? n) && (n <=? 90))
      || ((192 <=? n) && (n <=? 222) && negb (n =? 215)))%nat
  then ascii_of_nat (n + 32) else c.

Fixpoint toLowerCase (s : string) : string :=
  match s with
  | EmptyString => EmptyString
  | String c rest => String (toLowerChar c) (toLowerCase rest)
  end.

(** [s.split(sep, -1)] for a one-character separator that is no regular
    expression operator: every piece is kept. *)
Definition split_all (s : string) (sep : ascii) : list string :=
  GrammarFile.split_line sep s.

Fixpoint drop_trailing_empty (l : list string) : list string :=
  match l with
  | [] => []
  | x :: l' =>
      match drop_trailing_empty l' with
      | [] => if (x =? "")%string then [] else [x]
      | l'' => x :: l''
      end
  end.

(** [s.split(sep)]: trailing empty pieces are removed; a string without the
    separator is returned whole, also when it is empty. *)
Definition split (s : string) (sep : ascii) : list string :=
  if (indexOf s sep <? 0)%Z then [s]
  else drop_trailing_empty (split_all s sep).

(** [arr[i]] *)
Definition arr_get {A} (arr : list A) (i : nat) : Exc A :=
  match nth_error arr i with
  | Some x => Ok x
  | None => Throw ArrayIndexOutOfBoundsException
  end.

(** [arr[i] = x] *)
Definition arr_set {A} (arr : list A) (i : nat) (x : A) : Exc (list A) :=
  if (i <? List.length arr)%nat
  then Ok (firstn i arr ++ x :: skipn (S i) arr)
  else Throw ArrayIndexOutOfBoundsException.

(** [assert cond : msg]: the condition is evaluated only when assertions
    are enabled ([java -ea]). *)
Definition assert_ (ea : bool) (cond : Exc bool) (msg : string) : Exc unit :=
  if ea then
    b <- cond ;;
    if b then Ok tt else Throw (AssertionError msg)
  else Ok tt.

(** ** The DOM nodes that are built *)

#[local] Unset Elimination Schemes.
Inductive Node : Type :=
| Element (tag : string) (attrs : list (string * string)) (children : list Node)
| TextNode (text : string).
#[local] Set Elimination Schemes.

Definition text_element (tag text : string) : Node :=
  Element tag [] [TextNode text].

(** ** TSVHandler *)

(** The methods of [TSVHandler] and of its [TypeListModifier] that
    [XMLCreator] calls.  TSVHandler.java is not among the sources: the
    methods are parameters of what follows, functions of their arguments
    that may throw. *)
Record TypeListModifier : Type := {
  somethingReduced : bool;
  getReducedTypes : string;
  reduceCorresponding : string -> Exc string
}.

Record TSVHandler : Type := {
  reduceTypesForVersion : string -> spec_float -> Exc TypeListModifier;
  reduceRequiredForVersion : string -> spec_float -> Exc string;
  reduceComplexForVersion : string -> spec_float -> Exc string;
  indexOfOuterCloseBracket : string -> Exc Z
}.

(** ** The creator *)

Section Creator.

(** [tsv], the handler the creator owns. *)
Variable tsv : TSVHandler.
(** [Float.parseFloat] of the Java library. *)
Variable parseFloat : string -> Exc spec_float.
(** Whether assertions are enabled. *)
Variable ea : bool.
(** The field [delimiter]. *)
Variable delimiter : ascii.
(** The field [pdf_ver]: [createXML] stores [Float.parseFloat(pdf_version)]
    in a [double]; widening a [float] is exact, so the comparisons below are
    comparisons of [float] values. *)
Variable pdf_ver : spec_float.

Definition nodeName (col_value : string) : Node :=
  text_element "NAME" col_value.

Definition nodeIntroduced (col_value : string) : Node :=
  text_element "INTRODUCED" col_value.

Definition nodeDeprecated (col_value : string) : Node :=
  text_element "DEPRECATED" col_value.

Definition nodeRequired (col_value : string) : Node :=
  text_element "REQUIRED"
    (if negb (startsWith col_value "fn:") then toLowerCase col_value
     else col_value).

(** The loop of lines 305-309 strips each piece (which throws on a piece
    shorter than two characters) and appends the whole lower-cased field
    once per piece. *)
Fixpoint indirect_pieces (col_value : string) (ir_arr : list string)
  : Exc (list Node) :=
  match ir_arr with
  | [] => Ok []
  | ir :: rest =>
      substring2 ir 1 (len ir - 1) ;;;
      ns <- indirect_pieces col_value rest ;;
      Ok (TextNode (toLowerCase col_value) :: ns)
  end.

Definition nodeIndirectReference (col_value : string) : Exc Node :=
  if startsWith col_value "fn:" then
    Ok (text_element "INDIRECT_REFERENCE" col_value)
  else if ((col_value =? "TRUE") || (col_value =? "FALSE"))%string then
    Ok (text_element "INDIRECT_REFERENCE" (toLowerCase col_value))
  else
    ns <- indirect_pieces col_value (split col_value ";") ;;
    Ok (Element "INDIRECT_REFERENCE" [] ns).

Definition nodeInheritable (col_value : string) : Node :=
  text_element "INHERITABLE" (toLowerCase col_value).

Definition nodeSpecialCase (col_value : string) : Node :=
  Element "SPECIAL_CASE" []
    (if negb (isBlank col_value) then [TextNode col_value] else []).

Definition createNodeValue (t value : string) : Node :=
  Element "VALUE" [("type", t)]
    [TextNode (remove_char "]" (remove_char "[" value))].

(** One iteration of the [while (!a.isBlank())] loops of lines 407-442 and
    452-487: the [VALUE] that is appended and the new [a].  The two loops
    differ in one comparison: the loop over links cuts at a comma only when
    [a.indexOf(',') > 0], the loop over possible values when
    [a.indexOf(',') >= 0]. *)
Definition scanStep (over_links : bool) (t a : string)
  : Exc (Node * string) :=
  if startsWith a "fn:" then
    j <- indexOfOuterCloseBracket tsv a ;;
    assert_ ea (Ok (negb (j =? -1)%Z)) "No ')' for predicate!" ;;;
    s <- substring2 a 0 (int32 (j + 1)) ;;
    let value := createNodeValue t s in
    a1 <- (if (int32 (j + 2) <? len a)%Z
           then substring2 a (int32 (j + 2)) (len a)
           else Ok "") ;;
    a2 <- (if negb (isBlank a1) then
             c <- charAt a1 0 ;;
             if Ascii.eqb c "," then substring2 a1 1 (len a1) else Ok a1
           else Ok a1) ;;
    Ok (value, a2)
  else
    let i := indexOf a "," in
    if (if over_links then (i >? 0)%Z else (i >=? 0)%Z) then
      s <- substring2 a 0 i ;;
      a' <- substring2 a (i + 1) (len a) ;;
      Ok (createNodeValue t s, a')
    else Ok (createNodeValue t a, "").

(** The loop itself.  Every iteration shortens [a] (see [scanStep_shorter]),
    so [String.length a] iterations are enough and with no iterations left
    [a] is empty. *)
Fixpoint scanLoop (over_links : bool) (t : string) (fuel : nat) (a : string)
  : Exc (list Node) :=
  match fuel with
  | O => Ok []
  | S fuel' =>
      if isBlank a then Ok []
      else
        r <- scanStep over_links t a ;;
        vs <- scanLoop over_links t fuel' (snd r) ;;
        Ok (fst r :: vs)
  end.

Definition scanValues (over_links : bool) (t a : string) : Exc (list Node) :=
  scanLoop over_links t (String.length a) a.

(** The two assertions on the brackets, then [x.substring(1, x.length()-1)]. *)
Definition stripBrackets (what x : string) : Exc string :=
  assert_ ea (c <- charAt x 0 ;; Ok (Ascii.eqb c "["))
          ("No opening [ on " ++ what) ;;;
  assert_ ea (c <- charAt x (len x - 1) ;; Ok (Ascii.eqb c "]"))
          ("No closing ] on " ++ what) ;;;
  substring2 x 1 (len x - 1).

Definition needsLink (t : string) : bool :=
  ((t =? "array") || (t =? "dictionary") || (t =? "stream")
   || (t =? "number-tree") || (t =? "name-tree"))%string.

(** The body of the [for] loop of lines 391-509 for the type at index [i]. *)
Definition valuesOfType (arr_links : list string)
  (pos_values dft_values : option (list string)) (i : nat) (t : string)
  : Exc (list Node) :=
  if needsLink t then
    l <- arr_get arr_links i ;;
    a <- stripBrackets "Links" l ;;
    scanValues true t a
  else
    vs <- match pos_values with
          | Some pv =>
              p <- arr_get pv i ;;
              a <- stripBrackets "PossibleValue" p ;;
              scanValues false t a
          | None => Ok [createNodeValue t ""]
          end ;;
    ds <- match dft_values with
          | Some dv =>
              d <- arr_get dv i ;;
              c <- charAt d 0 ;;
              d' <- (if Ascii.eqb c "[" then substring2 d 1 (len d - 1)
                     else Ok d) ;;
              Ok (if (len d' >? 0)%Z then [createNodeValue t d'] else [])
          | None => Ok []
          end ;;
    Ok (vs ++ ds).

Fixpoint valuesFrom (arr_links : list string)
  (pos_values dft_values : option (list string)) (i : nat)
  (types : list string) : Exc (list Node) :=
  match types with
  | [] => Ok []
  | t :: types' =>
      vs <- valuesOfType arr_links pos_values dft_values i t ;;
      ws <- valuesFrom arr_links pos_values dft_values (S i) types' ;;
      Ok (vs ++ ws)
  end.

Definition same_length (x : option (list string)) (y : list string) : bool :=
  match x with
  | Some l => (List.length l =? List.length y)%nat
  | None => false
  end.

Definition nodeValues (type default_value possible_values links : string)
  : Exc Node :=
  let types := split type ";" in
  let arr_links := split links ";" in
  let pos_values :=
    if negb (isBlank possible_values) then Some (split possible_values ";")
    else None in
  let dft_values :=
    if negb (isBlank default_value) then Some (split default_value ";")
    else None in
  assert_ ea (Ok (List.length types =? List.length arr_links)%nat)
          "Types and Links are not the same length!" ;;;
  assert_ ea (Ok (negb (contains type "fn:")))
          "Types contained a predicate!" ;;;
  assert_ ea (Ok (same_length pos_values arr_links))
          "PossibleValues and Links are not the same length!" ;;;
  assert_ ea (Ok (same_length dft_values arr_links))
          "DefaultValue and Links are not the same length!" ;;;
  vs <- valuesFrom arr_links pos_values dft_values 0 types ;;
  Ok (Element "VALUES" [] vs).

(** [column_values[i] = f(column_values[i])] *)
Definition update_column (column_values : list string) (i : nat)
  (f : string -> Exc string) : Exc (list string) :=
  c <- arr_get column_values i ;;
  r <- f c ;;
  arr_set column_values i r.

(** Lines 140-152 of [createXML]: the reduction of the columns of a row
    that is kept. *)
Definition reduceColumns (column_values : list string) : Exc (list string) :=
  c1 <- arr_get column_values 1 ;;
  types_reduced <- reduceTypesForVersion tsv c1 pdf_ver ;;
  cv <- (if somethingReduced types_reduced then
           cv1 <- arr_set column_values 1 (getReducedTypes types_reduced) ;;
           cv5 <- update_column cv1 5 (reduceCorresponding types_reduced) ;;
           cv7 <- update_column cv5 7 (reduceCorresponding types_reduced) ;;
           update_column cv7 9 (reduceCorresponding types_reduced)
         else Ok column_values) ;;
  cv4 <- update_column cv 4 (fun s => reduceRequiredForVersion tsv s pdf_ver) ;;
  cv8 <- update_column cv4 8 (fun s => reduceComplexForVersion tsv s pdf_ver) ;;
  update_column cv8 10 (fun s => reduceComplexForVersion tsv s pdf_ver).

(** Lines 154-188: the [ENTRY] element of a reduced row.  Every builder
    returns an element, never [null], so the test of lines 170-176 holds
    whenever it is reached and the entry is appended. *)
Definition entryOf (column_values : list string) : Exc Node :=
  c0 <- arr_get column_values 0 ;;
  c2 <- arr_get column_values 2 ;;
  c3 <- arr_get column_values 3 ;;
  c4 <- arr_get column_values 4 ;;
  c5 <- arr_get column_values 5 ;;
  indirect_reference_elem <- nodeIndirectReference c5 ;;
  c6 <- arr_get column_values 6 ;;
  c9 <- arr_get column_values 9 ;;
  c1 <- arr_get column_values 1 ;;
  c7 <- arr_get column_values 7 ;;
  c8 <- arr_get column_values 8 ;;
  c10 <- arr_get column_values 10 ;;
  value_elem <- nodeValues c1 c7 c8 c10 ;;
  Ok (Element "ENTRY" []
        [ nodeName c0; value_elem; nodeRequired c4; indirect_reference_elem;
          nodeInheritable c6; nodeIntroduced c2; nodeDeprecated c3;
          nodeSpecialCase c9 ]).

(** Lines 128-192: one row of a TSV file; [Some] entry when the row is kept,
    [None] when it is dropped. *)
Definition processRow (column_values : list string) : Exc (option Node) :=
  assert_ ea (Ok (List.length column_values =? 12)%nat)
          "Less than 12 TSV columns!" ;;;
  arr_get column_values 0 ;;;
  c2 <- arr_get column_values 2 ;;
  current_entry_version <- parseFloat c2 ;;
  if SFleb current_entry_version pdf_ver then
    cv <- reduceColumns column_values ;;
    entry_elem <- entryOf cv ;;
    Ok (Some entry_elem)
  else Ok None.

(** The [while ((current_line = tsv_reader.readLine()) != null)] loop: the
    entries appended to [object_elem], in row order. *)
Fixpoint processRows (lines : list string) : Exc (list Node) :=
  match lines with
  | [] => Ok []
  | current_line :: rest =>
      r <- processRow (split_all current_line delimiter) ;;
      es <- processRows rest ;;
      Ok (match r with Some e => e :: es | None => es end)
  end.

(** The entries derived from one TSV file: the header row is read and
    discarded, the other rows are processed. *)
Definition reduceObject (file_lines : list string) : Exc (list Node) :=
  processRows (tl file_lines).

(** The key of an [ENTRY]: the text of its [NAME] child. *)
Definition entry_key (e : Node) : option string :=
  match e with
  | Element _ _ (Element _ _ [TextNode k] :: _) => Some k
  | _ => None
  end.

Fixpoint keys (entries : list Node) : list string :=
  match entries with
  | [] => []
  | e :: es =>
      match entry_key e with
      | Some k => k :: keys es
      | None => keys es
      end
  end.

End Creator.

End XMLCreator.

(* ===================================================================== *)
(** * Part III: a handler and a number parser to run the creator with     *)
(* ===================================================================== *)

Module SpecHandler.

Import XMLCreator.
Local Open Scope exc_scope.

(** Modelled from the spec: the predicate lexer behind
    [TSVHandler.indexOfOuterCloseBracket] (TSVHandler.java is not among the
    sources).  A segment that begins with [fn:] is scanned to its own
    balanced closing parenthesis: the index of the [)] that closes the
    first [(] of the string, when there is one. *)
Fixpoint closeBracketFrom (s : string) (depth : nat) (i : Z) : option Z :=
  match s with
  | EmptyString => None
  | String c rest =>
      if Ascii.eqb c "(" then closeBracketFrom rest (S depth) (i + 1)%Z
      else if Ascii.eqb c ")" then
        match depth with
        | 0%nat => closeBracketFrom rest 0 (i + 1)%Z
        | 1%nat => Some i
        | S d => closeBracketFrom rest d (i + 1)%Z
        end
      else closeBracketFrom rest depth (i + 1)%Z
  end.

(** Modelled from the spec: an unbalanced predicate has an opening
    parenthesis with no matching close before the end of the string. *)
Definition unbalanced (s : string) : bool :=
  (0 <=? indexOf s "(")%Z
  && match closeBracketFrom s 0 0%Z with Some _ => false | None => true end.

(** What the lexer reports. *)
Inductive LexerError : Type :=
| UnbalancedPredicate (segment : string).

(** Modelled from the spec: the index of the last character of the segment
    and the errors reported.  An unbalanced predicate is an error, reported,
    and the segment is treated as extending to the end of the string; so is,
    without a report, a segment that has no parenthesis to close. *)
Definition scanPredicate (s : string) : Z * list LexerError :=
  match closeBracketFrom s 0 0%Z with
  | Some i => (i, [])
  | None =>
      ((len s - 1)%Z, if unbalanced s then [UnbalancedPredicate s] else [])
  end.

Definition indexOfOuterCloseBracket (s : string) : Exc Z :=
  Ok (fst (scanPredicate s)).

(** Modelled from the spec: the version condition of a type variant.  A variant
    written [fn:SinceVersion(v,t)] carries its own introduction version [v]
    for the type [t]; any other variant inherits the version of its row. *)
Definition variantSince (variant : string) : option (string * string) :=
  if starts_with variant "fn:SinceVersion(" then
    let body := substring 16 (String.length variant - 17) variant in
    match index 0 "," body with
    | Some i =>
        Some (substring 0 i body,
              substring (S i) (String.length body - S i) body)
    | None => None
    end
  else None.

(** What becomes of one variant at the target version: [Some t] when it
    stays (as the bare type [t]), [None] when it is dropped. *)
Definition reduceVariant (parseFloat : string -> Exc spec_float)
  (pdf_ver : spec_float) (variant : string) : Exc (option string) :=
  match variantSince variant with
  | Some (v, t) =>
      since <- parseFloat v ;;
      Ok (if SFleb since pdf_ver then Some t else None)
  | None => Ok (Some variant)
  end.

Fixpoint reduceVariants (parseFloat : string -> Exc spec_float)
  (pdf_ver : spec_float) (variants : list string)
  : Exc (list (option string)) :=
  match variants with
  | [] => Ok []
  | x :: rest =>
      r <- reduceVariant parseFloat pdf_ver x ;;
      rs <- reduceVariants parseFloat pdf_ver rest ;;
      Ok (r :: rs)
  end.

(** The entries of [l] at the positions that [mask] keeps. *)
Fixpoint keep_positions {A} (mask : list bool) (l : list A) : list A :=
  match mask, l with
  | true :: mask', x :: l' => x :: keep_positions mask' l'
  | false :: mask', _ :: l' => keep_positions mask' l'
  | _, _ => []
  end.

Definition is_some {A} (o : option A) : bool :=
  match o with Some _ => true | None => false end.

Fixpoint somes {A} (l : list (option A)) : list A :=
  match l with
  | [] => []
  | Some x :: l' => x :: somes l'
  | None :: l' => somes l'
  end.

(** Modelled from the spec: [TypeListModifier.reduceCorresponding].  A list
    aligned to the type list has the same positions removed, in order; a
    single value that is no such list is left alone; any other arity is a
    reduction error. *)
Definition reduceCorrespondingWith (mask : list bool) (field : string)
  : Exc string :=
  let pieces := split_all field ";" in
  if (List.length pieces =? List.length mask)%nat
  then Ok (String.concat ";" (keep_positions mask pieces))
  else if (List.length pieces =? 1)%nat then Ok field
  else Throw (OtherThrowable "ReductionError").

(** Modelled from the spec: [TSVHandler.reduceTypesForVersion].  Variants
    introduced after the target version are dropped, the others stay as
    bare types; something was reduced when the type list changed. *)
Definition reduceTypesForVersion (parseFloat : string -> Exc spec_float)
  (types : string) (pdf_ver : spec_float) : Exc TypeListModifier :=
  rs <- reduceVariants parseFloat pdf_ver (split_all types ";") ;;
  let reduced := String.concat ";" (somes rs) in
  Ok {| somethingReduced := negb (reduced =? types)%string;
        getReducedTypes := reduced;
        reduceCorresponding := reduceCorrespondingWith (map is_some rs) |}.

(** The handler, over the two reductions of single fields, about which the
    spec says nothing that is used here. *)
Definition handler (parseFloat : string -> Exc spec_float)
  (reduceRequired reduceComplex : string -> spec_float -> Exc string)
  : TSVHandler :=
  {| XMLCreator.reduceTypesForVersion := reduceTypesForVersion parseFloat;
     XMLCreator.reduceRequiredForVersion := reduceRequired;
     XMLCreator.reduceComplexForVersion := reduceComplex;
     XMLCreator.indexOfOuterCloseBracket := indexOfOuterCloseBracket |}.

(** [Float.parseFloat] on the decimal numerals [d...d] and [d...d.d...d]
    of at most seven digits in all: the nearest [float] of the quotient of
    two integers that are floats themselves.  Other strings are outside
    this fragment and are rejected here. *)
Definition digit (c : ascii) : option Z :=
  let n := nat_of_ascii c in
  if ((48 <=? n) && (n <=? 57))%nat then Some (Z.of_nat (n - 48)) else None.

Fixpoint digits (s : string) (acc : Z) : option Z :=
  match s with
  | EmptyString => Some acc
  | String c rest =>
      match digit c with
      | Some d => digits rest (10 * acc + d)%Z
      | None => None
      end
  end.

Definition float_of_Z (n : Z) : spec_float := binary_normalize 24 128 n 0 false.

Definition parseFloat (s : string) : Exc spec_float :=
  let (int_part, frac_part) :=
    match index 0 "." s with
    | Some i => (substring 0 i s, substring (S i) (String.length s - S i) s)
    | None => (s, "")
    end in
  if ((String.length int_part =? 0) || (7 <? String.length int_part + String.length frac_part))%nat
  then Throw NumberFormatException
  else
    match digits (int_part ++ frac_part) 0%Z with
    | Some n =>
        Ok (SFdiv 24 128 (float_of_Z n)
                  (float_of_Z (10 ^ Z.of_nat (String.length frac_part))))
    | None => Throw NumberFormatException
    end.

(** A handler that leaves the Required, PossibleValues and Links fields as
    they are. *)
Definition plain : TSVHandler :=
  handler parseFloat (fun s _ => Ok s) (fun s _ => Ok s).

End SpecHandler.

(* ===================================================================== *)
(** * Part III-b: the loop of [createXML] over the TSV files              *)
(* ===================================================================== *)

Module XMLDocument.

Import XMLCreator.
Local Open Scope exc_scope.

(** The decimal digits of a number, most significant first. *)
Fixpoint decimal_digits (fuel n : nat) (acc : string) : string :=
  match fuel with
  | O => acc
  | S fuel' =>
      let acc' := String (ascii_of_nat (48 + n mod 10)) acc in
      if (n / 10 =? 0)%nat then acc'
      else decimal_digits fuel' (n / 10) acc'
  end.

(** [String.format("%03d", n)] for a count [n >= 0]: the decimal digits,
    with zeros in front up to three places. *)
Definition format03d (n : nat) : string :=
  let s := decimal_digits (S n) n "" in
  match String.length s with
  | 1%nat => "00" ++ s
  | 2%nat => "0" ++ s
  | _ => s
  end.

(** What [createXML] asks of a [File] of [list_of_files]: whether
    [isFile() && canRead() && exists()] holds, and its name. *)
Record TsvFile : Type := {
  usable : bool;
  getName : string
}.

(** How a call of [createXML] ends: the document handed to the transformer,
    an exception caught and printed by one of the two [catch] clauses, or a
    throwable that leaves the method ([AssertionError] is no [Exception];
    [Float.parseFloat(pdf_version)] stands before the [try]).  The other
    throwables of the handler and of the file system are taken to be
    exceptions. *)
Inductive Outcome : Type :=
| Wrote (doc : Node)
| Caught (t : Throwable)
| Uncaught (t : Throwable).

Section CreateXML.

Variable tsv : TSVHandler.
Variable parseFloat : string -> Exc spec_float.
Variable ea : bool.
Variable delimiter : ascii.
(** The field [input_folder] and the constant [Gcxml.Gcxml_version]. *)
Variable input_folder : string.
Variable Gcxml_version : string.
(** The file system: [new FileReader(path)] throws, or the reader yields
    lines with [readLine] until the end of the file or until a [readLine]
    throws ([Some] exception after the lines). *)
Variable readLines : string -> Exc (list string * option Throwable).

(** Lines 112-202: the [OBJECT] element of one file, numbered
    [object_count], or nothing when the file is not usable or no row of it
    is kept. *)
Definition objectOf (pdf_ver : spec_float) (object_count : nat)
  (file : TsvFile) : Exc (option Node) :=
  if usable file then
    file_name <- substring2 (getName file) 0 (len (getName file) - 4) ;;
    r <- readLines (input_folder ++ file_name ++ ".tsv") ;;
    entries <- reduceObject tsv parseFloat ea delimiter pdf_ver (fst r) ;;
    match snd r with
    | Some t => Throw t
    | None =>
        Ok (match entries with
            | [] => None
            | _ :: _ =>
                Some (Element "OBJECT"
                        [("id", file_name);
                         ("object_number", format03d object_count)]
                        entries)
            end)
    end
  else Ok None.

(** The [for (File file : list_of_files)] loop: the objects appended to the
    root, [object_count] being the number appended so far. *)
Fixpoint objectsFrom (pdf_ver : spec_float) (object_count : nat)
  (list_of_files : list TsvFile) : Exc (list Node) :=
  match list_of_files with
  | [] => Ok []
  | file :: files =>
      o <- objectOf pdf_ver object_count file ;;
      match o with
      | Some object_elem =>
          objs <- objectsFrom pdf_ver (S object_count) files ;;
          Ok (object_elem :: objs)
      | None => objectsFrom pdf_ver object_count files
      end
  end.

(** [createXML(pdf_version)], up to the document that is written. *)
Definition createXML (list_of_files : list TsvFile) (pdf_version : string)
  : Outcome :=
  match parseFloat pdf_version with
  | Throw t => Uncaught t
  | Ok pdf_ver =>
      match objectsFrom pdf_ver 0 list_of_files with
      | Ok objs =>
          Wrote (Element "PDF"
                   [("pdf_version", pdf_version);
                    ("grammar_version", Gcxml_version);
                    ("iso_ref", "ISO 32000-2:2020")]
                   objs)
      | Throw (AssertionError msg) => Uncaught (AssertionError msg)
      | Throw t => Caught t
      end
  end.

End CreateXML.

(** The value of an attribute of an element. *)
Fixpoint lookup (name : string) (attrs : list (string * string))
  : option string :=
  match attrs with
  | [] => None
  | (n, v) :: rest => if (n =? name)%string then Some v else lookup name rest
  end.

Definition attribute (name : string) (e : Node) : option string :=
  match e with
  | Element _ attrs _ => lookup name attrs
  | TextNode _ => None
  end.

Definition children (e : Node) : list Node :=
  match e with
  | Element _ _ cs => cs
  | TextNode _ => []
  end.

End XMLDocument.

(* ===================================================================== *)
(** * Part III-c: ArlingtonPDFShim.cpp                                    *)
(* ===================================================================== *)

Module ArlingtonPDFShim.

(** [PdfObjectType] of Pdfix.h. *)
Inductive PdfObjectType : Type :=
| kPdsUnknown
| kPdsBoolean
| kPdsNumber
| kPdsString
| kPdsName
| kPdsArray
| kPdsDictionary
| kPdsStream
| kPdsNull
| kPdsReference.

(** [PDFObjectType] of the shim, with the enumerators that the shim uses. *)
Inductive PDFObjectType : Type :=
| ArlPDFObjTypeUnknown
| ArlPDFObjTypeBoolean
| ArlPDFObjTypeNumber
| ArlPDFObjTypeString
| ArlPDFObjTypeName
| ArlPDFObjTypeArray
| ArlPDFObjTypeDictionary
| ArlPDFObjTypeStream
| ArlPDFObjTypeNull
| ArlPDFObjTypeReference.

(** The interfaces of the SDK, by what their methods answer.  A pointer
    that may be [nullptr] is an [option]. *)
Record PdsObject : Type := {
  GetObjectType : PdfObjectType;
  GetId : Z
}.

Record PdsDictionary : Type := {
  as_object : PdsObject;
  Get : string -> option PdsObject
}.

Record PdfDoc : Type := {
  GetTrailerObject : option PdsDictionary
}.

Record Pdfix : Type := {
  OpenDoc : string -> string -> option PdfDoc
}.

(** [ArlPDFTrailer]: the wrapped object and the flag of [set_xrefstm]. *)
Record ArlPDFTrailer : Type := {
  object : PdsDictionary;
  is_xrefstm : bool
}.

(** How a call ends: it returns, an [assert] fails, or a member function
    is called through a null pointer. *)
Inductive Result (A : Type) : Type :=
| Returns (a : A)
| AssertionFailed
| NullDereference.
Arguments Returns {A} a.
Arguments AssertionFailed {A}.
Arguments NullDereference {A}.

Definition is_some {A} (x : option A) : bool :=
  match x with Some _ => true | None => false end.

Section Shim.

(** Whether [NDEBUG] is defined, which removes every [assert]. *)
Variable ndebug : bool.

(** [ArlingtonPDFSDK::get_trailer]; the output under [debugging] and the
    values stored in the unused locals [id] and [ot] are left out. *)
Definition get_trailer (ctx : option Pdfix) (pdf_filename : string)
  : Result (option ArlPDFTrailer) :=
  match ctx with
  | None => if ndebug then NullDereference else AssertionFailed
  | Some pdfix =>
      match OpenDoc pdfix pdf_filename "" with
      | Some doc =>
          match GetTrailerObject doc with
          | Some trailer =>
              let type_key := Get trailer "Type" in
              let trailer_obj :=
                {| object := trailer; is_xrefstm := is_some type_key |} in
              match Get trailer "Root" with
              | None => NullDereference
              | Some root_key =>
                  match Get trailer "Info" with
                  | None => NullDereference
                  | Some info_key => Returns (Some trailer_obj)
                  end
              end
          | None => Returns None
          end
      | None => Returns None
      end
  end.

(** [ArlPDFObject::get_object_type]. *)
Definition get_object_type (object : option PdsObject) : PDFObjectType :=
  match object with
  | None => ArlPDFObjTypeNull
  | Some obj =>
      match GetObjectType obj with
      | kPdsBoolean => ArlPDFObjTypeBoolean
      | kPdsNumber => ArlPDFObjTypeNumber
      | kPdsString => ArlPDFObjTypeString
      | kPdsName => ArlPDFObjTypeName
      | kPdsArray => ArlPDFObjTypeArray
      | kPdsDictionary => ArlPDFObjTypeDictionary
      | kPdsStream => ArlPDFObjTypeStream
      | kPdsNull => ArlPDFObjTypeNull
      | kPdsReference => ArlPDFObjTypeReference
      | kPdsUnknown => ArlPDFObjTypeUnknown
      end
  end.

(** [ArlPDFObject::is_indirect_ref]. *)
Definition is_indirect_ref (object : option PdsObject) : Result bool :=
  match object with
  | None => if ndebug then NullDereference else AssertionFailed
  | Some obj =>
      Returns (match GetObjectType obj with
               | kPdsReference => true
               | _ => false
               end)
  end.

(** [ArlPDFObject::get_object_number]. *)
Definition get_object_number (object : option PdsObject) : Result Z :=
  match object with
  | None => if ndebug then NullDereference else AssertionFailed
  | Some obj => Returns (GetId obj)
  end.

End Shim.

End ArlingtonPDFShim.

(* ===================================================================== *)
(** * Part IV: notions used in the statements, and sample inputs          *)
(* ===================================================================== *)

Module GrammarFileSpec.

Import GrammarFile.

(** A run is silent on the findings that [P] selects. *)
Definition silent_on {A} (P : Finding -> bool) (m : Run A) : Prop :=
  filter P (emitted m) = [].

(** The columns that [load] converts. *)
Definition upper_cased_column (k : nat) : bool :=
  ((k =? TSV_TYPE) || (k =? TSV_REQUIRED) || (k =? TSV_INDIRECTREF)
   || (k =? TSV_INHERITABLE))%nat.

(** [stored] is the row that [load] keeps for the columns [cols] of a line. *)
Definition stored_as (cols stored : list string) : Prop :=
  List.length stored = List.length cols /\
  forall k s, nth_error cols k = Some s ->
    nth_error stored k =
    Some (if upper_cased_column k then transform_toupper s else s).

(** Every recognised header name sits in its own column. *)
Definition header_ok (vec : list string) : bool :=
  forallb (fun kn => match nth_error vec (fst kn) with
                     | Some s => (s =? snd kn)%string
                     | None => false
                     end) header_names.

(** The finding of lines 135-136. *)
Definition links_arity (f : Finding) : bool :=
  match f with WrongTypesVsLinks _ => true | _ => false end.

(** What lines 134-136 write for the row [vc]: the arity line with the key
    of the row when its Link field is not empty and splits into a number
    of links other than the number of its types. *)
Definition arity_mismatch (split : string -> ascii -> list string)
  (vc : list string) : list Finding :=
  match nth_error vc TSV_KEYNAME, nth_error vc TSV_TYPE,
        nth_error vc TSV_LINK with
  | Some key, Some type, Some link =>
      if negb (link =? "")%string
         && negb (List.length (split link ";"%char)
                  =? List.length (split type ";"%char))%nat
      then [WrongTypesVsLinks key]
      else []
  | _, _, _ => []
  end.

(** The row [vc] can be checked without a read outside a vector: it has
    the eleven columns, and when its PossibleValues field is not empty
    that field has a piece at the position of every complex type. *)
Definition row_in_bounds (split : string -> ascii -> list string)
  (vc : list string) : Prop :=
  (TSV_LINK < List.length vc)%nat /\
  forall type pv,
    nth_error vc TSV_TYPE = Some type ->
    nth_error vc TSV_POSSIBLEVALUES = Some pv ->
    pv <> "" ->
    forall t_pos t,
      nth_error (split type ";"%char) t_pos = Some t ->
      is_complex t = true ->
      (t_pos < List.length (split pv ";"%char))%nat.

(** The keys seen once the row [vc] has been checked. *)
Definition seen (processed vc : list string) : list string :=
  match nth_error vc TSV_KEYNAME with
  | Some key => if mem key processed then processed else processed ++ [key]
  | None => processed
  end.

(** The run returns [a]. *)
Definition returns {A} (m : Run A) (a : A) : Prop := exists o, m = Ret a o.

(** What the rows write, row after row, when each is checked to its end. *)
Fixpoint rows_report (file_name : string) (basic_types : list string)
  (split : string -> ascii -> list string) (file_exists : string -> bool)
  (get_path_dir : string -> string) (processed : list string)
  (rows : data_list_t) : list Finding :=
  match rows with
  | [] => []
  | vc :: rows' =>
      emitted (check_row file_name basic_types split file_exists
                 get_path_dir processed vc)
      ++ rows_report file_name basic_types split file_exists get_path_dir
           (seen processed vc) rows'
  end.

(** *** Sample grammar files *)

Definition tab : ascii := "009".

Definition header_line : string :=
  "Key	Type	SinceVersion	DeprecatedIn	Required	IndirectReference	Inheritable	DefaultValue	PossibleValues	SpecialCase	Link	Note".

(** The header with the names of columns 8 and 9 exchanged. *)
Definition reordered_header_line : string :=
  "Key	Type	SinceVersion	DeprecatedIn	Required	IndirectReference	Inheritable	PossibleValues	DefaultValue	SpecialCase	Link	Note".

(** A header of ten columns. *)
Definition short_header_line : string :=
  "Key	Type	SinceVersion	DeprecatedIn	Required	IndirectReference	Inheritable	DefaultValue	PossibleValues	SpecialCase".

(** A row whose Required field is a predicate. *)
Definition predicate_row : string :=
  "Parent	dictionary	1.0		fn:IsRequired(fn:IsPresent(Kids))	true	false				[PageTreeNode]	".

(** What [load] stores for [header_line] followed by [predicate_row]. *)
Definition predicate_grammar : data_list_t :=
  [ ["Key"; "TYPE"; "SinceVersion"; "DeprecatedIn"; "REQUIRED";
     "INDIRECTREFERENCE"; "INHERITABLE"; "DefaultValue";
     "PossibleValues"; "SpecialCase"; "Link"; "Note"];
    ["Parent"; "DICTIONARY"; "1.0"; "";
     "FN:ISREQUIRED(FN:ISPRESENT(KIDS))"; "TRUE"; "FALSE"; ""; ""; "";
     "[PageTreeNode]"; ""] ].

(** Two types, one link. *)
Definition one_link_row : string :=
  "Dest	name;array	1.1		false	false	false				[ArrayOfDests]	".

(** Two types, the second complex, and one possible value. *)
Definition short_possible_values_row : string :=
  "Kids	name;array	1.0		true	false	false		[a]		[];[ArrayOfKids]	".

(** That row as [load] stores it. *)
Definition short_possible_values_vec : list string :=
  ["Kids"; "NAME;ARRAY"; "1.0"; ""; "TRUE"; "FALSE"; "FALSE"; "";
   "[a]"; ""; "[];[ArrayOfKids]"; ""].

(** The same key without possible values. *)
Definition plain_kids_row : string :=
  "Kids	name;array	1.0		true	false	false				[];[ArrayOfKids]	".

(** A row with a key seen before, an unknown type and no inheritable flag. *)
Definition faulty_row : string :=
  "Kids	bitmask	1.0		true	false					[]	".

(** What [load] stores for a file with the lines [lines]. *)
Definition loaded (lines : list string) : data_list_t :=
  match load tab (Some lines) [] with
  | Loaded _ dl => dl
  | LoadUB => []
  end.

Definition short_possible_values_grammar : data_list_t :=
  Eval vm_compute in
    loaded [header_line; short_possible_values_row; faulty_row].

Definition plain_kids_grammar : data_list_t :=
  Eval vm_compute in loaded [header_line; plain_kids_row; faulty_row].

(** A grammar with a row of two types and one link, then a row of two
    types and two links. *)
Definition one_link_grammar : data_list_t :=
  Eval vm_compute in loaded [header_line; one_link_row; plain_kids_row].

Definition sample_types : list string :=
  ["ARRAY"; "BOOLEAN"; "DICTIONARY"; "NAME"; "NAME-TREE"; "NULL"; "NUMBER";
   "NUMBER-TREE"; "STREAM"; "STRING"].

(** A reader for the file [Page.tsv] of a folder in which every linked file
    exists. *)
Definition sample_check : data_list_t -> Run bool :=
  check "tsv/Page.tsv" sample_types split (fun _ => true) (fun _ => "tsv").

Definition sample_check_row : list string -> list string -> Run (list string) :=
  check_row "tsv/Page.tsv" sample_types split (fun _ => true) (fun _ => "tsv").

End GrammarFileSpec.

Module XMLCreatorSpec.

Import XMLCreator.

(** After the reduction of a row, the Type and Links columns split into
    equally many pieces: the assertion of line 386. *)
Definition links_aligned (tsv : TSVHandler) (pdf_ver : spec_float)
  (column_values : list string) : bool :=
  match reduceColumns tsv pdf_ver column_values with
  | Ok cv =>
      match nth_error cv 1, nth_error cv 10 with
      | Some types, Some links =>
          (List.length (split types ";") =? List.length (split links ";"))%nat
      | _, _ => false
      end
  | Throw _ => false
  end.

(** *** Sample rows *)

Definition tab : ascii := "009".

Definition header_line : string := GrammarFileSpec.header_line.

(** A key of PDF 1.0 whose array variant is of PDF 2.0. *)
Definition since_row : string :=
  "Dest	fn:SinceVersion(2.0,array);name	1.0		FALSE	FALSE	FALSE				[ArrayOfDests];[]	".

(** A key of PDF 1.0 with the same Links and no version condition. *)
Definition plain_row : string :=
  "Names	array;name	1.0		FALSE	FALSE	FALSE				[ArrayOfDests];[]	".

(** A key of PDF 2.0. *)
Definition late_row : string :=
  "AF	array	2.0		FALSE	FALSE	FALSE				[ArrayOfFileSpecs]	".


Definition sample_file : list string :=
  [header_line; since_row; plain_row; late_row].

(** The [float] values of "1.0" and "2.0". *)
Definition v1_0 : spec_float := S754_finite false 8388608 (-23).
Definition v2_0 : spec_float := S754_finite false 8388608 (-22).

(** The creator with the handler [SpecHandler.plain], assertions disabled
    as in a plain [java -jar] run. *)
Definition sample_reduceObject (pdf_ver : spec_float) (file_lines : list string)
  : Exc (list Node) :=
  reduceObject SpecHandler.plain SpecHandler.parseFloat false tab pdf_ver
    file_lines.

Definition entries_or_nil (r : Exc (list Node)) : list Node :=
  match r with Ok es => es | Throw _ => [] end.

Definition sample_entries_1_0 : list Node :=
  Eval vm_compute in entries_or_nil (sample_reduceObject v1_0 sample_file).

Definition sample_entries_2_0 : list Node :=
  Eval vm_compute in entries_or_nil (sample_reduceObject v2_0 sample_file).

End XMLCreatorSpec.

Module GrammarFileMore.

Import GrammarFile GrammarFileSpec.

(** The string has no occurrence of the character. *)
Fixpoint free_of (d : ascii) (s : string) : bool :=
  match s with
  | EmptyString => true
  | String c rest => negb (Ascii.eqb c d) && free_of d rest
  end.

(** The number of occurrences of the character. *)
Fixpoint occurrences (d : ascii) (s : string) : nat :=
  match s with
  | EmptyString => 0
  | String c rest => (if Ascii.eqb c d then 1 else 0) + occurrences d rest
  end.

(** The number of columns of a line. *)
Definition columns (d : ascii) (line : string) : nat :=
  List.length (split_line d line).

(** The keys of the rows, in row order. *)
Definition row_keys (rows : data_list_t) : list string :=
  map (fun vc => nth TSV_KEYNAME vc "") rows.

Definition duplicate_key (f : Finding) : bool :=
  match f with DuplicateKeys _ => true | _ => false end.

Definition wrong_type (f : Finding) : bool :=
  match f with WrongType _ _ => true | _ => false end.

Definition not_inheritable (f : Finding) : bool :=
  match f with NotInheritable _ => true | _ => false end.

Definition wrong_pattern (f : Finding) : bool :=
  match f with WrongPatternInLinks _ => true | _ => false end.

Definition missing_link (f : Finding) : bool :=
  match f with LinkDoesntExist _ _ => true | _ => false end.

Definition column_count (f : Finding) : bool :=
  match f with WrongNumberOfColumns => true | _ => false end.

(** Every character of the string satisfies [p]. *)
Fixpoint all_chars (p : ascii -> bool) (s : string) : bool :=
  match s with
  | EmptyString => true
  | String c rest => p c && all_chars p rest
  end.

End GrammarFileMore.

Module XMLCreatorMore.

Import XMLCreator XMLCreatorSpec.

(** The string has no occurrence of the character. *)
Definition free_of : ascii -> string -> bool := GrammarFileMore.free_of.

(** The key of a row that is kept at the target version. *)
Definition kept_key (parseFloat : string -> Exc spec_float)
  (pdf_ver : spec_float) (column_values : list string) : option string :=
  match nth_error column_values 0, nth_error column_values 2 with
  | Some key, Some c2 =>
      match parseFloat c2 with
      | Ok ver => if SFleb ver pdf_ver then Some key else None
      | Throw _ => None
      end
  | _, _ => None
  end.

(** The keys of the rows of a file that are kept, in row order. *)
Fixpoint kept_keys (parseFloat : string -> Exc spec_float)
  (delimiter : ascii) (pdf_ver : spec_float) (lines : list string)
  : list string :=
  match lines with
  | [] => []
  | line :: rest =>
      match kept_key parseFloat pdf_ver (split_all line delimiter) with
      | Some key => key :: kept_keys parseFloat delimiter pdf_ver rest
      | None => kept_keys parseFloat delimiter pdf_ver rest
      end
  end.

(** The number that a string of decimal digits denotes. *)
Fixpoint decimal_value (s : string) : nat :=
  match s with
  | EmptyString => 0
  | String c rest =>
      (nat_of_ascii c - 48) * 10 ^ String.length rest + decimal_value rest
  end.

(** The [object_number] attributes of the objects of a document. *)
Definition object_numbers (objs : list Node) : list (option string) :=
  map (XMLDocument.attribute "object_number") objs.

(** The [id] attributes of the objects of a document. *)
Definition object_ids (objs : list Node) : list (option string) :=
  map (XMLDocument.attribute "id") objs.

(** A reader of sample files: [Dests.tsv] holds [sample_file], [Late.tsv]
    a key of PDF 2.0 only. *)
Definition sample_readLines (path : string)
  : Exc (list string * option Throwable) :=
  if (path =? "tsv/latest/Dests.tsv")%string then Ok (sample_file, None)
  else if (path =? "tsv/latest/Late.tsv")%string
       then Ok ([header_line; late_row], None)
       else Throw (OtherThrowable "FileNotFoundException").

Definition sample_files : list XMLDocument.TsvFile :=
  [ {| XMLDocument.usable := true; XMLDocument.getName := "Late.tsv" |};
    {| XMLDocument.usable := true; XMLDocument.getName := "Dests.tsv" |} ].

Definition sample_createXML (pdf_version : string) : XMLDocument.Outcome :=
  XMLDocument.createXML SpecHandler.plain SpecHandler.parseFloat false tab
    "tsv/latest/" "0.4" sample_readLines sample_files pdf_version.

End XMLCreatorMore.

Module ArlingtonPDFShimSpec.

Import ArlingtonPDFShim.

(** A trailer dictionary with the given keys, all indirect references. *)
Definition trailer_with (keys : list string) : PdsDictionary :=
  {| as_object := {| GetObjectType := kPdsDictionary; GetId := 0 |};
     Get := fun key =>
       if existsb (String.eqb key) keys
       then Some {| GetObjectType := kPdsReference; GetId := 1 |}
       else None |}.

(** An SDK that opens every file as a document with that trailer. *)
Definition sdk_with (keys : list string) : Pdfix :=
  {| OpenDoc := fun _ _ =>
       Some {| GetTrailerObject := Some (trailer_with keys) |} |}.

End ArlingtonPDFShimSpec.

(* ===================================================================== *)
(** * Part V: properties of the reader                                    *)
(* ===================================================================== *)

(** Replacing one element of a list, as [vec[k] = y] and [arr[k] = y] do. *)
Lemma nth_error_replace {A} (l : list A) (k j : nat) (x y : A) :
  nth_error l k = Some x ->
  nth_error (firstn k l ++ y :: skipn (S k) l) j =
  if (j =? k)%nat then Some y else nth_error l j.
Proof.
  revert k j; induction l as [|a l IH]; intros [|k] [|j] H; simpl in *;
    try discriminate; try reflexivity.
  apply IH; assumption.
Qed.

Lemma length_replace {A} (l : list A) (k : nat) (x y : A) :
  nth_error l k = Some x ->
  List.length (firstn k l ++ y :: skipn (S k) l) = List.length l.
Proof.
  revert k; induction l as [|a l IH]; intros [|k] H; simpl in *;
    try discriminate; try reflexivity.
  f_equal; apply IH; assumption.
Qed.

Module GrammarFileFacts.

Import GrammarFile GrammarFileSpec.
Local Open Scope run_scope.

(** ** The run monad *)

Lemma emitted_bind {A B} (m : Run A) (f : A -> Run B) :
  emitted (bind m f) =
  match m with
  | Ret a o => o ++ emitted (f a)
  | UB o => o
  end.
Proof.
  destruct m as [a o|o]; simpl; [|reflexivity].
  destruct (f a); reflexivity.
Qed.

Lemma bind_pure {A B} (a : A) (f : A -> Run B) : bind (Ret a []) f = f a.
Proof. simpl. destruct (f a); reflexivity. Qed.

Lemma silent_pure {A} P (a : A) : silent_on P (pure a).
Proof. reflexivity. Qed.

Lemma silent_emit P (f : Finding) : P f = false -> silent_on P (emit f).
Proof. unfold silent_on; simpl. intros ->. reflexivity. Qed.

Lemma silent_at {A} P (v : list A) (i : nat) : silent_on P (at_ v i).
Proof. unfold at_. destruct (nth_error v i); reflexivity. Qed.

Lemma silent_when P (b : bool) (m : Run unit) :
  silent_on P m -> silent_on P (when b m).
Proof. destruct b; simpl; [trivial|reflexivity]. Qed.

Lemma silent_bind {A B} P (m : Run A) (f : A -> Run B) :
  silent_on P m -> (forall a, silent_on P (f a)) -> silent_on P (bind m f).
Proof.
  unfold silent_on. intros Hm Hf. rewrite emitted_bind.
  destruct m as [a o|o]; simpl in *; [|assumption].
  rewrite filter_app, Hm, Hf. reflexivity.
Qed.

Lemma silent_for_each {X} P (l : list X) (body : X -> Run unit) :
  (forall x, silent_on P (body x)) -> silent_on P (for_each l body).
Proof.
  intros Hb. induction l as [|x l IH]; simpl.
  - apply silent_pure.
  - apply silent_bind; auto.
Qed.

Lemma silent_for_each_from {X} P (l : list X) (body : nat -> X -> Run unit) :
  (forall i x, silent_on P (body i x)) ->
  forall start, silent_on P (for_each_from start l body).
Proof.
  intros Hb. induction l as [|x l IH]; intros start; simpl.
  - apply silent_pure.
  - apply silent_bind; auto.
Qed.

(** What a bind adds to the selected findings when one side is silent. *)
Lemma filter_bind_silent_r {A B} P (m : Run A) (f : A -> Run B) :
  (forall a, silent_on P (f a)) ->
  filter P (emitted (bind m f)) = filter P (emitted m).
Proof.
  intros Hf. rewrite emitted_bind. destruct m as [a o|o]; simpl; [|reflexivity].
  rewrite filter_app, (Hf a), app_nil_r. reflexivity.
Qed.

Lemma filter_bind_silent_l {A B} P (a : A) (o : list Finding)
  (f : A -> Run B) :
  filter P o = [] ->
  filter P (emitted (bind (Ret a o) f)) = filter P (emitted (f a)).
Proof.
  intros Ho. rewrite emitted_bind, filter_app, Ho. reflexivity.
Qed.

(** ** [load] *)

Lemma upper_column_spec (k : nat) (vec v : list string) :
  upper_column k vec = Some v ->
  List.length v = List.length vec /\
  forall j s, nth_error vec j = Some s ->
    nth_error v j = Some (if (j =? k)%nat then transform_toupper s else s).
Proof.
  unfold upper_column. destruct (nth_error vec k) as [x|] eqn:Hk; [|discriminate].
  intros [= <-]. split.
  - eapply length_replace; eassumption.
  - intros j s Hj. rewrite (nth_error_replace _ _ _ _ _ Hk).
    destruct (j =? k)%nat eqn:E.
    + apply Nat.eqb_eq in E; subst j. congruence.
    + assumption.
Qed.

Lemma four_columns_stored (vec v1 v2 v3 v4 : list string) :
  upper_column TSV_TYPE vec = Some v1 ->
  upper_column TSV_REQUIRED v1 = Some v2 ->
  upper_column TSV_INDIRECTREF v2 = Some v3 ->
  upper_column TSV_INHERITABLE v3 = Some v4 ->
  stored_as vec v4.
Proof.
  intros H1 H2 H3 H4.
  apply upper_column_spec in H1, H2, H3, H4.
  destruct H1 as [L1 N1], H2 as [L2 N2], H3 as [L3 N3], H4 as [L4 N4].
  split; [congruence|].
  intros k s Hk.
  rewrite (N4 _ _ (N3 _ _ (N2 _ _ (N1 _ _ Hk)))).
  unfold upper_cased_column, TSV_TYPE, TSV_REQUIRED, TSV_INDIRECTREF,
    TSV_INHERITABLE.
  do 7 (destruct k as [|k]; [reflexivity|]). reflexivity.
Qed.

Lemma load_lines_stores (d : ascii) (lines : list string) :
  forall dl0 dl,
    load_lines d dl0 lines = Loaded true dl ->
    exists stored,
      dl = dl0 ++ stored /\
      Forall2 (fun line vec => stored_as (split_line d line) vec) lines stored.
Proof.
  induction lines as [|line lines IH]; intros dl0 dl H; simpl in H.
  - injection H as <-. exists []. rewrite app_nil_r. split; constructor.
  - destruct ((match dl0 with [] => true | _ => false end)
              && (List.length (split_line d line) <? TSV_NOTES)%nat);
      [discriminate|].
    destruct (upper_column TSV_TYPE (split_line d line)) as [v1|] eqn:H1;
      [|discriminate].
    destruct (upper_column TSV_REQUIRED v1) as [v2|] eqn:H2; [|discriminate].
    destruct (upper_column TSV_INDIRECTREF v2) as [v3|] eqn:H3; [|discriminate].
    destruct (upper_column TSV_INHERITABLE v3) as [v4|] eqn:H4; [|discriminate].
    destruct (IH _ _ H) as (stored & -> & HF).
    exists (v4 :: stored). rewrite <- app_assoc. split; [reflexivity|].
    constructor; [|assumption].
    eapply four_columns_stored; eassumption.
Qed.

Lemma toupper_fn_changes (s : string) :
  starts_with s "fn:" = true -> transform_toupper s <> s.
Proof.
  destruct s as [|c s]; simpl; [discriminate|].
  destruct (Ascii.eqb_spec c "f") as [->|]; [|discriminate].
  intros _ H. injection H as Hc _. vm_compute in Hc. discriminate Hc.
Qed.

Lemma load_lines_never_false (d : ascii) (lines : list string) :
  forall dl0 dl, dl0 <> [] -> load_lines d dl0 lines <> Loaded false dl.
Proof.
  induction lines as [|line lines IH]; intros dl0 dl Hne; simpl.
  - discriminate.
  - destruct dl0 as [|r dl0]; [congruence|]. simpl.
    destruct (upper_column TSV_TYPE (split_line d line)) as [v1|];
      [|discriminate].
    destruct (upper_column TSV_REQUIRED v1) as [v2|]; [|discriminate].
    destruct (upper_column TSV_INDIRECTREF v2) as [v3|]; [|discriminate].
    destruct (upper_column TSV_INHERITABLE v3) as [v4|]; [|discriminate].
    apply IH. discriminate.
Qed.

Lemma load_first_line (d : ascii) (line : string) (lines : list string)
  (dl : data_list_t) :
  load d (Some (line :: lines)) [] = Loaded false dl <->
  (List.length (split_line d line) < TSV_NOTES)%nat /\ dl = [].
Proof.
  simpl.
  destruct (List.length (split_line d line) <? TSV_NOTES)%nat eqn:E.
  - apply Nat.ltb_lt in E. split.
    + intros [= <-]. split; [assumption|reflexivity].
    + intros [_ ->]. reflexivity.
  - apply Nat.ltb_ge in E. split.
    + intros H. exfalso.
      destruct (upper_column TSV_TYPE (split_line d line)) as [v1|];
        [|discriminate].
      destruct (upper_column TSV_REQUIRED v1) as [v2|]; [|discriminate].
      destruct (upper_column TSV_INDIRECTREF v2) as [v3|]; [|discriminate].
      destruct (upper_column TSV_INHERITABLE v3) as [v4|]; [|discriminate].
      revert H. apply load_lines_never_false. discriminate.
    + intros [H _]. lia.
Qed.

(** ** [check] *)

Section Check.

Set Warnings "-notation-for-abbreviation".

Variable file_name : string.
Variable basic_types : list string.
Variable split : string -> ascii -> list string.
Variable file_exists : string -> bool.
Variable get_path_dir : string -> string.

Notation check_link := (check_link file_name split file_exists get_path_dir).
Notation check_possible_value := (check_possible_value split).
Notation check_row := (check_row file_name basic_types split file_exists get_path_dir).
Notation check_rows := (check_rows file_name basic_types split file_exists get_path_dir).
Notation check := (check file_name basic_types split file_exists get_path_dir).
Notation rows_report := (rows_report file_name basic_types split file_exists get_path_dir).

Lemma wrong_header_spec (vec : list string) (names : list (nat * string)) :
  (forall k name, In (k, name) names -> (k < List.length vec)%nat) ->
  wrong_header names vec =
  Ret (negb (forallb (fun kn => match nth_error vec (fst kn) with
                                | Some s => (s =? snd kn)%string
                                | None => false
                                end) names)) [].
Proof.
  induction names as [|[k name] names IH]; intros Hb; simpl.
  - reflexivity.
  - unfold at_.
    destruct (nth_error vec k) as [s|] eqn:Hk.
    + unfold pure. rewrite bind_pure. destruct (s =? name)%string; simpl.
      * apply IH. intros k' n' Hin. apply (Hb k' n'). right; assumption.
      * reflexivity.
    + exfalso. apply nth_error_None in Hk.
      specialize (Hb k name (or_introl eq_refl)). lia.
Qed.

Lemma check_header (vec : list string) (rows : data_list_t) :
  (TSV_NOTES <= List.length vec)%nat ->
  check (vec :: rows) =
  if header_ok vec then check_rows [] rows ;;; pure true
  else Ret false [WrongHeaders].
Proof.
  intros Hlen. unfold check, TSV_NOTES in *.
  destruct (List.length vec <? 10)%nat eqn:E;
    [apply Nat.ltb_lt in E; lia|].
  rewrite wrong_header_spec.
  - rewrite bind_pure. fold (header_ok vec).
    destruct (header_ok vec); reflexivity.
  - intros k name Hin. unfold header_names in Hin. simpl in Hin.
    repeat (destruct Hin as [[= <- <-]|Hin];
            [unfold TSV_KEYNAME, TSV_TYPE, TSV_SINCEVERSION, TSV_DEPRECATEDIN,
               TSV_REQUIRED, TSV_INDIRECTREF, TSV_INHERITABLE,
               TSV_DEFAULTVALUE, TSV_POSSIBLEVALUES, TSV_SPECIALCASE,
               TSV_LINK; lia|]).
    contradiction.
Qed.

Lemma rows_never_return_false (rows : data_list_t) (out : list Finding) :
  (check_rows [] rows ;;; pure true) <> Ret false out.
Proof.
  destruct (check_rows [] rows); simpl; discriminate.
Qed.

Lemma at_some {A} (v : list A) (i : nat) (x : A) :
  nth_error v i = Some x -> at_ v i = Ret x [].
Proof. unfold at_. intros ->. reflexivity. Qed.

Ltac silence :=
  repeat first
    [ apply silent_pure
    | apply silent_at
    | apply silent_emit; reflexivity
    | apply silent_when
    | apply silent_for_each; intros
    | apply silent_for_each_from; intros
    | apply silent_bind; [|intros]
    | match goal with
      | |- silent_on _ (if ?b then _ else _) => destruct b
      end ].

Lemma check_link_silent (key : string) (types : list string) (i : nat)
  (link : string) : silent_on links_arity (check_link key types i link).
Proof. unfold GrammarFile.check_link. silence. Qed.

Lemma check_possible_value_silent (vc : list string) (key : string)
  (i : nat) (t : string) :
  silent_on links_arity (check_possible_value vc key i t).
Proof. unfold GrammarFile.check_possible_value. silence. Qed.

(** The arity line among what one row writes: lines 134-136. *)
Lemma check_row_link_arity (processed vc : list string)
  (key type link : string) :
  nth_error vc TSV_KEYNAME = Some key ->
  nth_error vc TSV_TYPE = Some type ->
  nth_error vc TSV_LINK = Some link ->
  filter links_arity (emitted (check_row processed vc)) =
  if negb (link =? "")%string
     && negb (List.length (split link ";") =? List.length (split type ";"))%nat
  then [WrongTypesVsLinks key] else [].
Proof.
  intros Hk Ht Hl.
  unfold GrammarFile.check_row.
  rewrite (at_some _ _ _ Hk), (at_some _ _ _ Ht), (at_some _ _ _ Hl).
  rewrite bind_pure.
  assert (Hdup : exists p o,
    (if mem key processed
     then emit (DuplicateKeys key) ;;; pure processed
     else pure (processed ++ [key])) = Ret p o /\ filter links_arity o = []).
  { destruct (mem key processed); simpl; do 2 eexists; split; reflexivity. }
  destruct Hdup as (p & o & -> & Ho).
  rewrite (filter_bind_silent_l _ _ _ _ Ho).
  rewrite !bind_pure.
  rewrite filter_bind_silent_r.
  2:{ intros _. silence; apply check_possible_value_silent. }
  destruct (link =? "")%string; simpl negb; cbn [andb]; [reflexivity|].
  unfold when at 1.
  rewrite filter_bind_silent_r.
  2:{ intros _. silence. apply check_link_silent. }
  destruct (List.length (split link ";") =? List.length (split type ";"))%nat;
    reflexivity.
Qed.

Lemma rows_report_link_arity (rows : data_list_t) :
  Forall (row_in_bounds split) rows ->
  forall processed,
    filter links_arity (rows_report processed rows)
    = flat_map (arity_mismatch split) rows.
Proof.
  induction 1 as [|vc rows [Hlen _] _ IH]; intros processed; [reflexivity|].
  cbn [GrammarFileSpec.rows_report flat_map]. rewrite filter_app, IH.
  f_equal. unfold TSV_LINK in Hlen. unfold arity_mismatch.
  destruct (nth_error vc TSV_KEYNAME) as [key|] eqn:Hk;
    [|apply nth_error_None in Hk; unfold TSV_KEYNAME in Hk; lia].
  destruct (nth_error vc TSV_TYPE) as [type|] eqn:Ht;
    [|apply nth_error_None in Ht; unfold TSV_TYPE in Ht; lia].
  destruct (nth_error vc TSV_LINK) as [link|] eqn:Hl;
    [|apply nth_error_None in Hl; unfold TSV_LINK in Hl; lia].
  apply check_row_link_arity; assumption.
Qed.

(** *** Rows that are checked to the end *)

Lemma returns_pure {A} (a : A) : returns (pure a) a.
Proof. eexists; reflexivity. Qed.

Lemma returns_emit (f : Finding) : returns (emit f) tt.
Proof. eexists; reflexivity. Qed.

Lemma returns_when (b : bool) (m : Run unit) :
  returns m tt -> returns (when b m) tt.
Proof. destruct b; simpl; [trivial|intros _; exact (returns_pure tt)]. Qed.

Lemma returns_bind {A B} (m : Run A) (f : A -> Run B) (a : A) (b : B) :
  returns m a -> returns (f a) b -> returns (bind m f) b.
Proof. intros [o ->] [o' E]. simpl. rewrite E. eexists; reflexivity. Qed.

Lemma returns_at {A} (v : list A) (i : nat) (x : A) :
  nth_error v i = Some x -> returns (at_ v i) x.
Proof. intros H. rewrite (at_some _ _ _ H). eexists; reflexivity. Qed.

Lemma returns_for_each {X} (l : list X) (body : X -> Run unit) :
  (forall x, returns (body x) tt) -> returns (for_each l body) tt.
Proof.
  intros Hb. induction l as [|x l IH]; simpl.
  - apply returns_pure.
  - eapply returns_bind; [apply Hb|assumption].
Qed.

Lemma returns_for_each_from {X} (l : list X) (body : nat -> X -> Run unit) :
  forall start,
    (forall i x, nth_error l i = Some x -> returns (body (start + i) x) tt) ->
    returns (for_each_from start l body) tt.
Proof.
  induction l as [|x l IH]; intros start Hb; simpl.
  - apply returns_pure.
  - eapply returns_bind.
    + specialize (Hb 0 x eq_refl). rewrite Nat.add_0_r in Hb. exact Hb.
    + apply IH. intros i y Hi. specialize (Hb (S i) y Hi).
      rewrite Nat.add_succ_r in Hb. exact Hb.
Qed.

Lemma check_link_returns (key : string) (types : list string) (i : nat)
  (link : string) : returns (check_link key types i link) tt.
Proof.
  unfold GrammarFile.check_link.
  destruct (negb (regex_match link)); [apply returns_emit|].
  eapply returns_bind; [apply returns_when, returns_emit|].
  apply returns_for_each. intros lnk. apply returns_when, returns_emit.
Qed.

Lemma check_row_returns (processed vc : list string) :
  row_in_bounds split vc ->
  returns (check_row processed vc) (seen processed vc).
Proof.
  intros [Hlen Hpv]. unfold TSV_LINK in Hlen.
  assert (Hcol : forall k, (k <= 10)%nat -> exists s, nth_error vc k = Some s).
  { intros k Hk. destruct (nth_error vc k) as [s|] eqn:E; [eauto|].
    apply nth_error_None in E. lia. }
  destruct (Hcol TSV_KEYNAME) as (key & Hkey); [unfold TSV_KEYNAME; lia|].
  destruct (Hcol TSV_TYPE) as (type & Htype); [unfold TSV_TYPE; lia|].
  destruct (Hcol TSV_LINK) as (link & Hlink); [unfold TSV_LINK; lia|].
  destruct (Hcol TSV_POSSIBLEVALUES) as (pv & Hpvs);
    [unfold TSV_POSSIBLEVALUES; lia|].
  destruct (Hcol TSV_INHERITABLE) as (inh & Hinh);
    [unfold TSV_INHERITABLE; lia|].
  specialize (Hpv type pv Htype Hpvs).
  unfold GrammarFile.check_row, seen. rewrite Hkey.
  eapply returns_bind; [apply returns_at; eassumption|].
  eapply returns_bind with (a := if mem key processed then processed
                                 else processed ++ [key]).
  { destruct (mem key processed); [|apply returns_pure].
    eapply returns_bind; [apply returns_emit|apply returns_pure]. }
  eapply returns_bind; [apply returns_at; eassumption|].
  eapply returns_bind; [apply returns_at; eassumption|].
  eapply returns_bind.
  { apply returns_when. eapply returns_bind.
    - apply returns_when, returns_emit.
    - apply returns_for_each_from. intros. apply check_link_returns. }
  eapply returns_bind.
  { apply returns_for_each. intros t. apply returns_when, returns_emit. }
  eapply returns_bind.
  { apply returns_for_each_from. intros i t Hi. simpl.
    unfold GrammarFile.check_possible_value.
    destruct (is_complex t) eqn:Hc; [|apply returns_pure].
    eapply returns_bind; [apply returns_at; eassumption|].
    destruct (pv =? "")%string eqn:Hne; [apply returns_pure|]. simpl negb.
    apply String.eqb_neq in Hne.
    specialize (Hpv Hne i t Hi Hc).
    destruct (nth_error (split pv ";"%char) i) as [d|] eqn:Hd.
    - eapply returns_bind; [apply returns_at; eassumption|].
      apply returns_when, returns_emit.
    - apply nth_error_None in Hd. lia. }
  eapply returns_bind.
  { apply returns_when.
    eapply returns_bind; [apply returns_at; eassumption|].
    apply returns_when, returns_when, returns_emit. }
  eapply returns_bind; [apply returns_at; eassumption|].
  eapply returns_bind; [apply returns_when, returns_emit|].
  apply returns_pure.
Qed.

Lemma check_rows_in_bounds (rows : data_list_t) :
  Forall (row_in_bounds split) rows ->
  forall processed,
    check_rows processed rows = Ret tt (rows_report processed rows).
Proof.
  induction 1 as [|vc rows Hvc _ IH]; intros processed; simpl.
  - reflexivity.
  - destruct (check_row_returns processed vc Hvc) as [o E].
    rewrite E. simpl. rewrite IH. reflexivity.
Qed.

End Check.

(** ** The claims about the reader *)

(** C4 (as amended).  For every row that [load] stores, the Type, Required,
    IndirectReference and Inheritable fields are the fields of the line
    converted to upper case in full and the other fields are the fields of
    the line unchanged; a field that begins with [fn:] is converted like any
    other and is therefore never stored as it was written. *)
Theorem load_upper_cases_whole_fields (d : ascii) :
  (forall lines dl,
     load d (Some lines) [] = Loaded true dl ->
     Forall2 (fun line vec => stored_as (split_line d line) vec) lines dl)
  /\ (forall s, starts_with s "fn:" = true -> transform_toupper s <> s).
Proof.
  split.
  - intros lines dl H. simpl in H.
    destruct (load_lines_stores d lines [] dl H) as (stored & -> & HF).
    exact HF.
  - apply toupper_fn_changes.
Qed.

Lemma load_upper_cases_whole_fields_witness :
  load tab (Some [header_line; predicate_row]) [] =
    Loaded true predicate_grammar
  /\ Forall2 (fun line vec => stored_as (split_line tab line) vec)
       [header_line; predicate_row] predicate_grammar
  /\ transform_toupper "fn:IsRequired(fn:IsPresent(Kids))"
     <> "fn:IsRequired(fn:IsPresent(Kids))".
Proof.
  split; [reflexivity|]. split.
  - exact (proj1 (load_upper_cases_whole_fields tab)
             [header_line; predicate_row] predicate_grammar eq_refl).
  - exact (proj2 (load_upper_cases_whole_fields tab)
             "fn:IsRequired(fn:IsPresent(Kids))" eq_refl).
Defined.

(** C4, the claim as stated fails: the Required field
    [fn:IsRequired(fn:IsPresent(Kids))] of a loaded row is stored as
    [FN:ISREQUIRED(FN:ISPRESENT(KIDS))]. *)
Lemma load_upper_cases_predicates :
  load tab (Some [header_line; predicate_row]) [] =
    Loaded true predicate_grammar
  /\ nth_error (split_line tab predicate_row) TSV_REQUIRED =
       Some "fn:IsRequired(fn:IsPresent(Kids))"
  /\ nth_error (nth 1 predicate_grammar []) TSV_REQUIRED =
       Some "FN:ISREQUIRED(FN:ISPRESENT(KIDS))".
Proof. repeat split; vm_compute; reflexivity. Qed.

(** C5 (as amended).  [load] fails exactly when the first line has fewer
    than [TSV_NOTES] (eleven) columns, and looks at no header name.  It is
    [check] that compares the names, each in its own fixed column: on a
    header row of at least eleven columns it reports wrong headers and
    fails exactly when some recognised name is not in its column, and
    otherwise goes on to the rows. *)
Theorem header_is_checked_by_position (file_name : string) (d : ascii)
  (basic_types : list string) (split : string -> ascii -> list string)
  (file_exists : string -> bool) (get_path_dir : string -> string) :
  (forall line lines dl,
     load d (Some (line :: lines)) [] = Loaded false dl <->
     (List.length (split_line d line) < TSV_NOTES)%nat /\ dl = [])
  /\ (forall vec rows,
        (TSV_NOTES <= List.length vec)%nat ->
        (check file_name basic_types split file_exists get_path_dir
           (vec :: rows) = Ret false [WrongHeaders]
         <-> header_ok vec = false)
        /\ (header_ok vec = true ->
            check file_name basic_types split file_exists get_path_dir
              (vec :: rows) =
            bind (check_rows file_name basic_types split file_exists
                    get_path_dir [] rows) (fun _ => pure true))).
Proof.
  split.
  - intros line lines dl. apply load_first_line.
  - intros vec rows Hlen. rewrite check_header by assumption.
    destruct (header_ok vec); repeat split; try reflexivity;
      try discriminate.
    intros H. exfalso. revert H. apply rows_never_return_false.
Qed.

Lemma header_is_checked_by_position_witness :
  (load tab (Some [short_header_line]) [] = Loaded false [] <->
   (List.length (split_line tab short_header_line) < TSV_NOTES)%nat
   /\ @nil (list string) = [])
  /\ (TSV_NOTES <= List.length (split_line tab reordered_header_line))%nat
  /\ (sample_check [split_line tab reordered_header_line] =
        Ret false [WrongHeaders]
      <-> header_ok (split_line tab reordered_header_line) = false).
Proof.
  split; [|split].
  - exact (proj1 (header_is_checked_by_position "tsv/Page.tsv" tab
                    sample_types split (fun _ => true) (fun _ => "tsv"))
                 short_header_line [] []).
  - vm_compute. repeat constructor.
  - refine (proj1 (proj2 (header_is_checked_by_position "tsv/Page.tsv" tab
                    sample_types split (fun _ => true) (fun _ => "tsv"))
                 (split_line tab reordered_header_line) [] _)).
    vm_compute. repeat constructor.
Defined.

(** C5, the claim as stated fails: a header row that has exactly the
    recognised names, with the names of two columns exchanged, is loaded
    and then rejected by [check]. *)
Lemma reordered_header_is_rejected :
  exists vec,
    load tab (Some [reordered_header_line]) [] = Loaded true [vec]
    /\ (forall name, In name (map snd header_names) -> In name vec)
    /\ sample_check [vec] = Ret false [WrongHeaders].
Proof.
  eexists. split; [reflexivity|]. split; [|reflexivity].
  intros name Hin. simpl in Hin.
  repeat (destruct Hin as [<-|Hin]; [vm_compute; tauto|]).
  contradiction.
Qed.

(** C7.  On a grammar with a valid header whose rows are read in bounds,
    [check] returns and its report holds the line "Wrong # of types vs. #
    of links" once for every row whose Link field is not empty and splits
    at [;] into a number of links other than the number of its types, in
    the order of the rows and with the key of the row, and for no other
    row: none for a row with as many links as types. *)
Theorem check_reports_link_arity (file_name : string)
  (basic_types : list string) (split : string -> ascii -> list string)
  (file_exists : string -> bool) (get_path_dir : string -> string)
  (vec : list string) (rows : data_list_t) :
  (TSV_NOTES <= List.length vec)%nat ->
  header_ok vec = true ->
  Forall (row_in_bounds split) rows ->
  exists o,
    check file_name basic_types split file_exists get_path_dir (vec :: rows)
      = Ret true o
    /\ filter links_arity o = flat_map (arity_mismatch split) rows
    /\ forall key,
         In (WrongTypesVsLinks key) o <->
         exists vc type link,
           In vc rows
           /\ nth_error vc TSV_KEYNAME = Some key
           /\ nth_error vc TSV_TYPE = Some type
           /\ nth_error vc TSV_LINK = Some link
           /\ link <> ""
           /\ List.length (split link ";"%char)
              <> List.length (split type ";"%char).
Proof.
  intros Hlen Hok HF.
  exists (rows_report file_name basic_types split file_exists get_path_dir
            [] rows).
  assert (E : filter links_arity
                (rows_report file_name basic_types split file_exists
                   get_path_dir [] rows)
              = flat_map (arity_mismatch split) rows)
    by (apply rows_report_link_arity; assumption).
  split; [|split; [exact E|]].
  - rewrite check_header by assumption. rewrite Hok.
    rewrite (check_rows_in_bounds _ _ _ _ _ _ HF). simpl.
    rewrite app_nil_r. reflexivity.
  - intros key.
    assert (Hin : In (WrongTypesVsLinks key)
                    (rows_report file_name basic_types split file_exists
                       get_path_dir [] rows)
                  <-> In (WrongTypesVsLinks key)
                         (flat_map (arity_mismatch split) rows)).
    { rewrite <- E, filter_In. split; [intros H; split; [exact H|reflexivity]|].
      intros [H _]. exact H. }
    rewrite Hin, in_flat_map. unfold arity_mismatch. split.
    + intros (vc & Hvc & Hk). exists vc.
      destruct (nth_error vc TSV_KEYNAME) as [key'|]; [|destruct Hk].
      destruct (nth_error vc TSV_TYPE) as [type|]; [|destruct Hk].
      destruct (nth_error vc TSV_LINK) as [link|]; [|destruct Hk].
      exists type, link.
      destruct (link =? "")%string eqn:El; [destruct Hk|].
      destruct (List.length (split link ";"%char)
                =? List.length (split type ";"%char))%nat eqn:En;
        [destruct Hk|].
      destruct Hk as [[= ->]|[]].
      apply String.eqb_neq in El. apply Nat.eqb_neq in En.
      repeat split; assumption.
    + intros (vc & type & link & Hvc & Hk & Ht & Hl & Hne & Hn).
      exists vc. split; [assumption|]. rewrite Hk, Ht, Hl.
      apply String.eqb_neq in Hne. apply Nat.eqb_neq in Hn.
      rewrite Hne, Hn. left. reflexivity.
Qed.

Lemma check_reports_link_arity_witness :
  exists o,
    sample_check one_link_grammar = Ret true o
    /\ filter links_arity o = [WrongTypesVsLinks "Dest"].
Proof.
  assert (B : Forall (row_in_bounds split) (tl one_link_grammar)).
  { constructor; [|constructor; [|constructor]].
    - split; [vm_compute; repeat constructor|].
      intros type pv Ht Hp Hne. exfalso. apply Hne.
      injection Hp as <-. reflexivity.
    - split; [vm_compute; repeat constructor|].
      intros type pv Ht Hp Hne. exfalso. apply Hne.
      injection Hp as <-. reflexivity. }
  assert (L : (TSV_NOTES <= List.length (hd [] one_link_grammar))%nat)
    by (vm_compute; repeat constructor).
  destruct (check_reports_link_arity "tsv/Page.tsv" sample_types split
              (fun _ => true) (fun _ => "tsv")
              (hd [] one_link_grammar) (tl one_link_grammar) L eq_refl B)
    as (o & E & F & _).
  exists o. split; [exact E|exact F].
Defined.

(** C9 (the code departs from it).  When the type at position [t_pos] is
    complex, the PossibleValues field is not empty and splits into no more
    than [t_pos] pieces, line 180 reads [def_val[t_pos]] outside the
    vector. *)
Theorem possible_value_read_out_of_bounds
  (split : string -> ascii -> list string) (vc : list string)
  (key possible_values type : string) (t_pos : nat) :
  is_complex type = true ->
  nth_error vc TSV_POSSIBLEVALUES = Some possible_values ->
  possible_values <> "" ->
  (List.length (split possible_values ";"%char) <= t_pos)%nat ->
  check_possible_value split vc key t_pos type = UB [].
Proof.
  intros Hc Hpv Hne Hlen. unfold check_possible_value.
  rewrite Hc, (at_some _ _ _ Hpv), bind_pure.
  apply String.eqb_neq in Hne. rewrite Hne. simpl negb. cbv iota.
  unfold at_. apply nth_error_None in Hlen. rewrite Hlen. reflexivity.
Qed.

Lemma possible_value_read_out_of_bounds_witness :
  (List.length (split "[a]" ";") <= 1)%nat
  /\ check_possible_value split short_possible_values_vec "Kids" 1 "ARRAY"
     = UB [].
Proof.
  split; [apply le_n|].
  exact (possible_value_read_out_of_bounds split short_possible_values_vec
           "Kids" "[a]" "ARRAY" 1
           eq_refl eq_refl
           (fun H : "[a]" = "" =>
              eq_ind "[a]"
                (fun s => match s with EmptyString => False | _ => True end)
                I "" H)
           (le_n 1)).
Defined.

(** C6 (the code departs from it).  On a grammar with a valid header whose
    first row has two types, the second complex, and one possible value,
    [check] reaches the read outside the vector before it has written
    anything: neither the arity mismatch of that row nor the duplicate
    key, the unknown type and the missing inheritable flag of the next row
    are reported.  When the first row has no possible value, the findings
    of the next row are all reported and [check] returns true. *)
Theorem check_stops_at_short_possible_values :
  (load tab (Some [header_line; short_possible_values_row; faulty_row]) []
     = Loaded true short_possible_values_grammar
   /\ sample_check short_possible_values_grammar = UB [])
  /\ (load tab (Some [header_line; plain_kids_row; faulty_row]) []
        = Loaded true plain_kids_grammar
      /\ sample_check plain_kids_grammar =
           Ret true
             [ DuplicateKeys "Kids"; WrongType "BITMASK" "Kids";
               NotInheritable "Kids" ]).
Proof.
  split; split.
  - vm_compute. reflexivity.
  - vm_compute. reflexivity.
  - vm_compute. reflexivity.
  - vm_compute. reflexivity.
Qed.

(** X1.  On a grammar with a valid header all of whose rows are in bounds,
    [check] returns true and its report is what the rows write, each in
    turn and none left out. *)
Theorem check_accumulates_all_findings (file_name : string)
  (basic_types : list string) (split : string -> ascii -> list string)
  (file_exists : string -> bool) (get_path_dir : string -> string)
  (vec : list string) (rows : data_list_t) :
  (TSV_NOTES <= List.length vec)%nat ->
  header_ok vec = true ->
  Forall (row_in_bounds split) rows ->
  check file_name basic_types split file_exists get_path_dir (vec :: rows)
  = Ret true
      (rows_report file_name basic_types split file_exists get_path_dir
         [] rows).
Proof.
  intros Hlen Hok Hrows.
  rewrite check_header by assumption. rewrite Hok.
  rewrite (check_rows_in_bounds _ _ _ _ _ _ Hrows). simpl.
  rewrite app_nil_r. reflexivity.
Qed.

Lemma check_accumulates_all_findings_witness :
  Forall (row_in_bounds split) (tl plain_kids_grammar)
  /\ sample_check plain_kids_grammar
     = Ret true
         (rows_report "tsv/Page.tsv" sample_types split (fun _ => true)
            (fun _ => "tsv") [] (tl plain_kids_grammar)).
Proof.
  assert (B : Forall (row_in_bounds split) (tl plain_kids_grammar)).
  { constructor; [|constructor; [|constructor]].
    - split; [vm_compute; repeat constructor|].
      intros type pv Ht Hp Hne. exfalso. apply Hne.
      injection Hp as <-. reflexivity.
    - split; [vm_compute; repeat constructor|].
      intros type pv Ht Hp Hne. exfalso. apply Hne.
      injection Hp as <-. reflexivity. }
  split; [exact B|].
  refine (check_accumulates_all_findings "tsv/Page.tsv" sample_types split
            (fun _ => true) (fun _ => "tsv")
            (hd [] plain_kids_grammar) (tl plain_kids_grammar) _ eq_refl B).
  vm_compute. repeat constructor.
Defined.

(** C10.  [load] returns true and leaves the data list empty exactly for a
    file that cannot be opened or has no line; on the empty data list
    [check] writes "Empty grammar file:" with the file name and returns
    false. *)
Theorem missing_or_empty_file_loads_empty (file_name : string) (d : ascii)
  (basic_types : list string) (split : string -> ascii -> list string)
  (file_exists : string -> bool) (get_path_dir : string -> string)
  (file : option (list string)) :
  (load d file [] = Loaded true [] <-> file = None \/ file = Some [])
  /\ check file_name basic_types split file_exists get_path_dir [] =
       Ret false [EmptyGrammarFile]
  /\ render file_name EmptyGrammarFile
     = ("Empty grammar file:" ++ file_name)%string.
Proof.
  split; [|split; reflexivity].
  split.
  - destruct file as [[|line lines]|]; intros H.
    + right; reflexivity.
    + exfalso. unfold load in H.
      apply load_lines_stores in H. destruct H as (stored & Hs & HF).
      inversion HF; subst. discriminate Hs.
    + left; reflexivity.
  - intros [->| ->]; reflexivity.
Qed.

End GrammarFileFacts.

(* ===================================================================== *)
(** * Part VI: properties of the creator                                  *)
(* ===================================================================== *)

Module XMLCreatorFacts.

Import XMLCreator XMLCreatorSpec.
Local Open Scope exc_scope.

(** ** Exceptions *)

Lemma bind_Ok {A B} (m : Exc A) (f : A -> Exc B) (b : B) :
  bind m f = Ok b -> exists a, m = Ok a /\ f a = Ok b.
Proof.
  destruct m as [a|t]; simpl; [|discriminate].
  intros H. exists a. split; [reflexivity|assumption].
Qed.

(** Invert every successful bind among the hypotheses. *)
Ltac invert_binds :=
  repeat match goal with
    | H : bind _ _ = Ok _ |- _ =>
        let a := fresh "a" in
        let Ha := fresh "Ha" in
        apply bind_Ok in H; destruct H as (a & Ha & H)
    | H : Ok _ = Ok _ |- _ => injection H as H
    end.

(** ** Comparison of [float] values *)

Ltac compare_cases :=
  repeat match goal with
    | |- context [Z.compare ?a ?b] => destruct (Z.compare_spec a b)
    | |- context [PosDef.Pos.compare_cont Eq ?a ?b] =>
        change (PosDef.Pos.compare_cont Eq a b) with (Pos.compare a b);
        destruct (Pos.compare_spec a b)
    end.

Lemma SFleb_trans (x y z : spec_float) :
  SFleb x y = true -> SFleb y z = true -> SFleb x z = true.
Proof.
  unfold SFleb, SFcompare.
  destruct x as [sx|sx| |sx mx ex], y as [sy|sy| |sy my ey],
           z as [sz|sz| |sz mz ez];
    try discriminate; try reflexivity;
    try (destruct sx, sy, sz; simpl; intros; congruence).
  destruct sx, sy, sz; try discriminate; try reflexivity;
    compare_cases; simpl; intros; subst;
    try discriminate; try reflexivity; try lia.
Qed.

Lemma SFltb_not_leb (x y : spec_float) :
  SFltb x y = true -> SFleb y x = false.
Proof.
  unfold SFltb, SFleb, SFcompare.
  destruct x as [sx|sx| |sx mx ex], y as [sy|sy| |sy my ey];
    try discriminate; try reflexivity;
    try (destruct sx, sy; simpl; intros; congruence).
  destruct sx, sy; try discriminate; try reflexivity;
    compare_cases; simpl; intros; subst;
    try discriminate; try reflexivity; try lia.
Qed.

(** ** Strings *)

Lemma len_nonneg (s : string) : (0 <= len s)%Z.
Proof. unfold len. lia. Qed.

Lemma length_substring (s : string) :
  forall n m, String.length (substring n m s) = Nat.min m (String.length s - n).
Proof.
  induction s as [|c s IH]; intros [|n] [|m]; simpl; try reflexivity.
  - rewrite IH. rewrite Nat.sub_0_r. reflexivity.
  - apply IH.
  - apply IH.
Qed.

Lemma substring_whole (s : string) : substring 0 (String.length s) s = s.
Proof. induction s as [|c s IH]; simpl; [reflexivity|]. rewrite IH. reflexivity. Qed.

Lemma substring2_length (s r : string) (b e : Z) :
  substring2 s b e = Ok r -> (0 <= b <= e)%Z /\ (e <= len s)%Z /\ len r = (e - b)%Z.
Proof.
  unfold substring2.
  destruct (b <? 0)%Z eqn:E1; [discriminate|].
  destruct (e >? len s)%Z eqn:E2; [discriminate|].
  destruct (b >? e)%Z eqn:E3; [discriminate|].
  simpl. intros [= <-]. unfold len in *. rewrite length_substring. lia.
Qed.

Lemma substring2_tail (c : ascii) (s : string) :
  substring2 (String c s) 1 (len (String c s)) = Ok s.
Proof.
  unfold substring2.
  pose proof (len_nonneg s) as Hs.
  assert (E : len (String c s) = (len s + 1)%Z) by (unfold len; simpl; lia).
  rewrite E.
  replace (1 <? 0)%Z with false by reflexivity.
  replace (len s + 1 >? len s + 1)%Z with false by lia.
  replace (1 >? len s + 1)%Z with false by lia.
  simpl orb. cbv iota.
  replace (Z.to_nat (len s + 1 - 1)) with (String.length s) by (unfold len; lia).
  simpl. rewrite substring_whole. reflexivity.
Qed.

Lemma int32_succ (x : Z) :
  int32 (x + 1) = (if (int32 x =? 2147483647)%Z then -2147483648
                   else int32 x + 1)%Z.
Proof.
  unfold int32.
  replace (x + 1 + 2147483648)%Z with ((x + 2147483648) + 1)%Z by lia.
  rewrite <- Z.add_mod_idemp_l by lia.
  pose proof (Z.mod_pos_bound (x + 2147483648) 4294967296 ltac:(lia)) as Hb.
  set (u := ((x + 2147483648) mod 4294967296)%Z) in *.
  destruct (u - 2147483648 =? 2147483647)%Z eqn:E.
  - apply Z.eqb_eq in E. replace u with 4294967295%Z by lia. reflexivity.
  - apply Z.eqb_neq in E. rewrite Z.mod_small by lia. lia.
Qed.

(** ** Arrays *)

Lemma arr_get_Ok {A} (arr : list A) (i : nat) (x : A) :
  arr_get arr i = Ok x <-> nth_error arr i = Some x.
Proof.
  unfold arr_get. destruct (nth_error arr i); split; congruence.
Qed.

Lemma arr_set_Ok {A} (arr arr' : list A) (i : nat) (x : A) :
  arr_set arr i x = Ok arr' ->
  forall j, nth_error arr' j = if (j =? i)%nat then Some x else nth_error arr j.
Proof.
  unfold arr_set. destruct (i <? List.length arr)%nat eqn:E; [|discriminate].
  intros [= <-] j. apply Nat.ltb_lt in E.
  destruct (nth_error arr i) as [y|] eqn:Hi.
  - apply (nth_error_replace _ _ _ _ _ Hi).
  - apply nth_error_None in Hi. lia.
Qed.

Section Columns.

Variable tsv : TSVHandler.
Variable parseFloat : string -> Exc spec_float.
Variable ea : bool.
Variable delimiter : ascii.

Lemma update_column_Ok (cv cv' : list string) (i : nat)
  (f : string -> Exc string) :
  update_column cv i f = Ok cv' ->
  exists c r,
    nth_error cv i = Some c /\ f c = Ok r /\
    forall j, nth_error cv' j = if (j =? i)%nat then Some r else nth_error cv j.
Proof.
  unfold update_column. intros H. invert_binds.
  apply arr_get_Ok in Ha. exists a, a0. split; [assumption|].
  split; [assumption|]. apply arr_set_Ok. assumption.
Qed.

(** The columns that the type list modifier may rewrite. *)
Lemma modifier_columns (m : TypeListModifier) (cols cv : list string) :
  (if somethingReduced m then
     cv1 <- arr_set cols 1 (getReducedTypes m) ;;
     cv5 <- update_column cv1 5 (reduceCorresponding m) ;;
     cv7 <- update_column cv5 7 (reduceCorresponding m) ;;
     update_column cv7 9 (reduceCorresponding m)
   else Ok cols) = Ok cv ->
  forall j, j <> 1%nat -> j <> 5%nat -> j <> 7%nat -> j <> 9%nat ->
            nth_error cv j = nth_error cols j.
Proof.
  destruct (somethingReduced m).
  - intros H j H1 H5 H7 H9. invert_binds.
    pose proof (arr_set_Ok _ _ _ _ Ha) as E1.
    apply update_column_Ok in Ha0, Ha1, H.
    destruct Ha0 as (? & ? & _ & _ & E5), Ha1 as (? & ? & _ & _ & E7),
             H as (? & ? & _ & _ & E9).
    rewrite E9, E7, E5, E1.
    apply Nat.eqb_neq in H1, H5, H7, H9. rewrite H1, H5, H7, H9.
    reflexivity.
  - intros [= <-]. reflexivity.
Qed.

Lemma modifier_types (m : TypeListModifier) (cols cv : list string)
  (c1 : string) :
  nth_error cols 1 = Some c1 ->
  (if somethingReduced m then
     cv1 <- arr_set cols 1 (getReducedTypes m) ;;
     cv5 <- update_column cv1 5 (reduceCorresponding m) ;;
     cv7 <- update_column cv5 7 (reduceCorresponding m) ;;
     update_column cv7 9 (reduceCorresponding m)
   else Ok cols) = Ok cv ->
  nth_error cv 1 =
  Some (if somethingReduced m then getReducedTypes m else c1).
Proof.
  intros H1. destruct (somethingReduced m).
  - intros H. invert_binds.
    pose proof (arr_set_Ok _ _ _ _ Ha) as E1.
    apply update_column_Ok in Ha0, Ha1, H.
    destruct Ha0 as (? & ? & _ & _ & E5), Ha1 as (? & ? & _ & _ & E7),
             H as (? & ? & _ & _ & E9).
    rewrite E9, E7, E5, E1. reflexivity.
  - intros [= <-]. assumption.
Qed.

(** Where each column of a reduced row comes from. *)
Lemma reduceColumns_Ok (pdf_ver : spec_float) (cols cv : list string) :
  reduceColumns tsv pdf_ver cols = Ok cv ->
  nth_error cv 0 = nth_error cols 0
  /\ nth_error cv 2 = nth_error cols 2
  /\ (exists c1 m,
        nth_error cols 1 = Some c1
        /\ reduceTypesForVersion tsv c1 pdf_ver = Ok m
        /\ nth_error cv 1 =
           Some (if somethingReduced m then getReducedTypes m else c1))
  /\ (exists pv pv',
        nth_error cols 8 = Some pv
        /\ reduceComplexForVersion tsv pv pdf_ver = Ok pv'
        /\ nth_error cv 8 = Some pv')
  /\ (exists l l',
        nth_error cols 10 = Some l
        /\ reduceComplexForVersion tsv l pdf_ver = Ok l'
        /\ nth_error cv 10 = Some l').
Proof.
  unfold reduceColumns. intros H. invert_binds.
  pose proof (modifier_columns _ _ _ Ha1) as Em.
  apply update_column_Ok in Ha2, Ha3, H.
  destruct Ha2 as (c4 & r4 & _ & _ & E4), Ha3 as (c8 & r8 & G8 & F8 & E8),
           H as (c10 & r10 & G10 & F10 & E10).
  repeat split.
  - rewrite E10, E8, E4. cbn [Nat.eqb]. apply Em; discriminate.
  - rewrite E10, E8, E4. cbn [Nat.eqb]. apply Em; discriminate.
  - apply arr_get_Ok in Ha. exists a, a0.
    repeat split; [assumption|assumption|].
    rewrite E10, E8, E4. cbn [Nat.eqb].
    eapply modifier_types; eassumption.
  - exists c8, r8. rewrite E4 in G8. cbn [Nat.eqb] in G8.
    rewrite Em in G8 by discriminate.
    repeat split; [assumption|assumption|].
    rewrite E10, E8. reflexivity.
  - exists c10, r10. rewrite E8, E4 in G10. cbn [Nat.eqb] in G10.
    rewrite Em in G10 by discriminate.
    repeat split; [assumption|assumption|].
    rewrite E10. reflexivity.
Qed.

Lemma entryOf_key (cv : list string) (e : Node) :
  entryOf tsv ea cv = Ok e -> entry_key e = nth_error cv 0.
Proof.
  unfold entryOf. intros H. invert_binds.
  apply arr_get_Ok in Ha. subst e. simpl. symmetry; assumption.
Qed.

(** What a processed row was: its key, its version, and whether it was
    kept. *)
Lemma processRow_Ok (pdf_ver : spec_float) (cols : list string)
  (r : option Node) :
  processRow tsv parseFloat ea pdf_ver cols = Ok r ->
  exists key c2 ver,
    nth_error cols 0 = Some key /\ nth_error cols 2 = Some c2
    /\ parseFloat c2 = Ok ver
    /\ if SFleb ver pdf_ver
       then exists e, r = Some e /\ entry_key e = Some key
       else r = None.
Proof.
  unfold processRow. intros H. invert_binds.
  apply arr_get_Ok in Ha0, Ha1.
  exists a0, a1, a2. repeat split; try assumption.
  destruct (SFleb a2 pdf_ver).
  - invert_binds. exists a4. split; [congruence|].
    rewrite (entryOf_key _ _ Ha4).
    destruct (reduceColumns_Ok _ _ _ Ha3) as (E0 & _).
    congruence.
  - congruence.
Qed.

Lemma processRows_keys (v1 v2 : spec_float) (lines : list string) :
  SFleb v1 v2 = true ->
  forall es1 es2,
    processRows tsv parseFloat ea delimiter v1 lines = Ok es1 ->
    processRows tsv parseFloat ea delimiter v2 lines = Ok es2 ->
    incl (keys es1) (keys es2).
Proof.
  intros Hv. induction lines as [|line lines IH]; intros es1 es2 H1 H2;
    simpl in H1, H2.
  - injection H1 as <-. intros k [].
  - invert_binds. subst es1 es2.
    specialize (IH _ _ Ha2 Ha0).
    apply processRow_Ok in Ha1, Ha.
    destruct Ha1 as (key & c2 & ver & K0 & K2 & P & R1),
             Ha as (key' & c2' & ver' & K0' & K2' & P' & R2).
    assert (key' = key) by congruence.
    assert (c2' = c2) by congruence. subst.
    assert (ver' = ver) by congruence. subst.
    destruct (SFleb ver v1) eqn:L1.
    + rewrite (SFleb_trans _ _ _ L1 Hv) in R2.
      destruct R1 as (e1 & -> & E1), R2 as (e2 & -> & E2).
      simpl. rewrite E1, E2.
      intros k [<-|Hk]; [left; reflexivity|right; apply IH; assumption].
    + subst a1. destruct (SFleb ver v2).
      * destruct R2 as (e2 & -> & E2). simpl. rewrite E2.
        intros k Hk. right. apply IH; assumption.
      * subst a. assumption.
Qed.

End Columns.

(** ** The scanning loops of [nodeValues] *)

Section Scan.

Variable tsv : TSVHandler.
Variable ea : bool.

Lemma isBlank_false_nonempty (a : string) :
  isBlank a = false -> (0 < len a)%Z.
Proof. destruct a; simpl; [discriminate|]. unfold len; simpl; lia. Qed.

(** Every iteration leaves a shorter [a]. *)
Lemma scanStep_shorter (over_links : bool) (t a a' : string) (v : Node) :
  isBlank a = false ->
  scanStep tsv ea over_links t a = Ok (v, a') ->
  (String.length a' < String.length a)%nat.
Proof.
  intros Hnb H. apply isBlank_false_nonempty in Hnb.
  enough (len a' < len a)%Z by (unfold len in *; lia).
  unfold scanStep in H. destruct (startsWith a "fn:").
  - invert_binds. subst a'. clear H.
    apply substring2_length in Ha1. destruct Ha1 as (B1 & B2 & _).
    assert (L1 : (len a3 < len a)%Z).
    { destruct (int32 (a0 + 2) <? len a)%Z.
      - apply substring2_length in Ha2. destruct Ha2 as (C1 & _ & C3).
        replace (a0 + 2)%Z with ((a0 + 1) + 1)%Z in * by lia.
        rewrite (int32_succ (a0 + 1)) in *.
        destruct (int32 (a0 + 1) =? 2147483647)%Z; lia.
      - injection Ha2 as <-. assumption. }
    destruct (negb (isBlank a3)).
    + invert_binds. destruct (Ascii.eqb a5 ",").
      * apply substring2_length in Ha3. lia.
      * injection Ha3 as <-. assumption.
    + injection Ha3 as <-. assumption.
  - remember (indexOf a ",") as i.
    destruct (if over_links then (i >? 0)%Z else (i >=? 0)%Z) eqn:C.
    + invert_binds. subst a'.
      apply substring2_length in Ha0.
      destruct over_links; lia.
    + injection H as _ <-. assumption.
Qed.

(** Hence the loop needs no more iterations than [a] has characters. *)
Lemma scanLoop_fuel (over_links : bool) (t : string) :
  forall n m a,
    (String.length a <= n)%nat -> (String.length a <= m)%nat ->
    scanLoop tsv ea over_links t n a = scanLoop tsv ea over_links t m a.
Proof.
  induction n as [|n IH]; intros m a Hn Hm.
  - destruct a; [|simpl in Hn; lia]. destruct m; reflexivity.
  - destruct m as [|m].
    + destruct a; [|simpl in Hm; lia]. reflexivity.
    + simpl. destruct (isBlank a) eqn:Hb; [reflexivity|].
      destruct (scanStep tsv ea over_links t a) as [[v a']|e] eqn:Hs;
        [|reflexivity].
      simpl. apply (scanStep_shorter _ _ _ _ _ Hb) in Hs.
      rewrite (IH m a') by lia. reflexivity.
Qed.

(** The loop, one iteration at a time. *)
Lemma scanValues_step (over_links : bool) (t a : string) :
  scanValues tsv ea over_links t a =
  if isBlank a then Ok []
  else
    r <- scanStep tsv ea over_links t a ;;
    vs <- scanValues tsv ea over_links t (snd r) ;;
    Ok (fst r :: vs).
Proof.
  unfold scanValues. destruct a as [|c a].
  - reflexivity.
  - cbn [String.length scanLoop].
    destruct (isBlank (String c a)) eqn:Hb; [reflexivity|].
    destruct (scanStep tsv ea over_links t (String c a)) as [[v a']|e] eqn:Hs;
      [|reflexivity].
    cbn [bind snd fst].
    pose proof (scanStep_shorter _ _ _ _ _ Hb Hs) as Hlt. simpl in Hlt.
    rewrite (scanLoop_fuel over_links t (String.length a) (String.length a') a')
      by lia.
    reflexivity.
Qed.

End Scan.

(** ** The claims about the creator *)

(** C2.  For every TSV file and target versions [v1 <= v2] at which the
    file is reduced, every key among the entries derived for [v1] is among
    the entries derived for [v2]. *)
Theorem keys_grow_with_version (tsv : TSVHandler)
  (parseFloat : string -> Exc spec_float) (ea : bool) (delimiter : ascii)
  (file_lines : list string) (v1 v2 : spec_float) (es1 es2 : list Node) :
  SFleb v1 v2 = true ->
  reduceObject tsv parseFloat ea delimiter v1 file_lines = Ok es1 ->
  reduceObject tsv parseFloat ea delimiter v2 file_lines = Ok es2 ->
  incl (keys es1) (keys es2).
Proof.
  unfold reduceObject. intros Hv H1 H2.
  exact (processRows_keys tsv parseFloat ea delimiter v1 v2 (tl file_lines)
           Hv es1 es2 H1 H2).
Qed.

Lemma keys_grow_with_version_witness :
  SFleb v1_0 v2_0 = true
  /\ keys sample_entries_1_0 = ["Dest"; "Names"]
  /\ keys sample_entries_2_0 = ["Dest"; "Names"; "AF"]
  /\ incl (keys sample_entries_1_0) (keys sample_entries_2_0).
Proof.
  split; [reflexivity|]. split; [reflexivity|]. split; [reflexivity|].
  exact (keys_grow_with_version SpecHandler.plain SpecHandler.parseFloat
           false tab sample_file v1_0 v2_0
           sample_entries_1_0 sample_entries_2_0
           eq_refl eq_refl eq_refl).
Defined.

(** C3.  When the rows of a file are reduced at a target version, a row
    whose introduced version is at most the target contributes one entry,
    under its own key, in its place; a row whose introduced version is not
    (in particular one introduced later) contributes nothing, and is
    dropped without any of its other fields being looked at. *)
Theorem row_kept_iff_introduced (tsv : TSVHandler)
  (parseFloat : string -> Exc spec_float) (ea : bool) (delimiter : ascii)
  (pdf_ver : spec_float) (line : string) (rest : list string)
  (key c2 : string) (ver : spec_float) (es : list Node) :
  nth_error (split_all line delimiter) 0 = Some key ->
  nth_error (split_all line delimiter) 2 = Some c2 ->
  parseFloat c2 = Ok ver ->
  processRows tsv parseFloat ea delimiter pdf_ver (line :: rest) = Ok es ->
  (SFleb ver pdf_ver = true ->
     exists e es',
       es = e :: es' /\ entry_key e = Some key
       /\ processRows tsv parseFloat ea delimiter pdf_ver rest = Ok es')
  /\ (SFleb ver pdf_ver = false ->
        processRows tsv parseFloat ea delimiter pdf_ver rest = Ok es)
  /\ (SFltb pdf_ver ver = true -> SFleb ver pdf_ver = false)
  /\ (SFleb ver pdf_ver = false ->
        ea = false \/ List.length (split_all line delimiter) = 12%nat ->
        processRow tsv parseFloat ea pdf_ver (split_all line delimiter)
        = Ok None).
Proof.
  intros K0 K2 P H. simpl in H. invert_binds. subst es.
  apply processRow_Ok in Ha.
  destruct Ha as (key' & c2' & ver' & K0' & K2' & P' & R).
  assert (key' = key) by congruence.
  assert (c2' = c2) by congruence. subst.
  assert (ver' = ver) by congruence. subst.
  repeat split.
  - intros L. rewrite L in R. destruct R as (e & -> & E).
    exists e, a0. repeat split; assumption.
  - intros L. rewrite L in R. subst a. assumption.
  - apply SFltb_not_leb.
  - intros L Hea. unfold processRow.
    assert (Hassert :
      assert_ ea (Ok (List.length (split_all line delimiter) =? 12)%nat)
        "Less than 12 TSV columns!" = Ok tt).
    { destruct Hea as [-> | E]; [reflexivity|].
      rewrite E. destruct ea; reflexivity. }
    rewrite Hassert. simpl.
    apply arr_get_Ok in K0, K2. rewrite K0, K2. simpl.
    rewrite P. simpl. rewrite L. reflexivity.
Qed.

Lemma row_kept_iff_introduced_witness :
  (SFleb v2_0 v1_0 = false ->
   sample_reduceObject v1_0 [header_line; late_row] = Ok [])
  /\ (SFleb v2_0 v2_0 = true ->
      exists e es',
        sample_entries_2_0 = e :: es' /\ entry_key e = Some "Dest"
        /\ sample_reduceObject v2_0 [header_line; plain_row; late_row]
           = Ok es').
Proof.
  split.
  - exact (proj1 (proj2
      (row_kept_iff_introduced SpecHandler.plain SpecHandler.parseFloat
         false tab v1_0 late_row [] "AF" "2.0" v2_0 []
         eq_refl eq_refl eq_refl eq_refl))).
  - intros _.
    exact (proj1
      (row_kept_iff_introduced SpecHandler.plain SpecHandler.parseFloat
         false tab v2_0 since_row [plain_row; late_row] "Dest" "1.0" v1_0
         sample_entries_2_0 eq_refl eq_refl eq_refl eq_refl) eq_refl).
Defined.







(** Rows with the same Links field and equally long type lists, one of
    which loses a type at the target version: whatever
    [reduceComplexForVersion] does, the two rows cannot both come out with
    as many links as types. *)
Lemma no_links_reduction_aligns_both
  (reduceRequired reduceComplex : string -> spec_float -> Exc string) :
  let tsv :=
    SpecHandler.handler SpecHandler.parseFloat reduceRequired reduceComplex in
  links_aligned tsv v1_0 (split_all since_row tab)
  && links_aligned tsv v1_0 (split_all plain_row tab) = false.
Proof.
  intros tsv. unfold links_aligned.
  destruct (reduceColumns tsv v1_0 (split_all since_row tab)) as [cvA|] eqn:HA;
    [|reflexivity].
  destruct (reduceColumns tsv v1_0 (split_all plain_row tab)) as [cvB|] eqn:HB;
    [|apply andb_false_r].
  apply reduceColumns_Ok in HA, HB.
  destruct HA as (_ & _ & (tA & mA & TA & MA & -> ) & _ & (lA & lA' & LA & FA & ->)).
  destruct HB as (_ & _ & (tB & mB & TB & MB & -> ) & _ & (lB & lB' & LB & FB & ->)).
  injection TA as <-. injection TB as <-.
  injection LA as <-. injection LB as <-.
  assert (lB' = lA') by congruence. subst lB'.
  injection MA as <-. injection MB as <-.
  cbn [somethingReduced getReducedTypes].
  change (List.length (split "name" ";")) with 1%nat.
  change (List.length (split "array;name" ";")) with 2%nat.
  destruct (List.length (split lA' ";")) as [|[|[|n]]]; reflexivity.
Qed.

(** C1 (the code departs from it).  The reduced PossibleValues and Links
    fields of a row are those fields passed through
    [reduceComplexForVersion] alone: two rows that agree on such a field
    come out agreeing on it, whatever was removed from their type lists. *)
Theorem links_follow_the_field_not_the_types (tsv : TSVHandler)
  (pdf_ver : spec_float) (colsA colsB cvA cvB : list string) :
  reduceColumns tsv pdf_ver colsA = Ok cvA ->
  reduceColumns tsv pdf_ver colsB = Ok cvB ->
  (nth_error colsA 10 = nth_error colsB 10 ->
   nth_error cvA 10 = nth_error cvB 10)
  /\ (nth_error colsA 8 = nth_error colsB 8 ->
      nth_error cvA 8 = nth_error cvB 8).
Proof.
  intros HA HB.
  apply reduceColumns_Ok in HA, HB.
  destruct HA as (_ & _ & _ & (pA & pA' & PA & GA & EA) & (lA & lA' & LA & FA & KA)).
  destruct HB as (_ & _ & _ & (pB & pB' & PB & GB & EB) & (lB & lB' & LB & FB & KB)).
  split; intros E.
  - rewrite LA, LB in E. injection E as <-. congruence.
  - rewrite PA, PB in E. injection E as <-. congruence.
Qed.

Lemma links_follow_the_field_not_the_types_witness :
  reduceColumns SpecHandler.plain v1_0 (split_all since_row tab)
    = Ok ["Dest"; "name"; "1.0"; ""; "FALSE"; "FALSE"; "FALSE"; ""; ""; "";
          "[ArrayOfDests];[]"; ""]
  /\ reduceColumns SpecHandler.plain v1_0 (split_all plain_row tab)
     = Ok ["Names"; "array;name"; "1.0"; ""; "FALSE"; "FALSE"; "FALSE"; "";
           ""; ""; "[ArrayOfDests];[]"; ""]
  /\ links_aligned SpecHandler.plain v1_0 (split_all since_row tab) = false
  /\ (nth_error (split_all since_row tab) 10
        = nth_error (split_all plain_row tab) 10 ->
      nth_error ["Dest"; "name"; "1.0"; ""; "FALSE"; "FALSE"; "FALSE"; "";
                 ""; ""; "[ArrayOfDests];[]"; ""] 10
      = nth_error ["Names"; "array;name"; "1.0"; ""; "FALSE"; "FALSE";
                   "FALSE"; ""; ""; ""; "[ArrayOfDests];[]"; ""] 10).
Proof.
  split; [reflexivity|]. split; [reflexivity|]. split; [reflexivity|].
  exact (proj1
    (links_follow_the_field_not_the_types SpecHandler.plain v1_0
       (split_all since_row tab) (split_all plain_row tab)
       ["Dest"; "name"; "1.0"; ""; "FALSE"; "FALSE"; "FALSE"; ""; ""; "";
        "[ArrayOfDests];[]"; ""]
       ["Names"; "array;name"; "1.0"; ""; "FALSE"; "FALSE"; "FALSE"; "";
        ""; ""; "[ArrayOfDests];[]"; ""]
       eq_refl eq_refl)).
Defined.

End XMLCreatorFacts.

(* ===================================================================== *)
(** * Part VII: further properties of the reader                          *)
(* ===================================================================== *)

Module GrammarFileMoreFacts.

Import GrammarFile GrammarFileSpec GrammarFileMore GrammarFileFacts.
Local Open Scope run_scope.

(** ** The splitting loop *)

Lemma split_line_nonempty (d : ascii) (s : string) : split_line d s <> [].
Proof.
  destruct s as [|c s]; simpl; [discriminate|].
  destruct (Ascii.eqb c d); [discriminate|].
  destruct (split_line d s); discriminate.
Qed.

Lemma concat_cons (sep x : string) (l : list string) :
  l <> [] -> String.concat sep (x :: l) = (x ++ sep ++ String.concat sep l)%string.
Proof. destruct l; [congruence|reflexivity]. Qed.

Lemma split_line_free (d : ascii) (x : string) :
  free_of d x = true -> split_line d x = [x].
Proof.
  induction x as [|c x IH]; simpl; [reflexivity|].
  destruct (Ascii.eqb c d); simpl; [discriminate|].
  intros H. rewrite (IH H). reflexivity.
Qed.

Lemma split_line_app (d : ascii) (x rest : string) :
  free_of d x = true ->
  split_line d (x ++ String d rest) = x :: split_line d rest.
Proof.
  induction x as [|c x IH]; simpl.
  - intros _. rewrite Ascii.eqb_refl. reflexivity.
  - destruct (Ascii.eqb c d); simpl; [discriminate|].
    intros H. rewrite (IH H). reflexivity.
Qed.

(** X2.  The loop that cuts a line at the delimiter loses nothing: joining
    the pieces with the delimiter gives the line back, no piece holds the
    delimiter, there is one piece more than there are delimiters, and any
    non-empty list of delimiter-free pieces is what the loop makes of their
    join. *)
Theorem split_line_round_trip (d : ascii) :
  (forall line,
     String.concat (String d "") (split_line d line) = line
     /\ Forall (fun w => free_of d w = true) (split_line d line)
     /\ List.length (split_line d line) = S (occurrences d line))
  /\ (forall pieces,
        pieces <> [] ->
        Forall (fun w => free_of d w = true) pieces ->
        split_line d (String.concat (String d "") pieces) = pieces).
Proof.
  split.
  - induction line as [|c line IH]; simpl.
    + repeat split. constructor; [reflexivity|constructor].
    + destruct IH as (IHc & IHf & IHl).
      destruct (Ascii.eqb_spec c d) as [->|Hne].
      * rewrite concat_cons by apply split_line_nonempty.
        simpl. rewrite IHc. repeat split.
        -- constructor; [reflexivity|assumption].
        -- simpl. rewrite IHl. reflexivity.
      * destruct (split_line d line) as [|w ws] eqn:E.
        { exfalso. revert E. apply split_line_nonempty. }
        pose proof (Forall_inv IHf) as Hw.
        pose proof (Forall_inv_tail IHf) as Hws.
        repeat split.
        -- destruct ws as [|w' ws]; simpl in *; rewrite IHc; reflexivity.
        -- constructor; [|assumption]. simpl.
           apply Ascii.eqb_neq in Hne. rewrite Hne, Hw. reflexivity.
        -- simpl in *. assumption.
  - induction pieces as [|x pieces IH]; intros Hne HF; [congruence|].
    inversion HF as [|? ? Hx Hrest]; subst.
    destruct pieces as [|y pieces].
    + simpl. apply split_line_free; assumption.
    + rewrite concat_cons by discriminate.
      change (String d "" ++ String.concat (String d "") (y :: pieces))%string
        with (String d (String.concat (String d "") (y :: pieces))).
      rewrite split_line_app by assumption.
      rewrite IH; [reflexivity|discriminate|assumption].
Qed.

(** ** Lines that are too short for [load] *)

Lemma upper_column_None (k : nat) (vec : list string) :
  upper_column k vec = None <-> (List.length vec <= k)%nat.
Proof.
  unfold upper_column. destruct (nth_error vec k) eqn:E.
  - split; [discriminate|]. intros H. apply nth_error_None in H. congruence.
  - split; [|reflexivity]. intros _. apply nth_error_None. assumption.
Qed.

Lemma upper_column_Some (k : nat) (vec : list string) :
  (k < List.length vec)%nat ->
  exists v, upper_column k vec = Some v /\ List.length v = List.length vec.
Proof.
  intros H. destruct (upper_column k vec) as [v|] eqn:E.
  - exists v. split; [reflexivity|]. apply (upper_column_spec _ _ _ E).
  - apply upper_column_None in E. lia.
Qed.

Lemma load_lines_outcome (d : ascii) (lines : list string) :
  forall dl0, dl0 <> [] ->
    (Forall (fun l => (TSV_INHERITABLE < columns d l)%nat) lines ->
     exists stored,
       load_lines d dl0 lines = Loaded true (dl0 ++ stored)
       /\ List.length stored = List.length lines)
    /\ (Exists (fun l => (columns d l <= TSV_INHERITABLE)%nat) lines ->
        load_lines d dl0 lines = LoadUB).
Proof.
  unfold columns, TSV_INHERITABLE.
  induction lines as [|line lines IH]; intros dl0 Hne.
  - split.
    + intros _. exists []. rewrite app_nil_r. split; reflexivity.
    + intros H. inversion H.
  - assert (Hstep : forall r, load_lines d dl0 (line :: lines) = r ->
              ((List.length (split_line d line) <= 6)%nat /\ r = LoadUB)
              \/ ((6 < List.length (split_line d line))%nat /\
                  exists v, r = load_lines d (dl0 ++ [v]) lines)).
    { intros r <-. simpl.
      destruct dl0 as [|r0 dl0]; [congruence|]. simpl.
      destruct (le_lt_dec (List.length (split_line d line)) 6) as [Hs|Hl].
      - left. split; [assumption|].
        destruct (upper_column TSV_TYPE (split_line d line)) as [v1|] eqn:E1;
          [|reflexivity].
        pose proof (proj1 (upper_column_spec _ _ _ E1)) as L1.
        destruct (upper_column TSV_REQUIRED v1) as [v2|] eqn:E2; [|reflexivity].
        pose proof (proj1 (upper_column_spec _ _ _ E2)) as L2.
        destruct (upper_column TSV_INDIRECTREF v2) as [v3|] eqn:E3;
          [|reflexivity].
        pose proof (proj1 (upper_column_spec _ _ _ E3)) as L3.
        destruct (upper_column TSV_INHERITABLE v3) as [v4|] eqn:E4;
          [|reflexivity].
        exfalso.
        assert (E : upper_column TSV_INHERITABLE v3 = None)
          by (apply upper_column_None; unfold TSV_INHERITABLE; lia).
        congruence.
      - right. split; [assumption|].
        destruct (upper_column_Some TSV_TYPE (split_line d line))
          as (v1 & -> & L1); [unfold TSV_TYPE; lia|].
        destruct (upper_column_Some TSV_REQUIRED v1) as (v2 & -> & L2);
          [unfold TSV_REQUIRED; lia|].
        destruct (upper_column_Some TSV_INDIRECTREF v2) as (v3 & -> & L3);
          [unfold TSV_INDIRECTREF; lia|].
        destruct (upper_column_Some TSV_INHERITABLE v3) as (v4 & -> & L4);
          [unfold TSV_INHERITABLE; lia|].
        exists v4. reflexivity. }
    destruct (Hstep _ eq_refl) as [[Hs E]|[Hl [v E]]].
    + split.
      * intros HF. apply Forall_inv in HF. lia.
      * intros _. exact E.
    + assert (Hne' : dl0 ++ [v] <> []) by (destruct dl0; discriminate).
      destruct (IH _ Hne') as [IH1 IH2]. split.
      * intros HF. apply Forall_inv_tail in HF.
        destruct (IH1 HF) as (stored & Es & Ls).
        exists (v :: stored). rewrite E, Es, <- app_assoc. simpl.
        split; [reflexivity|]. rewrite Ls. reflexivity.
      * intros HE. rewrite E. apply IH2.
        inversion HE as [? ? Hh|? ? Ht]; subst; [lia|assumption].
Qed.

(** X3.  After a first line of at least eleven columns, [load] stores one
    row for every line when every further line has at least seven columns,
    and reads outside a vector (the upper-casing of lines 62-65) as soon as
    one of them has fewer. *)
Theorem load_reads_outside_short_lines (d : ascii) (first : string)
  (rest : list string) :
  (TSV_NOTES <= columns d first)%nat ->
  (Forall (fun l => (TSV_INHERITABLE < columns d l)%nat) rest ->
   exists dl,
     load d (Some (first :: rest)) [] = Loaded true dl
     /\ List.length dl = S (List.length rest))
  /\ (Exists (fun l => (columns d l <= TSV_INHERITABLE)%nat) rest ->
      load d (Some (first :: rest)) [] = LoadUB).
Proof.
  intros Hfirst. unfold columns, TSV_NOTES in Hfirst.
  assert (E : exists v, load d (Some (first :: rest)) []
                        = load_lines d [v] rest).
  { simpl.
    destruct (List.length (split_line d first) <? TSV_NOTES)%nat eqn:L;
      [apply Nat.ltb_lt in L; unfold TSV_NOTES in L; lia|].
    destruct (upper_column_Some TSV_TYPE (split_line d first))
      as (v1 & -> & L1); [unfold TSV_TYPE; lia|].
    destruct (upper_column_Some TSV_REQUIRED v1) as (v2 & -> & L2);
      [unfold TSV_REQUIRED; lia|].
    destruct (upper_column_Some TSV_INDIRECTREF v2) as (v3 & -> & L3);
      [unfold TSV_INDIRECTREF; lia|].
    destruct (upper_column_Some TSV_INHERITABLE v3) as (v4 & -> & L4);
      [unfold TSV_INHERITABLE; lia|].
    exists v4. reflexivity. }
  destruct E as (v & E). rewrite E.
  destruct (load_lines_outcome d rest [v]) as [H1 H2]; [discriminate|].
  split.
  - intros HF. destruct (H1 HF) as (stored & -> & Ls).
    eexists. split; [reflexivity|]. simpl. rewrite Ls. reflexivity.
  - exact H2.
Qed.

Lemma load_reads_outside_short_lines_witness :
  (exists dl,
     load tab (Some [header_line; plain_kids_row]) [] = Loaded true dl
     /\ List.length dl = 2%nat)
  /\ load tab (Some [header_line; "Kids"]) [] = LoadUB.
Proof.
  assert (H : (TSV_NOTES <= columns tab header_line)%nat)
    by (vm_compute; repeat constructor).
  split.
  - apply (proj1 (load_reads_outside_short_lines tab header_line
                    [plain_kids_row] H)).
    constructor; [vm_compute; repeat constructor|constructor].
  - apply (proj2 (load_reads_outside_short_lines tab header_line
                    ["Kids"] H)).
    left. vm_compute. repeat constructor.
Defined.

(** ** Rows that [check] cannot read *)

Lemma bind_Ret {A B} (m : Run A) (f : A -> Run B) (b : B)
  (o : list Finding) :
  bind m f = Ret b o ->
  exists a o1 o2, m = Ret a o1 /\ f a = Ret b o2 /\ o = o1 ++ o2.
Proof.
  destruct m as [a o1|o1]; simpl; [|discriminate].
  destruct (f a) as [b' o2|o2] eqn:E; [|discriminate].
  intros [= <- <-]. exists a, o1, o2. repeat split. assumption.
Qed.

Lemma at_Ret {A} (v : list A) (i : nat) (x : A) (o : list Finding) :
  at_ v i = Ret x o -> nth_error v i = Some x.
Proof.
  unfold at_. destruct (nth_error v i); [|discriminate].
  unfold pure. intros [= <- _]. reflexivity.
Qed.

Lemma for_each_from_Ret {X} (l : list X) (body : nat -> X -> Run unit) :
  forall start u o,
    for_each_from start l body = Ret u o ->
    forall i x, nth_error l i = Some x ->
                exists o', body (start + i) x = Ret tt o'.
Proof.
  induction l as [|y l IH]; intros start u o H i x Hi.
  - destruct i; discriminate.
  - simpl in H. apply bind_Ret in H.
    destruct H as ([] & o1 & o2 & Hb & Hrest & _).
    destruct i as [|i].
    + injection Hi as <-. rewrite Nat.add_0_r. eauto.
    + rewrite Nat.add_succ_r. apply (IH (S start) u o2 Hrest i x Hi).
Qed.

(** Split the first bind of the hypothesis, keeping the rest under the
    same name. *)
Ltac run_step H a Ha :=
  apply bind_Ret in H;
  let o1 := fresh "o" in
  let o2 := fresh "o" in
  let E := fresh "E" in
  destruct H as (a & o1 & o2 & Ha & H & E).

Section CheckMore.

Variable file_name : string.
Variable basic_types : list string.
Variable split : string -> ascii -> list string.
Variable file_exists : string -> bool.
Variable get_path_dir : string -> string.

Set Warnings "-notation-for-abbreviation".
Notation check_link := (check_link file_name split file_exists get_path_dir).
Notation check_possible_value := (check_possible_value split).
Notation check_row := (check_row file_name basic_types split file_exists get_path_dir).
Notation check_rows := (check_rows file_name basic_types split file_exists get_path_dir).
Notation check := (check file_name basic_types split file_exists get_path_dir).
Notation rows_report := (rows_report file_name basic_types split file_exists get_path_dir).

Lemma check_row_Ret (processed vc p : list string) (o : list Finding) :
  check_row processed vc = Ret p o -> row_in_bounds split vc.
Proof.
  intros H. unfold GrammarFile.check_row in H.
  run_step H key Hkey. run_step H p' Hdup.
  run_step H type Htype. run_step H link Hlink.
  run_step H u1 Hlinks. run_step H u2 Htypes. run_step H u3 Hpv.
  apply at_Ret in Htype, Hlink.
  split.
  - apply nth_error_Some. unfold TSV_LINK in *. congruence.
  - intros type' pv Ht Hp Hne t_pos t Hi Hc.
    assert (type' = type) by congruence. subst type'.
    destruct (for_each_from_Ret _ _ _ _ _ Hpv t_pos t Hi) as (o' & Hb).
    simpl in Hb. unfold GrammarFile.check_possible_value in Hb.
    rewrite Hc, (at_some _ _ _ Hp), bind_pure in Hb.
    apply String.eqb_neq in Hne. rewrite Hne in Hb. simpl negb in Hb.
    cbv iota in Hb. run_step Hb d Hd.
    apply at_Ret in Hd. apply nth_error_Some. congruence.
Qed.

Lemma check_rows_Ret (rows : data_list_t) :
  forall processed u o,
    check_rows processed rows = Ret u o ->
    Forall (row_in_bounds split) rows.
Proof.
  induction rows as [|vc rows IH]; intros processed u o H.
  - constructor.
  - simpl in H. run_step H p Hrow. constructor.
    + eapply check_row_Ret; eassumption.
    + eapply IH; eassumption.
Qed.

(** Prove that a run writes no finding that [P] selects. *)
Ltac quiet :=
  repeat first
    [ apply silent_pure
    | apply silent_at
    | apply silent_emit; reflexivity
    | apply silent_when
    | apply silent_for_each; intros
    | apply silent_for_each_from; intros
    | apply silent_bind; [|intros]
    | progress unfold GrammarFile.check_link
    | progress unfold GrammarFile.check_possible_value
    | match goal with
      | |- silent_on _ (if ?b then _ else _) => destruct b
      end ].

Lemma mem_In (x : string) (l : list string) : mem x l = true <-> In x l.
Proof.
  unfold mem. rewrite existsb_exists. split.
  - intros (y & Hy & E). apply String.eqb_eq in E. subst. assumption.
  - intros H. exists x. split; [assumption|apply String.eqb_refl].
Qed.

Lemma check_row_duplicates (processed vc : list string) (key : string) :
  nth_error vc TSV_KEYNAME = Some key ->
  filter duplicate_key (emitted (check_row processed vc)) =
  if mem key processed then [DuplicateKeys key] else [].
Proof.
  intros Hk. unfold GrammarFile.check_row.
  rewrite (at_some _ _ _ Hk), bind_pure.
  rewrite filter_bind_silent_r by (intros; quiet).
  destruct (mem key processed); reflexivity.
Qed.

Lemma duplicates_of_rows (rows : data_list_t) :
  Forall (row_in_bounds split) rows ->
  forall processed,
    filter duplicate_key (rows_report processed rows) = [] <->
    NoDup (row_keys rows)
    /\ forall k, In k (row_keys rows) -> ~ In k processed.
Proof.
  induction 1 as [|vc rows Hvc _ IH]; intros processed; simpl.
  - split; [|reflexivity]. intros _. split; [constructor|]. intros k [].
  - destruct Hvc as [Hlen _]. unfold TSV_LINK in Hlen.
    destruct (nth_error vc TSV_KEYNAME) as [key|] eqn:Hk.
    2:{ apply nth_error_None in Hk. unfold TSV_KEYNAME in Hk. lia. }
    assert (Hnth : nth TSV_KEYNAME vc "" = key)
      by (apply nth_error_nth; assumption).
    rewrite Hnth, filter_app, (check_row_duplicates _ _ _ Hk).
    unfold seen. rewrite Hk.
    destruct (mem key processed) eqn:Hm.
    + split; [discriminate|].
      intros [_ Hout]. exfalso. apply (Hout key); [left; reflexivity|].
      apply mem_In. assumption.
    + assert (Hnot : ~ In key processed).
      { intros Hin. apply mem_In in Hin. congruence. }
      simpl. rewrite IH. split.
      * intros [Hnd Hout]. split.
        -- constructor; [|assumption].
           intros Hin. apply (Hout key Hin). apply in_or_app. right. left.
           reflexivity.
        -- intros k [<-|Hin]; [assumption|].
           intros Hp. apply (Hout k Hin). apply in_or_app. left. assumption.
      * intros [Hnd Hout]. inversion Hnd as [|? ? Hfresh Hnd']; subst.
        split; [assumption|].
        intros k Hin Hp. apply in_app_or in Hp.
        destruct Hp as [Hp|[<-|[]]].
        -- apply (Hout k); [right; assumption|assumption].
        -- contradiction.
Qed.

Lemma link_tail_iff (s : string) :
  link_tail s = true <->
  exists body, s = (body ++ "]")%string /\ all_chars link_char body = true.
Proof.
  induction s as [|c s IH].
  - simpl. split; [discriminate|]. intros ([|? ?] & E & _); discriminate.
  - destruct s as [|c' s'].
    + simpl. split.
      * intros H. apply Ascii.eqb_eq in H. subst c.
        exists "". split; reflexivity.
      * intros ([|b [|? ?]] & E & _); try discriminate.
        injection E as ->. reflexivity.
    + change (link_tail (String c (String c' s')))
        with (link_char c && link_tail (String c' s')).
      rewrite andb_true_iff, IH. split.
      * intros (Hc & body & E & Hb). exists (String c body).
        split; [simpl; rewrite E; reflexivity|]. simpl. rewrite Hc, Hb.
        reflexivity.
      * intros ([|b body] & E & Hb); [discriminate|].
        injection E as <- E. simpl in Hb. apply andb_true_iff in Hb.
        destruct Hb as [Hc Hb]. split; [assumption|].
        exists body. split; assumption.
Qed.

Lemma check_link_pattern (key : string) (types : list string) (i : nat)
  (link : string) :
  filter wrong_pattern (emitted (check_link key types i link)) =
  if regex_match link then [] else [WrongPatternInLinks key].
Proof.
  unfold GrammarFile.check_link. destruct (regex_match link); simpl negb;
    cbv iota; [|reflexivity].
  assert (H : silent_on wrong_pattern
    (when ((i <? List.length types)%nat && (link =? "[]")%string
           && is_complex (nth i types ""))
          (emit (TypeNotLinked (nth i types "") key)) ;;;
     for_each
       (split (substring 1 (String.length link - 2) link) ","%char)
       (fun lnk =>
          when (negb (lnk =? "")%string
                && negb (file_exists
                           (get_path_dir file_name ++ "/" ++ lnk ++ ".tsv")%string))
               (emit (LinkDoesntExist lnk key))))) by quiet.
  exact H.
Qed.

Lemma filter_bind_returns {A B} P (m : Run A) (f : A -> Run B) (a : A) :
  returns m a -> silent_on P m ->
  filter P (emitted (bind m f)) = filter P (emitted (f a)).
Proof.
  intros [o ->] Hs. apply filter_bind_silent_l. exact Hs.
Qed.

Lemma duplicates_return (key : string) (processed : list string) :
  returns (if mem key processed
           then emit (DuplicateKeys key) ;;; pure processed
           else pure (processed ++ [key]))
          (if mem key processed then processed else processed ++ [key]).
Proof.
  destruct (mem key processed); [|apply returns_pure].
  eapply returns_bind; [apply returns_emit|apply returns_pure].
Qed.

Lemma links_return (key link : string) (links types : list string) :
  returns (when (negb (link =? "")%string)
             (when (negb (List.length links =? List.length types)%nat)
                   (emit (WrongTypesVsLinks key)) ;;;
              for_each_from 0 links (check_link key types))) tt.
Proof.
  apply returns_when. eapply returns_bind.
  - apply returns_when, returns_emit.
  - apply returns_for_each_from. intros. apply check_link_returns.
Qed.

Lemma types_return (key : string) (types : list string) :
  returns (for_each types (fun t =>
             when (negb (mem t basic_types)) (emit (WrongType t key)))) tt.
Proof. apply returns_for_each. intros t. apply returns_when, returns_emit. Qed.

Lemma wrong_types_of_loop (key : string) (types : list string) :
  filter wrong_type
    (emitted (for_each types (fun t =>
                when (negb (mem t basic_types)) (emit (WrongType t key)))))
  = map (fun t => WrongType t key)
        (filter (fun t => negb (mem t basic_types)) types).
Proof.
  induction types as [|t types IH]; simpl; [reflexivity|].
  rewrite emitted_bind.
  destruct (negb (mem t basic_types)); simpl; rewrite IH; reflexivity.
Qed.

Lemma check_row_wrong_types (processed vc : list string)
  (key type link : string) :
  nth_error vc TSV_KEYNAME = Some key ->
  nth_error vc TSV_TYPE = Some type ->
  nth_error vc TSV_LINK = Some link ->
  filter wrong_type (emitted (check_row processed vc))
  = map (fun t => WrongType t key)
        (filter (fun t => negb (mem t basic_types)) (split type ";"%char)).
Proof.
  intros Hk Ht Hl. unfold GrammarFile.check_row.
  rewrite (at_some _ _ _ Hk), (at_some _ _ _ Ht), (at_some _ _ _ Hl).
  rewrite bind_pure.
  rewrite (filter_bind_returns _ _ _ _ (duplicates_return key processed))
    by (destruct (mem key processed); quiet).
  rewrite !bind_pure.
  rewrite (filter_bind_returns _ _ _ _ (links_return key link _ _))
    by quiet.
  rewrite filter_bind_silent_r by (intros; quiet).
  apply wrong_types_of_loop.
Qed.

Lemma check_row_inheritable (processed vc : list string) (key inh : string) :
  row_in_bounds split vc ->
  nth_error vc TSV_KEYNAME = Some key ->
  nth_error vc TSV_INHERITABLE = Some inh ->
  filter not_inheritable (emitted (check_row processed vc))
  = if ((inh =? "TRUE") || (inh =? "FALSE"))%string then []
    else [NotInheritable key].
Proof.
  intros [Hlen Hpv] Hk Hi. unfold TSV_LINK in Hlen.
  assert (Hcol : forall k, (k <= 10)%nat -> exists s, nth_error vc k = Some s).
  { intros k Hk'. destruct (nth_error vc k) as [s|] eqn:E; [eauto|].
    apply nth_error_None in E. lia. }
  destruct (Hcol TSV_TYPE) as (type & Htype); [unfold TSV_TYPE; lia|].
  destruct (Hcol TSV_LINK) as (link & Hlink); [unfold TSV_LINK; lia|].
  destruct (Hcol TSV_POSSIBLEVALUES) as (pv & Hpvs);
    [unfold TSV_POSSIBLEVALUES; lia|].
  specialize (Hpv type pv Htype Hpvs).
  unfold GrammarFile.check_row.
  rewrite (at_some _ _ _ Hk), (at_some _ _ _ Htype), (at_some _ _ _ Hlink).
  rewrite bind_pure.
  rewrite (filter_bind_returns _ _ _ _ (duplicates_return key processed))
    by (destruct (mem key processed); quiet).
  rewrite !bind_pure.
  rewrite (filter_bind_returns _ _ _ _ (links_return key link _ _))
    by quiet.
  rewrite (filter_bind_returns _ _ _ _ (types_return key _)) by quiet.
  rewrite (filter_bind_returns _ _ _ tt).
  2:{ apply returns_for_each_from. intros i t Hit. simpl.
      unfold GrammarFile.check_possible_value.
      destruct (is_complex t) eqn:Hc; [|apply returns_pure].
      eapply returns_bind; [apply returns_at; eassumption|].
      destruct (pv =? "")%string eqn:Hne; [apply returns_pure|]. simpl negb.
      apply String.eqb_neq in Hne.
      specialize (Hpv Hne i t Hit Hc).
      destruct (nth_error (split pv ";"%char) i) as [d|] eqn:Hd.
      - eapply returns_bind; [apply returns_at; eassumption|].
        apply returns_when, returns_emit.
      - apply nth_error_None in Hd. lia. }
  2:{ quiet. }
  rewrite (filter_bind_returns _ _ _ tt).
  2:{ apply returns_when.
      eapply returns_bind; [apply returns_at; eassumption|].
      apply returns_when, returns_when, returns_emit. }
  2:{ quiet. }
  rewrite (at_some _ _ _ Hi), bind_pure.
  rewrite emitted_bind.
  replace (negb (inh =? "TRUE")%string && negb (inh =? "FALSE")%string)
    with (negb ((inh =? "TRUE") || (inh =? "FALSE"))%string)
    by apply negb_orb.
  destruct ((inh =? "TRUE") || (inh =? "FALSE"))%string; reflexivity.
Qed.

Lemma missing_links_of_loop (key : string) (direct_links : list string) :
  filter missing_link
    (emitted (for_each direct_links (fun lnk =>
       when (negb (lnk =? "")%string
             && negb (file_exists
                        (get_path_dir file_name ++ "/" ++ lnk ++ ".tsv")%string))
            (emit (LinkDoesntExist lnk key)))))
  = map (fun lnk => LinkDoesntExist lnk key)
        (filter (fun lnk =>
                   negb (lnk =? "")%string
                   && negb (file_exists
                              (get_path_dir file_name ++ "/" ++ lnk ++ ".tsv")%string))
                direct_links).
Proof.
  induction direct_links as [|lnk l IH]; [reflexivity|].
  cbn [for_each filter]. rewrite emitted_bind.
  destruct (negb (lnk =? "")%string
            && negb (file_exists
                       (get_path_dir file_name ++ "/" ++ lnk ++ ".tsv")%string));
    cbn [when emit pure emitted app filter missing_link map];
    rewrite IH; reflexivity.
Qed.

Lemma check_row_no_column_count (processed vc : list string) :
  silent_on column_count (check_row processed vc).
Proof. unfold GrammarFile.check_row. quiet. Qed.

Lemma check_rows_no_column_count (rows : data_list_t) :
  forall processed, silent_on column_count (check_rows processed rows).
Proof.
  induction rows as [|vc rows IH]; intros processed; simpl.
  - apply silent_pure.
  - apply silent_bind; [apply check_row_no_column_count|].
    intros p. apply IH.
Qed.

Lemma check_no_column_count (vec : list string) (rows : data_list_t) :
  (TSV_NOTES <= List.length vec)%nat ->
  silent_on column_count (check (vec :: rows)).
Proof.
  intros Hlen. rewrite check_header by assumption.
  destruct (header_ok vec); [|reflexivity].
  apply silent_bind; [apply check_rows_no_column_count|].
  intros _. apply silent_pure.
Qed.

End CheckMore.

(** X7.  For a row that has its columns, [check] writes "Wrong type" once
    for each [;]-separated type that is not in the table of types, in the
    order of the types, and for nothing else; for a row in bounds it writes
    the bare line with the key exactly when the stored Inheritable field is
    neither TRUE nor FALSE. *)
Theorem wrong_type_and_inheritable_lines (file_name : string)
  (basic_types : list string) (split : string -> ascii -> list string)
  (file_exists : string -> bool) (get_path_dir : string -> string)
  (processed vc : list string) (key type link inh : string) :
  nth_error vc TSV_KEYNAME = Some key ->
  nth_error vc TSV_TYPE = Some type ->
  nth_error vc TSV_LINK = Some link ->
  nth_error vc TSV_INHERITABLE = Some inh ->
  filter wrong_type
    (emitted (check_row file_name basic_types split file_exists get_path_dir
                processed vc))
  = map (fun t => WrongType t key)
        (filter (fun t => negb (mem t basic_types)) (split type ";"%char))
  /\ (row_in_bounds split vc ->
      filter not_inheritable
        (emitted (check_row file_name basic_types split file_exists
                    get_path_dir processed vc))
      = if ((inh =? "TRUE") || (inh =? "FALSE"))%string then []
        else [NotInheritable key]).
Proof.
  intros Hk Ht Hl Hi. split.
  - eapply check_row_wrong_types; eassumption.
  - intros Hb. apply check_row_inheritable; assumption.
Qed.

Lemma wrong_type_and_inheritable_lines_witness :
  filter wrong_type
    (emitted (sample_check_row ["Kids"]
                ["Kids"; "BITMASK"; "1.0"; ""; "TRUE"; "FALSE"; ""; ""; "";
                 ""; "[]"; ""]))
  = [WrongType "BITMASK" "Kids"].
Proof.
  exact (proj1 (wrong_type_and_inheritable_lines "tsv/Page.tsv" sample_types
                  split (fun _ => true) (fun _ => "tsv") ["Kids"]
                  ["Kids"; "BITMASK"; "1.0"; ""; "TRUE"; "FALSE"; ""; ""; "";
                   ""; "[]"; ""]
                  "Kids" "BITMASK" "[]" "" eq_refl eq_refl eq_refl eq_refl)).
Defined.

(** X5.  On a grammar with a valid header whose rows are in bounds, the
    report of [check] has no "Duplicate keys" line exactly when the keys of
    the rows are pairwise distinct. *)
Theorem no_duplicate_line_iff_distinct_keys (file_name : string)
  (basic_types : list string) (split : string -> ascii -> list string)
  (file_exists : string -> bool) (get_path_dir : string -> string)
  (vec : list string) (rows : data_list_t) :
  (TSV_NOTES <= List.length vec)%nat ->
  header_ok vec = true ->
  Forall (row_in_bounds split) rows ->
  exists o,
    check file_name basic_types split file_exists get_path_dir (vec :: rows)
      = Ret true o
    /\ (filter duplicate_key o = [] <-> NoDup (row_keys rows)).
Proof.
  intros Hlen Hok HF.
  exists (rows_report file_name basic_types split file_exists get_path_dir
            [] rows).
  split.
  - rewrite check_header by assumption. rewrite Hok.
    rewrite (check_rows_in_bounds _ _ _ _ _ _ HF). simpl.
    rewrite app_nil_r. reflexivity.
  - rewrite (duplicates_of_rows _ _ _ _ _ _ HF). split.
    + intros [H _]. exact H.
    + intros H. split; [exact H|]. intros k _ [].
Qed.

Lemma no_duplicate_line_iff_distinct_keys_witness :
  exists o,
    sample_check plain_kids_grammar = Ret true o
    /\ (filter duplicate_key o = [] <-> NoDup (row_keys (tl plain_kids_grammar))).
Proof.
  refine (no_duplicate_line_iff_distinct_keys "tsv/Page.tsv" sample_types
            split (fun _ => true) (fun _ => "tsv")
            (hd [] plain_kids_grammar) (tl plain_kids_grammar) _ eq_refl _).
  - vm_compute. repeat constructor.
  - constructor; [|constructor; [|constructor]].
    + split; [vm_compute; repeat constructor|].
      intros type pv Ht Hp Hne. exfalso. apply Hne.
      injection Hp as <-. reflexivity.
    + split; [vm_compute; repeat constructor|].
      intros type pv Ht Hp Hne. exfalso. apply Hne.
      injection Hp as <-. reflexivity.
Defined.

(** X6.  A link is accepted by the pattern of line 124 exactly when it is
    an opening bracket, then letters, digits, underscores and commas, then
    a closing bracket; [check] writes "Wrong pattern in links" for a link
    exactly when the pattern rejects it, which it does for every link that
    holds a predicate. *)
Theorem wrong_pattern_iff_not_bracketed_names (file_name : string)
  (split : string -> ascii -> list string) (file_exists : string -> bool)
  (get_path_dir : string -> string) :
  (forall link,
     regex_match link = true <->
     exists body,
       link = ("[" ++ body ++ "]")%string
       /\ all_chars link_char body = true)
  /\ (forall key types i link,
        filter wrong_pattern
          (emitted (check_link file_name split file_exists get_path_dir
                      key types i link))
        = if regex_match link then [] else [WrongPatternInLinks key])
  /\ (forall rest, regex_match ("[fn:" ++ rest) = false).
Proof.
  split; [|split].
  - intros link. destruct link as [|c link]; simpl.
    + split; [discriminate|]. intros (body & E & _). discriminate.
    + rewrite andb_true_iff, link_tail_iff. split.
      * intros (Hc & body & -> & Hb). apply Ascii.eqb_eq in Hc. subst c.
        exists body. split; [reflexivity|assumption].
      * intros (body & E & Hb). injection E as -> ->.
        split; [reflexivity|]. exists body. split; [reflexivity|assumption].
  - apply check_link_pattern.
  - intros rest. destruct rest; reflexivity.
Qed.


(** X4.  On a grammar with a valid header, when [check] returns it has
    returned true, every row was in bounds and the report is what the rows
    wrote; a row of fewer than eleven columns, which [load] accepts, always
    makes [check] read outside the row instead. *)
Theorem check_returns_only_in_bounds (file_name : string)
  (basic_types : list string) (split : string -> ascii -> list string)
  (file_exists : string -> bool) (get_path_dir : string -> string)
  (vec : list string) (rows : data_list_t) :
  (TSV_NOTES <= List.length vec)%nat ->
  header_ok vec = true ->
  (forall b o,
     check file_name basic_types split file_exists get_path_dir (vec :: rows)
       = Ret b o ->
     b = true /\ Forall (row_in_bounds split) rows
     /\ o = rows_report file_name basic_types split file_exists get_path_dir
              [] rows)
  /\ (forall vc,
        In vc rows -> (List.length vc <= TSV_LINK)%nat ->
        exists o,
          check file_name basic_types split file_exists get_path_dir
            (vec :: rows) = UB o).
Proof.
  intros Hlen Hok.
  assert (Hret : forall b o,
     check file_name basic_types split file_exists get_path_dir (vec :: rows)
       = Ret b o ->
     b = true /\ Forall (row_in_bounds split) rows
     /\ o = rows_report file_name basic_types split file_exists get_path_dir
              [] rows).
  { intros b o H. rewrite check_header in H by assumption.
    rewrite Hok in H. run_step H u Hrows.
    injection H as <- <-. subst o.
    pose proof (check_rows_Ret _ _ _ _ _ _ _ _ _ Hrows) as HF.
    rewrite (check_rows_in_bounds _ _ _ _ _ _ HF) in Hrows.
    injection Hrows as _ <-. rewrite app_nil_r.
    split; [reflexivity|]. split; [assumption|reflexivity]. }
  split; [exact Hret|].
  intros vc Hin Hshort.
  destruct (check file_name basic_types split file_exists get_path_dir
              (vec :: rows)) as [b o|o] eqn:E; [|eauto].
  exfalso. destruct (Hret b o eq_refl) as (_ & HF & _).
  rewrite Forall_forall in HF. destruct (HF vc Hin) as [Hb _]. lia.
Qed.

Lemma check_returns_only_in_bounds_witness :
  exists o,
    sample_check [hd [] plain_kids_grammar; ["Kids"; "NAME"]] = UB o.
Proof.
  refine (proj2 (check_returns_only_in_bounds "tsv/Page.tsv" sample_types
                   split (fun _ => true) (fun _ => "tsv")
                   (hd [] plain_kids_grammar) [["Kids"; "NAME"]] _ eq_refl)
                ["Kids"; "NAME"] _ _).
  - vm_compute. repeat constructor.
  - left. reflexivity.
  - vm_compute. repeat constructor.
Defined.

(** X21.  For a link that the pattern accepts, [check] looks up each
    non-empty name between the brackets, cut at the commas, as a file
    [<name>.tsv] in the folder of the grammar file, and writes "Link doesn't
    exist" once for each one that is missing; the names of a link that the
    pattern rejects are never looked up. *)
Theorem missing_links_are_reported (file_name : string)
  (split : string -> ascii -> list string) (file_exists : string -> bool)
  (get_path_dir : string -> string) (key : string) (types : list string)
  (i : nat) (link : string) :
  filter missing_link
    (emitted (check_link file_name split file_exists get_path_dir
                key types i link))
  = if regex_match link
    then map (fun lnk => LinkDoesntExist lnk key)
           (filter (fun lnk =>
                      negb (lnk =? "")%string
                      && negb (file_exists
                                 (get_path_dir file_name ++ "/" ++ lnk
                                  ++ ".tsv")%string))
                   (split (substring 1 (String.length link - 2) link)
                      ","%char))
    else [].
Proof.
  unfold check_link. destruct (regex_match link); simpl negb;
    cbv iota; [|reflexivity].
  rewrite (filter_bind_returns _ _ _ tt)
    by (first [ apply returns_when, returns_emit
              | apply silent_when, silent_emit; reflexivity ]).
  apply missing_links_of_loop.
Qed.

(** ** [load] followed by [check] *)

(** X20.  Whatever [load] leaves in the data list, its first row has at
    least eleven columns, so [check] never writes "Wrong number of columns"
    for a grammar that [load] has read; called on a header row of exactly
    ten columns with the right names, which passes the test of line 95,
    [check] reads the eleventh. *)
Theorem loaded_header_is_never_too_short (file_name : string) (d : ascii)
  (basic_types : list string) (split : string -> ascii -> list string)
  (file_exists : string -> bool) (get_path_dir : string -> string) :
  (forall file ok dl,
     load d file [] = Loaded ok dl ->
     (forall vec rows, dl = vec :: rows -> (TSV_NOTES <= List.length vec)%nat)
     /\ filter column_count
          (emitted (check file_name basic_types split file_exists
                      get_path_dir dl)) = [])
  /\ (forall rows,
        check file_name basic_types split file_exists get_path_dir
          (firstn 10 (map snd header_names) :: rows) = UB []).
Proof.
  split; [|reflexivity].
  intros file ok dl H.
  assert (Hhd : forall vec rows, dl = vec :: rows ->
                                 (TSV_NOTES <= List.length vec)%nat).
  { intros vec rows ->.
    destruct file as [[|line lines]|]; try discriminate H.
    destruct ok.
    - assert (G : (List.length (split_line d line) <? TSV_NOTES)%nat = false).
      { simpl in H.
        destruct (List.length (split_line d line) <? TSV_NOTES)%nat;
          [discriminate|reflexivity]. }
      apply Nat.ltb_ge in G.
      unfold load in H. apply load_lines_stores in H.
      destruct H as (stored & E & HF). simpl in E. subst stored.
      inversion HF as [|? ? ? ? [L _] _]; subst. lia.
    - apply load_first_line in H. destruct H as [_ H]. discriminate. }
  split; [exact Hhd|].
  destruct dl as [|vec rows]; [reflexivity|].
  apply check_no_column_count. exact (Hhd vec rows eq_refl).
Qed.

End GrammarFileMoreFacts.

(* ===================================================================== *)
(** * Part VIII: further properties of the creator                        *)
(* ===================================================================== *)

Module XMLCreatorMoreFacts.

Import XMLCreator XMLCreatorSpec XMLCreatorMore XMLCreatorFacts.
Local Open Scope exc_scope.

(** ** The scanning loops *)

(** X8.  Whatever the handler answers, an iteration of the scanning loops
    of [nodeValues] that does not throw leaves a strictly shorter string,
    so the loops end: as many iterations as the string has characters
    complete the scan, and more change nothing. *)
Theorem scanning_loops_end (tsv : TSVHandler) (ea over_links : bool)
  (t a : string) :
  (forall v a',
     isBlank a = false ->
     scanStep tsv ea over_links t a = Ok (v, a') ->
     (String.length a' < String.length a)%nat)
  /\ (forall n,
        (String.length a <= n)%nat ->
        scanLoop tsv ea over_links t n a = scanValues tsv ea over_links t a).
Proof.
  split.
  - intros v a' Hb Hs. eapply scanStep_shorter; eassumption.
  - intros n Hn. unfold scanValues.
    apply scanLoop_fuel; [assumption|apply le_n].
Qed.

Lemma scanning_loops_end_witness :
  isBlank "a,b" = false
  /\ scanStep SpecHandler.plain false false "name" "a,b"
     = Ok (createNodeValue "name" "a", "b")
  /\ (String.length "b" < String.length "a,b")%nat.
Proof.
  split; [reflexivity|]. split; [reflexivity|].
  exact (proj1 (scanning_loops_end SpecHandler.plain false false "name" "a,b")
               (createNodeValue "name" "a") "b" eq_refl eq_refl).
Defined.

(** X9.  The two scanning loops differ on a string that begins with a
    comma: the loop over links takes the whole string, commas included, as
    one value and stops; the loop over possible values emits an empty value
    and goes on after the comma. *)
Theorem leading_comma_splits_only_possible_values (tsv : TSVHandler)
  (ea : bool) (t rest : string) :
  scanValues tsv ea true t ("," ++ rest)
    = Ok [createNodeValue t ("," ++ rest)]
  /\ scanValues tsv ea false t ("," ++ rest)
     = (vs <- scanValues tsv ea false t rest ;;
        Ok (createNodeValue t "" :: vs)).
Proof.
  split; rewrite scanValues_step;
    change (isBlank ("," ++ rest)) with false; cbv iota;
    unfold scanStep;
    change (startsWith ("," ++ rest) "fn:") with false; cbv iota;
    change (indexOf ("," ++ rest) ",") with 0%Z.
  - reflexivity.
  - change (0 >=? 0)%Z with true. cbv iota.
    assert (E0 : substring2 ("," ++ rest) 0 0 = Ok "").
    { unfold substring2. pose proof (len_nonneg ("," ++ rest)).
      replace (0 >? len ("," ++ rest))%Z with false by lia. reflexivity. }
    rewrite E0. cbn [bind].
    change ("," ++ rest)%string with (String "," rest).
    change (0 + 1)%Z with 1%Z.
    rewrite substring2_tail. reflexivity.
Qed.

(** ** [nodeValues] on rows without possible and default values *)

Lemma valuesFrom_basic (tsv : TSVHandler) (ea : bool)
  (arr_links : list string) (types : list string) :
  Forall (fun t => needsLink t = false) types ->
  forall i,
    valuesFrom tsv ea arr_links None None i types
    = Ok (map (fun t => createNodeValue t "") types).
Proof.
  induction 1 as [|t types Ht _ IH]; intros i; [reflexivity|].
  cbn [valuesFrom map]. unfold valuesOfType at 1. rewrite Ht.
  cbn [bind app]. rewrite IH. reflexivity.
Qed.

Lemma valuesFrom_beyond_links (tsv : TSVHandler) (ea : bool)
  (arr_links : list string) (basics : list string) (t : string)
  (rest : list string) :
  Forall (fun t => needsLink t = false) basics ->
  needsLink t = true ->
  forall i,
    (List.length arr_links <= i + List.length basics)%nat ->
    valuesFrom tsv ea arr_links None None i (basics ++ t :: rest)
    = Throw ArrayIndexOutOfBoundsException.
Proof.
  intros Hb Ht. induction Hb as [|b basics Hb _ IH]; intros i Hi.
  - cbn [app valuesFrom]. unfold valuesOfType. rewrite Ht.
    unfold arr_get.
    replace (nth_error arr_links i) with (@None string)
      by (symmetry; apply nth_error_None; simpl in Hi; lia).
    reflexivity.
  - cbn [app valuesFrom]. unfold valuesOfType at 1. rewrite Hb.
    cbn [bind app]. rewrite IH by (simpl in Hi; lia). reflexivity.
Qed.

(** X10.  Without assertions, a row whose PossibleValues and DefaultValue
    are blank and whose types are all basic gets one [VALUE] with an empty
    text per type, in the order of the types, whatever its Links field
    holds; a type that needs a link and has no piece of Links at its
    position makes [nodeValues] throw instead. *)
Theorem blank_values_give_one_empty_value_per_type (tsv : TSVHandler)
  (type default_value possible_values links : string) :
  isBlank possible_values = true ->
  isBlank default_value = true ->
  (Forall (fun t => needsLink t = false) (split type ";") ->
   nodeValues tsv false type default_value possible_values links
   = Ok (Element "VALUES" []
           (map (fun t => createNodeValue t "") (split type ";"))))
  /\ (forall basics t rest,
        split type ";" = basics ++ t :: rest ->
        Forall (fun t => needsLink t = false) basics ->
        needsLink t = true ->
        (List.length (split links ";") <= List.length basics)%nat ->
        nodeValues tsv false type default_value possible_values links
        = Throw ArrayIndexOutOfBoundsException).
Proof.
  intros Hpv Hdv. unfold nodeValues. rewrite Hpv, Hdv.
  cbn [negb assert_ bind]. split.
  - intros Hb. rewrite (valuesFrom_basic _ _ _ _ Hb). reflexivity.
  - intros basics t rest E Hb Ht Hl. rewrite E.
    rewrite (valuesFrom_beyond_links _ _ _ _ _ _ Hb Ht) by (simpl; lia).
    reflexivity.
Qed.

Lemma blank_values_give_one_empty_value_per_type_witness :
  nodeValues SpecHandler.plain false "name;integer" "" "" "[];[]"
  = Ok (Element "VALUES" []
          [createNodeValue "name" ""; createNodeValue "integer" ""])
  /\ nodeValues SpecHandler.plain false "name;array" "" "" "[]"
     = Throw ArrayIndexOutOfBoundsException.
Proof.
  split.
  - apply (proj1 (blank_values_give_one_empty_value_per_type
                    SpecHandler.plain "name;integer" "" "" "[];[]"
                    eq_refl eq_refl)).
    repeat constructor.
  - apply (proj2 (blank_values_give_one_empty_value_per_type
                    SpecHandler.plain "name;array" "" "" "[]"
                    eq_refl eq_refl) ["name"] "array" []).
    + reflexivity.
    + repeat constructor.
    + reflexivity.
    + simpl. lia.
Defined.

(** X11.  With assertions enabled, [nodeValues] accepts no row whose
    PossibleValues or DefaultValue is blank: the third and the fourth
    assertion require the arrays that are [null] for a blank field. *)
Theorem assertions_reject_blank_values (tsv : TSVHandler)
  (type default_value possible_values links : string) :
  isBlank possible_values = true \/ isBlank default_value = true ->
  exists msg,
    nodeValues tsv true type default_value possible_values links
    = Throw (AssertionError msg).
Proof.
  intros H. unfold nodeValues. cbn [assert_ bind].
  destruct (List.length (split type ";") =? List.length (split links ";"))%nat;
    [|eexists; reflexivity].
  destruct (negb (contains type "fn:")); [|eexists; reflexivity].
  destruct (isBlank possible_values) eqn:Hpv.
  - cbn [negb same_length]. eexists; reflexivity.
  - destruct H as [H|H]; [discriminate|]. rewrite H.
    cbn [negb same_length].
    destruct (List.length (split possible_values ";")
              =? List.length (split links ";"))%nat;
      eexists; reflexivity.
Qed.

Lemma assertions_reject_blank_values_witness :
  exists msg,
    nodeValues SpecHandler.plain true "name" "" "[A,B]" "[]"
    = Throw (AssertionError msg).
Proof.
  apply (assertions_reject_blank_values SpecHandler.plain
           "name" "" "[A,B]" "[]").
  right. reflexivity.
Defined.

(** ** [nodeIndirectReference] *)

Lemma indirect_pieces_Ok (col_value : string) (ir_arr : list string) :
  Forall (fun ir => (2 <= String.length ir)%nat) ir_arr ->
  indirect_pieces col_value ir_arr
  = Ok (repeat (TextNode (toLowerCase col_value)) (List.length ir_arr)).
Proof.
  induction 1 as [|ir rest Hir _ IH]; [reflexivity|].
  cbn [indirect_pieces List.length repeat].
  unfold substring2 at 1. unfold len.
  replace ((1 <? 0) || (Z.of_nat (String.length ir) - 1
                        >? Z.of_nat (String.length ir))
           || (1 >? Z.of_nat (String.length ir) - 1))%Z with false by lia.
  cbn [bind]. rewrite IH. reflexivity.
Qed.

Lemma indirect_pieces_Throw (col_value : string) (ir_arr : list string) :
  Exists (fun ir => (String.length ir < 2)%nat) ir_arr ->
  indirect_pieces col_value ir_arr = Throw StringIndexOutOfBoundsException.
Proof.
  induction 1 as [ir rest Hir|ir rest _ IH].
  - cbn [indirect_pieces]. unfold substring2, len.
    replace ((1 <? 0) || (Z.of_nat (String.length ir) - 1
                          >? Z.of_nat (String.length ir))
             || (1 >? Z.of_nat (String.length ir) - 1))%Z with true by lia.
    reflexivity.
  - cbn [indirect_pieces]. rewrite IH.
    destruct (substring2 ir 1 (len ir - 1)) as [x|t] eqn:E; [reflexivity|].
    unfold substring2 in E.
    destruct ((1 <? 0) || (len ir - 1 >? len ir) || (1 >? len ir - 1))%Z;
      [|discriminate].
    injection E as <-. reflexivity.
Qed.

(** X12.  For an IndirectReference field that is no predicate and neither
    TRUE nor FALSE, [nodeIndirectReference] writes the whole lower-cased
    field once per semicolon-separated piece, not the piece; and it throws
    when a piece has fewer than two characters, so on an empty field. *)
Theorem indirect_reference_repeats_whole_field (col_value : string) :
  startsWith col_value "fn:" = false ->
  col_value <> "TRUE" ->
  col_value <> "FALSE" ->
  (Forall (fun ir => (2 <= String.length ir)%nat) (split col_value ";") ->
   nodeIndirectReference col_value
   = Ok (Element "INDIRECT_REFERENCE" []
           (repeat (TextNode (toLowerCase col_value))
                   (List.length (split col_value ";")))))
  /\ (Exists (fun ir => (String.length ir < 2)%nat) (split col_value ";") ->
      nodeIndirectReference col_value
      = Throw StringIndexOutOfBoundsException).
Proof.
  intros Hfn Ht Hf. unfold nodeIndirectReference. rewrite Hfn.
  apply String.eqb_neq in Ht, Hf. rewrite Ht, Hf. cbn [orb]. split.
  - intros H. rewrite (indirect_pieces_Ok _ _ H). reflexivity.
  - intros H. rewrite (indirect_pieces_Throw _ _ H). reflexivity.
Qed.

Lemma indirect_reference_repeats_whole_field_witness :
  nodeIndirectReference "[TRUE];[FALSE]"
  = Ok (Element "INDIRECT_REFERENCE" []
          [TextNode "[true];[false]"; TextNode "[true];[false]"])
  /\ nodeIndirectReference "" = Throw StringIndexOutOfBoundsException.
Proof.
  split.
  - apply (proj1 (indirect_reference_repeats_whole_field "[TRUE];[FALSE]"
                    eq_refl ltac:(discriminate) ltac:(discriminate))).
    repeat constructor.
  - apply (proj2 (indirect_reference_repeats_whole_field ""
                    eq_refl ltac:(discriminate) ltac:(discriminate))).
    left. simpl. lia.
Defined.

(** ** [createNodeValue] *)

Lemma remove_char_free (c : ascii) (s : string) :
  free_of c (remove_char c s) = true.
Proof.
  induction s as [|c' s IH]; [reflexivity|]. simpl.
  destruct (Ascii.eqb c' c) eqn:E; [assumption|].
  simpl. rewrite E. assumption.
Qed.

Lemma remove_char_keeps_free (c d : ascii) (s : string) :
  free_of d s = true -> free_of d (remove_char c s) = true.
Proof.
  induction s as [|c' s IH]; [reflexivity|]. simpl.
  intros H. apply andb_prop in H. destruct H as [H1 H2].
  destruct (Ascii.eqb c' c); [auto|]. simpl. rewrite H1. auto.
Qed.

Lemma remove_char_id (c : ascii) (s : string) :
  free_of c s = true -> remove_char c s = s.
Proof.
  induction s as [|c' s IH]; [reflexivity|]. simpl.
  intros H. apply andb_prop in H. destruct H as [H1 H2].
  destruct (Ascii.eqb c' c); [discriminate|]. rewrite IH by assumption.
  reflexivity.
Qed.

(** X13.  A [VALUE] element carries its type as attribute and one text
    that holds no square bracket, wherever the brackets stood in the value;
    a value without brackets is written as it is. *)
Theorem value_text_has_no_brackets (t value : string) :
  exists text,
    createNodeValue t value = Element "VALUE" [("type", t)] [TextNode text]
    /\ free_of "[" text = true
    /\ free_of "]" text = true
    /\ (free_of "[" value = true -> free_of "]" value = true -> text = value).
Proof.
  exists (remove_char "]" (remove_char "[" value)).
  split; [reflexivity|]. split; [|split].
  - apply remove_char_keeps_free, remove_char_free.
  - apply remove_char_free.
  - intros H1 H2. rewrite (remove_char_id _ _ H1). apply remove_char_id, H2.
Qed.

(** ** The reduction of the columns *)

Lemma nth_error_same_length {A} (l l' : list A) :
  (forall j, nth_error l' j = None <-> nth_error l j = None) ->
  List.length l' = List.length l.
Proof.
  intros H.
  destruct (Nat.lt_trichotomy (List.length l') (List.length l))
    as [L|[L|L]]; [|assumption|].
  - pose proof (proj1 (H (List.length l'))
                  (proj2 (nth_error_None _ _) (le_n _))) as N.
    apply nth_error_None in N. lia.
  - pose proof (proj2 (H (List.length l))
                  (proj2 (nth_error_None _ _) (le_n _))) as N.
    apply nth_error_None in N. lia.
Qed.

Lemma arr_set_length {A} (arr arr' : list A) (i : nat) (x : A) :
  arr_set arr i x = Ok arr' -> List.length arr' = List.length arr.
Proof.
  intros H. pose proof (arr_set_Ok _ _ _ _ H) as E.
  unfold arr_set in H. destruct (i <? List.length arr)%nat eqn:L;
    [|discriminate].
  apply Nat.ltb_lt in L. apply nth_error_same_length. intros j.
  rewrite E. destruct (j =? i)%nat eqn:J; [|reflexivity].
  apply Nat.eqb_eq in J. subst j. split; [discriminate|].
  intros N. apply nth_error_None in N. lia.
Qed.

Lemma update_column_length (cv cv' : list string) (i : nat)
  (f : string -> Exc string) :
  update_column cv i f = Ok cv' ->
  List.length cv' = List.length cv /\ (i < List.length cv)%nat.
Proof.
  unfold update_column. intros H. invert_binds.
  split; [eapply arr_set_length; eassumption|].
  apply arr_get_Ok in Ha. apply nth_error_Some. congruence.
Qed.

(** X14.  The reduction of a kept row needs a row of at least eleven
    columns, keeps the number of columns and leaves the key, the two
    version columns, Inheritable and Notes as they were. *)
Theorem reduction_keeps_shape (tsv : TSVHandler) (pdf_ver : spec_float)
  (column_values cv : list string) :
  reduceColumns tsv pdf_ver column_values = Ok cv ->
  (11 <= List.length column_values)%nat
  /\ List.length cv = List.length column_values
  /\ forall j, In j [0; 2; 3; 6; 11]%nat ->
       nth_error cv j = nth_error column_values j.
Proof.
  unfold reduceColumns. intros H. invert_binds.
  assert (Hm : List.length a1 = List.length column_values
               /\ forall j, In j [0; 2; 3; 6; 11]%nat ->
                    nth_error a1 j = nth_error column_values j).
  { destruct (somethingReduced a0).
    - invert_binds.
      pose proof (arr_set_length _ _ _ _ Ha4) as L1.
      pose proof (arr_set_Ok _ _ _ _ Ha4) as E1.
      destruct (update_column_length _ _ _ _ Ha5) as [L5 _].
      destruct (update_column_length _ _ _ _ Ha6) as [L7 _].
      destruct (update_column_length _ _ _ _ Ha1) as [L9 _].
      apply update_column_Ok in Ha5, Ha6, Ha1.
      destruct Ha5 as (? & ? & _ & _ & E5), Ha6 as (? & ? & _ & _ & E7),
               Ha1 as (? & ? & _ & _ & E9).
      split; [congruence|].
      intros j Hj. rewrite E9, E7, E5, E1.
      simpl in Hj.
      destruct Hj as [<-|[<-|[<-|[<-|[<-|[]]]]]]; reflexivity.
    - injection Ha1 as <-. split; reflexivity. }
  destruct Hm as [Lm Em].
  destruct (update_column_length _ _ _ _ Ha2) as [L4 _].
  destruct (update_column_length _ _ _ _ Ha3) as [L8 _].
  destruct (update_column_length _ _ _ _ H) as [L10 B10].
  apply update_column_Ok in Ha2, Ha3, H.
  destruct Ha2 as (? & ? & _ & _ & E4), Ha3 as (? & ? & _ & _ & E8),
           H as (? & ? & _ & _ & E10).
  split; [lia|]. split; [congruence|].
  intros j Hj. rewrite E10, E8, E4, <- (Em j Hj).
  simpl in Hj.
  destruct Hj as [<-|[<-|[<-|[<-|[<-|[]]]]]]; reflexivity.
Qed.

Lemma reduction_keeps_shape_witness :
  (11 <= List.length (split_all plain_row tab))%nat
  /\ exists cv,
       reduceColumns SpecHandler.plain v1_0 (split_all plain_row tab) = Ok cv
       /\ List.length cv = List.length (split_all plain_row tab).
Proof.
  let c := eval vm_compute in
             (match reduceColumns SpecHandler.plain v1_0
                      (split_all plain_row tab) with
              | Ok cv => cv
              | Throw _ => []
              end) in
  pose (cv := c).
  assert (E : reduceColumns SpecHandler.plain v1_0 (split_all plain_row tab)
              = Ok cv) by (vm_compute; reflexivity).
  pose proof (reduction_keeps_shape SpecHandler.plain v1_0 _ _ E)
    as (L & N & _).
  split; [exact L|]. exists cv. split; [exact E|exact N].
Defined.

(** ** The rows that are kept *)

(** X15.  When the rows of a file are processed without exception, the
    entries are those of the rows introduced at or before the target
    version, one entry per such row and in the order of the rows; the
    reductions of the other columns neither drop nor add an entry. *)
Theorem entries_are_the_kept_rows (tsv : TSVHandler)
  (parseFloat : string -> Exc spec_float) (ea : bool) (delimiter : ascii)
  (pdf_ver : spec_float) (lines : list string) (entries : list Node) :
  processRows tsv parseFloat ea delimiter pdf_ver lines = Ok entries ->
  keys entries = kept_keys parseFloat delimiter pdf_ver lines
  /\ List.length entries
     = List.length (kept_keys parseFloat delimiter pdf_ver lines).
Proof.
  revert entries. induction lines as [|line lines IH]; intros entries H;
    simpl in H.
  - injection H as <-. split; reflexivity.
  - invert_binds. subst entries.
    destruct (IH _ Ha0) as [IHk IHl].
    apply processRow_Ok in Ha.
    destruct Ha as (key & c2 & ver & K0 & K2 & P & R).
    cbn [kept_keys]. unfold kept_key. rewrite K0, K2, P.
    destruct (SFleb ver pdf_ver).
    + destruct R as (e & -> & Ek). cbn [keys List.length].
      rewrite Ek, IHk, IHl. split; reflexivity.
    + subst a. split; assumption.
Qed.

Lemma entries_are_the_kept_rows_witness :
  keys sample_entries_1_0
  = kept_keys SpecHandler.parseFloat tab v1_0 (tl sample_file).
Proof.
  refine (proj1 (entries_are_the_kept_rows SpecHandler.plain
                   SpecHandler.parseFloat false tab v1_0 (tl sample_file)
                   sample_entries_1_0 _)).
  vm_compute. reflexivity.
Defined.

(** ** The objects of the document *)

Import XMLDocument.

Lemma decimal_digits_value (fuel : nat) :
  forall n acc,
    (n < fuel)%nat ->
    decimal_value (decimal_digits fuel n acc)
    = (n * 10 ^ String.length acc + decimal_value acc)%nat.
Proof.
  induction fuel as [|fuel IH]; intros n acc Hn; [lia|].
  cbn [decimal_digits].
  assert (D : nat_of_ascii (ascii_of_nat (48 + n mod 10)) = (48 + n mod 10)%nat).
  { apply nat_ascii_embedding.
    pose proof (Nat.mod_upper_bound n 10 ltac:(lia)). lia. }
  pose proof (Nat.div_mod_eq n 10) as E.
  destruct (n / 10 =? 0)%nat eqn:Z.
  - apply Nat.eqb_eq in Z. cbn [decimal_value]. rewrite D.
    replace (48 + n mod 10 - 48)%nat with n by lia. reflexivity.
  - apply Nat.eqb_neq in Z.
    rewrite IH by (assert (n / 10 < n)%nat
                     by (apply Nat.div_lt; lia); lia).
    cbn [decimal_value String.length]. rewrite D.
    replace (48 + n mod 10 - 48)%nat with (n mod 10)%nat by lia.
    rewrite Nat.pow_succ_r'.
    set (p := (10 ^ String.length acc)%nat).
    rewrite E at 3. nia.
Qed.

Lemma format03d_value (n : nat) : decimal_value (format03d n) = n.
Proof.
  unfold format03d.
  pose proof (decimal_digits_value (S n) n "" ltac:(lia)) as E.
  simpl String.length in E. simpl decimal_value in E at 2.
  rewrite Nat.pow_0_r, Nat.mul_1_r, Nat.add_0_r in E.
  destruct (String.length (decimal_digits (S n) n "")) as [|[|[|k]]];
    exact E.
Qed.

Lemma format03d_seq_NoDup (n k : nat) :
  NoDup (map (fun i => Some (format03d i)) (seq n k)).
Proof.
  assert (I : forall i j, Some (format03d i) = Some (format03d j) -> i = j).
  { intros i j [= E].
    rewrite <- (format03d_value i), <- (format03d_value j). congruence. }
  pose proof (seq_NoDup k n) as D.
  induction D as [|i l Hi _ IH]; [constructor|].
  cbn [map]. constructor; [|assumption].
  intros Hin. apply in_map_iff in Hin. destruct Hin as (j & E & Hj).
  apply I in E. subst j. contradiction.
Qed.

Section Objects.

Variable tsv : TSVHandler.
Variable parseFloat : string -> Exc spec_float.
Variable ea : bool.
Variable delimiter : ascii.
Variable input_folder : string.
Variable Gcxml_version : string.
Variable readLines : string -> Exc (list string * option Throwable).

#[local] Set Warnings "-notation-for-abbreviation".
Local Notation objectOf :=
  (objectOf tsv parseFloat ea delimiter input_folder readLines).
Local Notation objectsFrom :=
  (objectsFrom tsv parseFloat ea delimiter input_folder readLines).
Local Notation createXML :=
  (createXML tsv parseFloat ea delimiter input_folder Gcxml_version
     readLines).

Lemma objectOf_Some (pdf_ver : spec_float) (n : nat) (file : TsvFile)
  (o : Node) :
  objectOf pdf_ver n file = Ok (Some o) ->
  usable file = true
  /\ exists file_name file_lines entries,
       substring2 (getName file) 0 (len (getName file) - 4) = Ok file_name
       /\ readLines (input_folder ++ file_name ++ ".tsv")
          = Ok (file_lines, None)
       /\ reduceObject tsv parseFloat ea delimiter pdf_ver file_lines
          = Ok entries
       /\ entries <> []
       /\ o = Element "OBJECT"
                [("id", file_name); ("object_number", format03d n)] entries.
Proof.
  unfold XMLDocument.objectOf. destruct (usable file); [|discriminate].
  intros H. split; [reflexivity|]. invert_binds.
  destruct a0 as [file_lines broken]. cbn [fst snd] in *.
  destruct broken; [discriminate|].
  exists a, file_lines, a1. repeat split; try assumption.
  - destruct a1; [discriminate|discriminate].
  - destruct a1; [discriminate|]. congruence.
Qed.

Lemma objectOf_None (pdf_ver : spec_float) (n : nat) (file : TsvFile) :
  objectOf pdf_ver n file = Ok None ->
  usable file = false
  \/ exists file_name file_lines,
       substring2 (getName file) 0 (len (getName file) - 4) = Ok file_name
       /\ readLines (input_folder ++ file_name ++ ".tsv")
          = Ok (file_lines, None)
       /\ reduceObject tsv parseFloat ea delimiter pdf_ver file_lines
          = Ok [].
Proof.
  unfold XMLDocument.objectOf. destruct (usable file); [|left; reflexivity].
  intros H. right. invert_binds.
  destruct a0 as [file_lines broken]. cbn [fst snd] in *.
  destruct broken; [discriminate|].
  exists a, file_lines. repeat split; try assumption.
  destruct a1; [assumption|discriminate].
Qed.

Lemma objectsFrom_numbers (pdf_ver : spec_float) (files : list TsvFile) :
  forall n objs,
    objectsFrom pdf_ver n files = Ok objs ->
    object_numbers objs
    = map (fun i => Some (format03d i)) (seq n (List.length objs))
    /\ Forall (fun o => children o <> []) objs
    /\ (List.length objs <= List.length (filter usable files))%nat.
Proof.
  induction files as [|file files IH]; intros n objs H; simpl in H.
  - injection H as <-. repeat split; [constructor|apply le_n].
  - invert_binds. destruct a as [o|].
    + invert_binds. subst objs.
      destruct (IH _ _ Ha0) as (N & C & L).
      destruct (objectOf_Some _ _ _ _ Ha) as (U & fn & fl & es & _ & _ & _
                                              & Hne & ->).
      cbn [filter]. rewrite U. cbn [List.length seq map object_numbers].
      fold (object_numbers a). rewrite N. split; [reflexivity|]. split.
      * constructor; assumption.
      * lia.
    + destruct (IH _ _ H) as (N & C & L). repeat split; try assumption.
      cbn [filter]. destruct (usable file); simpl; lia.
Qed.

Lemma processRows_length_keys (pdf_ver : spec_float) (lines : list string) :
  forall entries,
    processRows tsv parseFloat ea delimiter pdf_ver lines = Ok entries ->
    List.length (keys entries) = List.length entries.
Proof.
  induction lines as [|line lines IH]; intros entries H; simpl in H.
  - injection H as <-. reflexivity.
  - invert_binds. subst entries. specialize (IH _ Ha0).
    apply processRow_Ok in Ha.
    destruct Ha as (key & c2 & ver & _ & _ & _ & R).
    destruct (SFleb ver pdf_ver).
    + destruct R as (e & -> & Ek). cbn [keys List.length].
      rewrite Ek. cbn [List.length]. congruence.
    + subst a. assumption.
Qed.

Lemma objectsFrom_ids (v1 v2 : spec_float) (files : list TsvFile) :
  SFleb v1 v2 = true ->
  forall n1 n2 objs1 objs2,
    objectsFrom v1 n1 files = Ok objs1 ->
    objectsFrom v2 n2 files = Ok objs2 ->
    incl (object_ids objs1) (object_ids objs2).
Proof.
  intros Hv. induction files as [|file files IH];
    intros n1 n2 objs1 objs2 H1 H2; simpl in H1, H2.
  - injection H1 as <-. intros x [].
  - invert_binds. destruct a0 as [o1|].
    + invert_binds. subst objs1.
      destruct (objectOf_Some _ _ _ _ Ha0)
        as (U & fn & fl & es1 & Hfn & Hfl & Hes1 & Hne & ->).
      destruct a as [o2|].
      * invert_binds. subst objs2.
        destruct (objectOf_Some _ _ _ _ Ha)
          as (_ & fn' & fl' & es2 & Hfn' & Hfl' & _ & _ & ->).
        assert (fn' = fn) by congruence. subst fn'.
        specialize (IH _ _ _ _ Ha1 Ha2).
        intros x [<-|Hx]; [left; reflexivity|right; apply IH, Hx].
      * exfalso.
        destruct (objectOf_None _ _ _ Ha) as [U'|(fn' & fl' & Hfn' & Hfl' & He)];
          [congruence|].
        assert (fn' = fn) by congruence. subst fn'.
        assert (fl' = fl) by congruence. subst fl'.
        unfold reduceObject in Hes1, He.
        pose proof (processRows_keys tsv parseFloat ea delimiter v1 v2
                      (tl fl) Hv _ _ Hes1 He) as I.
        pose proof (processRows_length_keys _ _ _ Hes1) as Lk.
        destruct es1 as [|e es1]; [congruence|].
        destruct (keys (e :: es1)) as [|k ks]; [discriminate|].
        exact (I k (or_introl eq_refl)).
    + destruct a as [o2|].
      * invert_binds. subst objs2.
        specialize (IH _ _ _ _ H1 Ha1).
        intros x Hx. right. apply IH, Hx.
      * exact (IH _ _ _ _ H1 H2).
Qed.

Lemma createXML_Wrote (files : list TsvFile) (pdf_version : string)
  (doc : Node) :
  createXML files pdf_version = Wrote doc ->
  exists pdf_ver objs,
    parseFloat pdf_version = Ok pdf_ver
    /\ objectsFrom pdf_ver 0 files = Ok objs
    /\ doc = Element "PDF"
               [("pdf_version", pdf_version);
                ("grammar_version", Gcxml_version);
                ("iso_ref", "ISO 32000-2:2020")]
               objs.
Proof.
  unfold XMLDocument.createXML.
  destruct (parseFloat pdf_version) as [v|t]; [|discriminate].
  destruct (XMLDocument.objectsFrom _ _ _ _ _ _ v 0 files) as [objs|t] eqn:E.
  - intros [= <-]. exists v, objs. repeat split. assumption.
  - destruct t; discriminate.
Qed.

End Objects.

(** X16.  In a document that [createXML] writes, the objects are numbered
    000, 001, 002, ... in their order without gap, so no two objects share
    a number; no object is empty; and the skipped files (not usable, or
    without a kept row) take no number. *)
Theorem objects_are_numbered_consecutively (tsv : TSVHandler)
  (parseFloat : string -> Exc spec_float) (ea : bool) (delimiter : ascii)
  (input_folder Gcxml_version : string)
  (readLines : string -> Exc (list string * option Throwable))
  (files : list TsvFile) (pdf_version : string) (doc : Node) :
  createXML tsv parseFloat ea delimiter input_folder Gcxml_version readLines
    files pdf_version = Wrote doc ->
  object_numbers (children doc)
  = map (fun i => Some (format03d i))
        (seq 0 (List.length (children doc)))
  /\ NoDup (object_numbers (children doc))
  /\ Forall (fun o => children o <> []) (children doc)
  /\ (List.length (children doc) <= List.length (filter usable files))%nat.
Proof.
  intros H. apply createXML_Wrote in H.
  destruct H as (v & objs & _ & Ho & ->). cbn [children].
  destruct (objectsFrom_numbers _ _ _ _ _ _ _ _ _ _ Ho) as (N & C & L).
  split; [assumption|]. split; [|split; assumption].
  rewrite N. apply format03d_seq_NoDup.
Qed.

Lemma objects_are_numbered_consecutively_witness :
  exists doc,
    sample_createXML "2.0" = Wrote doc
    /\ object_numbers (children doc) = [Some "000"; Some "001"].
Proof.
  let c := eval vm_compute in
             (match sample_createXML "2.0" with
              | Wrote d => d
              | _ => TextNode ""
              end) in
  pose (doc := c).
  assert (E : sample_createXML "2.0" = Wrote doc) by (vm_compute; reflexivity).
  exists doc. split; [exact E|].
  exact (proj1 (objects_are_numbered_consecutively _ _ _ _ _ _ _ _ _ _ E)).
Defined.

(** X17.  When [createXML] writes a document for two target versions, the
    later one of which is not lower, every object of the document of the
    lower version is an object of the other: an object never disappears in
    a later version (its number may change). *)
Theorem objects_grow_with_version (tsv : TSVHandler)
  (parseFloat : string -> Exc spec_float) (ea : bool) (delimiter : ascii)
  (input_folder Gcxml_version : string)
  (readLines : string -> Exc (list string * option Throwable))
  (files : list TsvFile) (pdf_version1 pdf_version2 : string)
  (v1 v2 : spec_float) (doc1 doc2 : Node) :
  parseFloat pdf_version1 = Ok v1 ->
  parseFloat pdf_version2 = Ok v2 ->
  SFleb v1 v2 = true ->
  createXML tsv parseFloat ea delimiter input_folder Gcxml_version readLines
    files pdf_version1 = Wrote doc1 ->
  createXML tsv parseFloat ea delimiter input_folder Gcxml_version readLines
    files pdf_version2 = Wrote doc2 ->
  incl (object_ids (children doc1)) (object_ids (children doc2)).
Proof.
  intros P1 P2 Hv H1 H2. apply createXML_Wrote in H1, H2.
  destruct H1 as (v1' & objs1 & P1' & Ho1 & ->),
           H2 as (v2' & objs2 & P2' & Ho2 & ->).
  assert (v1' = v1) by congruence. assert (v2' = v2) by congruence. subst.
  cbn [children].
  exact (objectsFrom_ids _ _ _ _ _ _ _ _ _ Hv _ _ _ _ Ho1 Ho2).
Qed.

Lemma objects_grow_with_version_witness :
  exists doc1 doc2,
    sample_createXML "1.0" = Wrote doc1
    /\ sample_createXML "2.0" = Wrote doc2
    /\ object_ids (children doc1) = [Some "Dests"]
    /\ object_ids (children doc2) = [Some "Late"; Some "Dests"]
    /\ incl (object_ids (children doc1)) (object_ids (children doc2)).
Proof.
  let c := eval vm_compute in
             (match sample_createXML "1.0" with
              | Wrote d => d
              | _ => TextNode ""
              end) in
  pose (doc1 := c).
  let c := eval vm_compute in
             (match sample_createXML "2.0" with
              | Wrote d => d
              | _ => TextNode ""
              end) in
  pose (doc2 := c).
  assert (E1 : sample_createXML "1.0" = Wrote doc1)
    by (vm_compute; reflexivity).
  assert (E2 : sample_createXML "2.0" = Wrote doc2)
    by (vm_compute; reflexivity).
  exists doc1, doc2.
  split; [exact E1|]. split; [exact E2|].
  split; [reflexivity|]. split; [reflexivity|].
  refine (objects_grow_with_version _ _ _ _ _ _ _ _ "1.0" "2.0" v1_0 v2_0
            _ _ _ _ _ E1 E2); vm_compute; reflexivity.
Defined.

End XMLCreatorMoreFacts.

(* ===================================================================== *)
(** * Part IX: properties of the shim                                     *)
(* ===================================================================== *)

Module ArlingtonPDFShimFacts.

Import ArlingtonPDFShim ArlingtonPDFShimSpec.

(** X18.  With the SDK initialised, [get_trailer] returns a trailer only
    for a document whose trailer dictionary has both a Root and an Info
    entry, and then the flag tells whether it has a Type entry; when the
    document opens and has a trailer without Root or without Info, a member
    function is called through the null pointer that [Get] returned. *)
Theorem get_trailer_needs_root_and_info (ndebug : bool) (pdfix : Pdfix)
  (pdf_filename : string) :
  (forall t,
     get_trailer ndebug (Some pdfix) pdf_filename = Returns (Some t) ->
     exists doc,
       OpenDoc pdfix pdf_filename "" = Some doc
       /\ GetTrailerObject doc = Some (object t)
       /\ is_some (Get (object t) "Root") = true
       /\ is_some (Get (object t) "Info") = true
       /\ is_xrefstm t = is_some (Get (object t) "Type"))
  /\ (forall doc trailer,
        OpenDoc pdfix pdf_filename "" = Some doc ->
        GetTrailerObject doc = Some trailer ->
        Get trailer "Root" = None \/ Get trailer "Info" = None ->
        get_trailer ndebug (Some pdfix) pdf_filename = NullDereference).
Proof.
  unfold get_trailer. split.
  - intros t H.
    destruct (OpenDoc pdfix pdf_filename "") as [doc|]; [|discriminate].
    destruct (GetTrailerObject doc) as [trailer|] eqn:T; [|discriminate].
    destruct (Get trailer "Root") eqn:R; [|discriminate].
    destruct (Get trailer "Info") eqn:I; [|discriminate].
    injection H as <-. exists doc. cbn [object is_xrefstm].
    rewrite R, I. repeat split. assumption.
  - intros doc trailer -> -> [-> | ->]; [reflexivity|].
    destruct (Get trailer "Root"); reflexivity.
Qed.

Lemma get_trailer_needs_root_and_info_witness :
  get_trailer false (Some (sdk_with ["Root"; "Size"])) "a.pdf"
  = NullDereference.
Proof.
  apply (proj2 (get_trailer_needs_root_and_info false
                  (sdk_with ["Root"; "Size"]) "a.pdf")
               {| GetTrailerObject := Some (trailer_with ["Root"; "Size"]) |}
               (trailer_with ["Root"; "Size"]) eq_refl eq_refl).
  right. reflexivity.
Defined.

(** X19.  [get_object_type] keeps the SDK types apart: two objects get the
    same type only when the SDK gave them the same one; a null handle is
    reported as a PDF null object; and [is_indirect_ref], which stops on a
    null handle, returns true exactly for the objects that
    [get_object_type] reports as references. *)
Theorem object_types_are_kept_apart (ndebug : bool) (o1 o2 : PdsObject) :
  (get_object_type (Some o1) = get_object_type (Some o2) ->
   GetObjectType o1 = GetObjectType o2)
  /\ (get_object_type None = get_object_type (Some o1) <->
      GetObjectType o1 = kPdsNull)
  /\ (is_indirect_ref ndebug (Some o1) = Returns true <->
      get_object_type (Some o1) = ArlPDFObjTypeReference)
  /\ (forall b, is_indirect_ref ndebug None <> Returns b).
Proof.
  unfold get_object_type, is_indirect_ref. split; [|split; [|split]].
  - destruct (GetObjectType o1), (GetObjectType o2);
      solve [reflexivity | discriminate].
  - destruct (GetObjectType o1); split; solve [reflexivity | discriminate].
  - destruct (GetObjectType o1); split; solve [reflexivity | discriminate].
  - intros b. destruct ndebug; discriminate.
Qed.

End ArlingtonPDFShimFacts.
